(** * dalbo-aiapi: invoice extraction and normalisation pipeline

    A shallow embedding of [src/data_formatter.py], [src/data_extracter.py],
    [src/api/llm.py] and [src/api/main.py], and the properties of the
    pipeline proved on it.

    - Values are the ones [json.loads] produces ([json]); a dict keeps its
      insertion order.
    - An exception is a result ([Raise]); [try]/[except] is
      [try_except].
    - Strings are sequences of code points below 256 (Latin-1), on which
      [str.lower], [str.strip], [int] and [float] are written out; a
      float is a binary64 of [SpecFloat].
    - The provider, the credential, [json.loads] and [json.dumps] are the
      environment [env]; a computation that may call the provider carries
      the list of the prompts sent so far ([M]).
    - [merge_items_by_invoice] grows lists in place: [MergeObjects] has
      the lists as objects in a store and is shown to agree with the
      merge on values as long as no two records share a list.
    - The uploaded file, the answer of the CRM, the key of the API and
      the registry of companies are the [upload] and the [world] of a
      request ([Request]). *)

From Stdlib Require Import List String Ascii Bool Arith ZArith Lia.
From Stdlib Require Import DecimalString SpecFloat.
From Equations Require Import Equations.
Import ListNotations.

Local Open Scope list_scope.
Local Open Scope string_scope.
Local Open Scope nat_scope.

(** ** Python strings *)

Module PyStr.

(** [c.isspace()] for a code point below 256: TAB..CR, FS..US, SPACE,
    NEL and NBSP. *)
Definition isspace (c : ascii) : bool :=
  let n := nat_of_ascii c in
  ((9 <=? n) && (n <=? 13)) || ((28 <=? n) && (n <=? 32))
  || (n =? 133) || (n =? 160).

Definition isdigit (c : ascii) : bool :=
  let n := nat_of_ascii c in (48 <=? n) && (n <=? 57).

Definition digit_value (c : ascii) : Z := Z.of_nat (nat_of_ascii c) - 48.

(** [c.lower()]: A-Z and the Latin-1 capitals (all of C0..DE but the
    multiplication sign D7) move up by 32. *)
Definition lower_char (c : ascii) : ascii :=
  let n := nat_of_ascii c in
  if ((65 <=? n) && (n <=? 90))
     || ((192 <=? n) && (n <=? 222) && negb (n =? 215))
  then ascii_of_nat (n + 32) else c.

Fixpoint lower (s : string) : string :=
  match s with
  | EmptyString => EmptyString
  | String c t => String (lower_char c) (lower t)
  end.

Fixpoint lstrip (s : string) : string :=
  match s with
  | EmptyString => EmptyString
  | String c t => if isspace c then lstrip t else s
  end.

Fixpoint rstrip (s : string) : string :=
  match s with
  | EmptyString => EmptyString
  | String c t =>
      match rstrip t with
      | EmptyString => if isspace c then EmptyString else String c EmptyString
      | r => String c r
      end
  end.

(** [s.strip()] *)
Definition strip (s : string) : string := rstrip (lstrip s).

(** [s.replace(old, new)] for a one-character [old], the only form the
    program uses. *)
Fixpoint replace (old : ascii) (new : string) (s : string) : string :=
  match s with
  | EmptyString => EmptyString
  | String c t =>
      if Ascii.eqb c old then new ++ replace old new t
      else String c (replace old new t)
  end.

(** [needle in hay] *)
Fixpoint contains (needle hay : string) : bool :=
  prefix needle hay
  || match hay with
     | EmptyString => false
     | String _ t => contains needle t
     end.

(** The line feed, ["\n"]. *)
Definition newline : string := String (ascii_of_nat 10) EmptyString.

(** [sep.join(parts)] *)
Fixpoint join (sep : string) (parts : list string) : string :=
  match parts with
  | [] => EmptyString
  | [p] => p
  | p :: rest => p ++ sep ++ join sep rest
  end.

(** [str(n)] for a non-negative integer. *)
Definition str_of_nat (n : nat) : string :=
  NilZero.string_of_uint (Nat.to_uint n).

(** [list(s)]: the one-character strings of [s]. *)
Fixpoint chars (s : string) : list string :=
  match s with
  | EmptyString => []
  | String c t => String c EmptyString :: chars t
  end.

(** The declarative reading of [needle in hay]. *)
Definition substring_of (needle hay : string) : Prop :=
  exists pre post, hay = pre ++ needle ++ post.

End PyStr.

(** ** Python numbers read from strings *)

Module PyNum.
Import PyStr.

(** The leading run of ASCII digits of [s], and what follows it. *)
Fixpoint span_digits (s : string) : string * string :=
  match s with
  | EmptyString => (EmptyString, EmptyString)
  | String c t =>
      if isdigit c
      then let (d, r) := span_digits t in (String c d, r)
      else (EmptyString, s)
  end.

Fixpoint digits_value_acc (acc : Z) (s : string) : Z :=
  match s with
  | EmptyString => acc
  | String c t => digits_value_acc (10 * acc + digit_value c)%Z t
  end.

Definition digits_value (s : string) : Z := digits_value_acc 0 s.

Fixpoint all_digits (s : string) : bool :=
  match s with
  | EmptyString => true
  | String c t => isdigit c && all_digits t
  end.

(** An underscore in a numeric string is legal only between two digits;
    the result is the string without its underscores. *)
Fixpoint drop_underscores (prev_digit : bool) (s : string) : option string :=
  match s with
  | EmptyString => Some EmptyString
  | String c t =>
      if Ascii.eqb c "_"
      then match t with
           | String d _ =>
               if prev_digit && isdigit d then drop_underscores false t
               else None
           | EmptyString => None
           end
      else option_map (String c) (drop_underscores (isdigit c) t)
  end.

Definition split_sign (s : string) : bool * string :=
  match s with
  | String "-" t => (true, t)
  | String "+" t => (false, t)
  | _ => (false, s)
  end.

(** *** [int(s)] in base 10 *)

(** CPython's default cap on the number of digits [int] converts
    ([sys.get_int_max_str_digits()]); beyond it [int] raises ValueError. *)
Definition int_max_str_digits : nat := 4300.

Definition py_int (s : string) : option Z :=
  let (neg, body) := split_sign (strip s) in
  match drop_underscores false body with
  | None => None
  | Some EmptyString => None
  | Some u =>
      if all_digits u && (String.length u <=? int_max_str_digits)
      then Some (if neg then - digits_value u else digits_value u)%Z
      else None
  end.

(** *** [float(s)] *)

Definition prec : Z := 53.
Definition emax : Z := 1024.

(** The binary64 nearest (ties to even) to the positive rational [n / d]:
    the quotient is taken with at least two guard bits and handed to the
    rounding of [SpecFloat] together with the position of the remainder. *)
Definition round_ratio (neg : bool) (n d : Z) : spec_float :=
  let k := (Zdigits2 n - Zdigits2 d)%Z in
  let ex := Z.min (k - prec - 2) (emin prec emax) in
  let num := (n * 2 ^ (- ex))%Z in
  let q := (num / d)%Z in
  let r := (num mod d)%Z in
  let loc := if (r =? 0)%Z then loc_Exact else loc_Inexact (2 * r ?= d)%Z in
  binary_round_aux prec emax neg q ex loc.

(** The binary64 nearest to [m * 10 ^ e], for [m >= 0]. *)
Definition round_decimal (neg : bool) (m e : Z) : spec_float :=
  if (m =? 0)%Z then S754_zero neg
  else if (0 <=? e)%Z then round_ratio neg (m * 10 ^ e) 1
  else round_ratio neg m (10 ^ (- e)).

(** What follows the [e] of an exponent: an optional sign and at least
    one digit, up to the end of the string. *)
Definition parse_exponent (s : string) : option Z :=
  let (neg, r) := split_sign s in
  match span_digits r with
  | (String c d, EmptyString) =>
      Some (if neg then - digits_value (String c d)
            else digits_value (String c d))%Z
  | _ => None
  end.

(** A decimal numeral [digits [. digits] [e exponent]] with at least one
    digit before the exponent, as a pair (mantissa, power of ten). *)
Definition parse_decimal (s : string) : option (Z * Z) :=
  let (ip, r1) := span_digits s in
  let (fp, r2) :=
    match r1 with
    | String "." t => span_digits t
    | _ => (EmptyString, r1)
    end in
  match ip ++ fp with
  | EmptyString => None
  | ds =>
      let scale := (- Z.of_nat (String.length fp))%Z in
      match r2 with
      | EmptyString => Some (digits_value ds, scale)
      | String c t =>
          if Ascii.eqb c "e" || Ascii.eqb c "E"
          then option_map (fun x => (digits_value ds, x + scale)%Z)
                          (parse_exponent t)
          else None
      end
  end.

Definition py_float (s : string) : option spec_float :=
  match drop_underscores false (strip s) with
  | None => None
  | Some u =>
      let (neg, body) := split_sign u in
      match parse_decimal body with
      | Some (m, e) => Some (round_decimal neg m e)
      | None =>
          let w := lower body in
          if String.eqb w "inf" || String.eqb w "infinity"
          then Some (S754_infinity neg)
          else if String.eqb w "nan" then Some S754_nan
          else None
      end
  end.

End PyNum.

(** ** Python values and exceptions *)

(** The values [json.loads] builds: [None], [bool], [int], [float], [str],
    [list] and [dict] (insertion-ordered, keyed by strings). *)
#[warnings="-register-all"]
Inductive json : Type :=
| JNull
| JBool (b : bool)
| JInt (n : Z)
| JFloat (f : spec_float)
| JStr (s : string)
| JArr (xs : list json)
| JObj (kvs : list (string * json)).

(** A dict with string keys, in insertion order. *)
Definition dict : Type := list (string * json).

Inductive exn : Type :=
| HTTPException (status_code : Z) (detail : string)
| JSONDecodeError (msg : string)
| ValueError (msg : string)
| TypeError (msg : string)
| KeyError (msg : string)
| AttributeError (msg : string)
| ProviderFailure (msg : string).

Inductive result (A : Type) : Type :=
| Ok (a : A)
| Raise (e : exn).

Arguments Ok {A} a.
Arguments Raise {A} e.

Definition bind {A B : Type} (r : result A) (k : A -> result B) : result B :=
  match r with
  | Ok a => k a
  | Raise e => Raise e
  end.

Declare Scope py_scope.
Delimit Scope py_scope with py.
Notation "x <- r ;; k" := (bind r (fun x => k))
  (at level 61, r at next level, right associativity) : py_scope.
Local Open Scope py_scope.

Module Py.
Import PyStr.

(** [str(n)] for an [int]. *)
Definition str_of_Z (n : Z) : string :=
  match n with
  | Z0 => "0"
  | Zpos p => str_of_nat (Pos.to_nat p)
  | Zneg p => "-" ++ str_of_nat (Pos.to_nat p)
  end.

(** [str(e)]: Starlette's [HTTPException.__str__] prints the status code
    and the detail; the other exceptions print their message. *)
Definition str_of_exn (e : exn) : string :=
  match e with
  | HTTPException status_code detail => str_of_Z status_code ++ ": " ++ detail
  | JSONDecodeError msg => msg
  | ValueError msg => msg
  | TypeError msg => msg
  | KeyError msg => msg
  | AttributeError msg => msg
  | ProviderFailure msg => msg
  end.

(** [bool(v)] *)
Definition truthy (v : json) : bool :=
  match v with
  | JNull => false
  | JBool b => b
  | JInt n => negb (n =? 0)%Z
  | JFloat (S754_zero _) => false
  | JFloat _ => true
  | JStr EmptyString => false
  | JStr _ => true
  | JArr [] => false
  | JArr _ => true
  | JObj [] => false
  | JObj _ => true
  end.

(** [type(v).__name__] *)
Definition type_name (v : json) : string :=
  match v with
  | JNull => "NoneType"
  | JBool _ => "bool"
  | JInt _ => "int"
  | JFloat _ => "float"
  | JStr _ => "str"
  | JArr _ => "list"
  | JObj _ => "dict"
  end.

(** [d.get(k)] as an option, [d[k] = v] and [k in d] on a dict. *)
Fixpoint obj_get (k : string) (d : dict) : option json :=
  match d with
  | [] => None
  | (k', v) :: rest => if String.eqb k' k then Some v else obj_get k rest
  end.

Fixpoint obj_set (k : string) (v : json) (d : dict) : dict :=
  match d with
  | [] => [(k, v)]
  | (k', v') :: rest =>
      if String.eqb k' k then (k', v) :: rest
      else (k', v') :: obj_set k v rest
  end.

Definition obj_has (k : string) (d : dict) : bool :=
  match obj_get k d with
  | Some _ => true
  | None => false
  end.

Definition is_str (k : string) (v : json) : bool :=
  match v with
  | JStr s => String.eqb s k
  | _ => false
  end.

(** [k in v] for a string [k]: key membership in a dict, substring test
    in a str, element test in a list; anything else is not a container. *)
Definition py_in (k : string) (v : json) : result bool :=
  match v with
  | JObj d => Ok (obj_has k d)
  | JStr s => Ok (contains k s)
  | JArr xs => Ok (existsb (is_str k) xs)
  | _ => Raise (TypeError ("argument of type '" ++ type_name v
                           ++ "' is not iterable"))
  end.

(** [v[k]] for a string [k]. *)
Definition py_getitem (k : string) (v : json) : result json :=
  match v with
  | JObj d =>
      match obj_get k d with
      | Some x => Ok x
      | None => Raise (KeyError ("'" ++ k ++ "'"))
      end
  | JStr _ => Raise (TypeError "string indices must be integers")
  | JArr _ => Raise (TypeError "list indices must be integers or slices, not str")
  | _ => Raise (TypeError ("'" ++ type_name v ++ "' object is not subscriptable"))
  end.

(** [list(v)]: what a [for] loop or [list.extend] draws from [v]. *)
Definition py_iter (v : json) : result (list json) :=
  match v with
  | JArr xs => Ok xs
  | JStr s => Ok (map JStr (chars s))
  | JObj d => Ok (map (fun kv => JStr (fst kv)) d)
  | _ => Raise (TypeError ("'" ++ type_name v ++ "' object is not iterable"))
  end.

(** [v.lower()], defined on [str] only. *)
Definition py_lower (v : json) : result string :=
  match v with
  | JStr s => Ok (lower s)
  | _ => Raise (AttributeError ("'" ++ type_name v
                                ++ "' object has no attribute 'lower'"))
  end.

(** A loop [for x in xs: ...] whose body appends at most one value to a
    list, or raises. *)
Fixpoint collect {A B : Type} (body : A -> result (option B)) (xs : list A)
  : result (list B) :=
  match xs with
  | [] => Ok []
  | x :: rest =>
      r <- body x ;;
      rs <- collect body rest ;;
      Ok (match r with Some y => y :: rs | None => rs end)
  end.

End Py.

(** ** The outside world: provider, decoder, call log *)

(** What [model.generate_content] hands back: the block reason of the
    prompt feedback ([None] when it is falsy, else its printed form) and
    the [text] property, which raises when the response has no text. *)
Record response : Type := mkResponse {
  block_reason : option string;
  text : result string
}.

(** Everything the program takes from outside itself.  The provider may
    answer differently on every call: it sees the prompts sent before. *)
Record env : Type := mkEnv {
  GOOGLE_API_KEY : option string;
  generate_content : list string -> string -> result response;
  json_loads : string -> result json;
  json_dumps : json -> string
}.

(** A computation that may call the provider: it runs from the list of
    prompts sent so far, and returns its outcome with the extended list. *)
Definition M (A : Type) : Type := list string -> result A * list string.

Definition ret {A : Type} (a : A) : M A := fun l => (Ok a, l).

Definition raise {A : Type} (e : exn) : M A := fun l => (Raise e, l).

Definition lift {A : Type} (r : result A) : M A := fun l => (r, l).

Definition bindM {A B : Type} (c : M A) (k : A -> M B) : M B :=
  fun l =>
    match c l with
    | (Ok a, l') => k a l'
    | (Raise e, l') => (Raise e, l')
    end.

Notation "x <~ c ;; k" := (bindM c (fun x => k))
  (at level 61, c at next level, right associativity) : py_scope.

(** [try: c except Exception as e: raise h(e)] *)
Definition try_except {A : Type} (c : M A) (h : exn -> exn) : M A :=
  fun l =>
    match c l with
    | (Ok a, l') => (Ok a, l')
    | (Raise e, l') => (Raise (h e), l')
    end.

(** ** src/api/llm.py *)

Module Llm.
Import Py.

(** [model.generate_content(prompt, ...)], logged. *)
Definition send (E : env) (prompt : string) : M response :=
  fun l => (generate_content E l prompt, (l ++ [prompt])%list).

Definition call_llm (E : env) (prompt : string) : M string :=
  match GOOGLE_API_KEY E with
  | None | Some EmptyString =>
      raise (HTTPException 500
        "GOOGLE_API_KEY not found in environment variables. Please set it in your .env file.")
  | Some _ =>
      try_except
        (response <~ send E prompt ;;
         match block_reason response with
         | Some reason =>
             raise (HTTPException 500 ("Request was blocked: " ++ reason))
         | None => lift (text response)
         end)
        (fun e => HTTPException 500
                    ("Error during Gemini API call: " ++ str_of_exn e))
  end.

End Llm.

(** ** src/data_formatter.py *)

Module DataFormatter.
Import PyStr PyNum Py Llm.

Definition convert_price_to_float (price_str : json) : json :=
  match price_str with
  | JStr EmptyString => JNull
  | JStr s =>
      let cleaned_price := replace "," "." (replace "." "" (strip s)) in
      match py_float cleaned_price with
      | Some f => JFloat f
      | None => JNull
      end
  | _ => JNull
  end.

Definition convert_quantity_to_int (quantity_str : json) : json :=
  match quantity_str with
  | JStr EmptyString => JNull
  | JStr s =>
      let cleaned_quantity := strip s in
      match py_int cleaned_quantity with
      | Some n => JInt n
      | None => JNull
      end
  | _ => JNull
  end.

(** [for standard_name in standard_names: if standard_name.lower() in
    product_name.lower(): return standard_name], else [product_name]. *)
Fixpoint normalize_product_name (product_name : json)
  (standard_names : list string) : result json :=
  match standard_names with
  | [] => Ok product_name
  | standard_name :: rest =>
      n <- py_lower product_name ;;
      if contains (lower standard_name) n then Ok (JStr standard_name)
      else normalize_product_name product_name rest
  end.

(** [if k in d: d[k] = conv(d[k])] *)
Definition convert_field (conv : json -> json) (k : string) (d : dict) : dict :=
  match obj_get k d with
  | Some v => obj_set k (conv v) d
  | None => d
  end.

Definition normalize_product_data (product : dict) : dict :=
  let normalized_product := product in
  let normalized_product :=
    convert_field convert_price_to_float "full_price" normalized_product in
  let normalized_product :=
    convert_field convert_price_to_float "discounted_price" normalized_product in
  convert_field convert_quantity_to_int "quantity" normalized_product.

(** [any(standard_name.lower() in x["name"].lower() for standard_name in
    standard_names)]: [name] is the evaluation of [x["name"]], redone for
    every standard name and never reached for an empty list. *)
Fixpoint any_match (name : result json) (standard_names : list string)
  : result bool :=
  match standard_names with
  | [] => Ok false
  | standard_name :: rest =>
      v <- name ;;
      n <- py_lower v ;;
      if contains (lower standard_name) n then Ok true
      else any_match name rest
  end.

(** [x = x.copy(); x[k] = v] on a value that has to be a dict. *)
Definition copy_with (k : string) (v : json) (x : json) : result json :=
  match x with
  | JObj d => Ok (JObj (obj_set k v d))
  | _ => Raise (TypeError ("'" ++ type_name x
                           ++ "' object does not support item assignment"))
  end.

(** The body of the loop of [normalize_coverings]: [None] when the
    covering is passed over, the renamed covering when it is kept. *)
Definition normalize_covering (coverings_list : list string) (covering : json)
  : result (option json) :=
  has_name <- py_in "name" covering ;;
  if negb has_name then Ok None
  else
    matched <- any_match (py_getitem "name" covering) coverings_list ;;
    if negb matched then Ok None
    else
      name <- py_getitem "name" covering ;;
      canonical <- normalize_product_name name coverings_list ;;
      normalized_covering <- copy_with "name" canonical covering ;;
      Ok (Some normalized_covering).

Definition normalize_coverings (coverings : list json)
  (coverings_list : list string) : result (list json) :=
  collect (normalize_covering coverings_list) coverings.

(** The body of the product loop of [process_chunk_data]. *)
Definition normalize_product (products_list coverings_list : list string)
  (product : json) : result (option json) :=
  has_name <- py_in "name" product ;;
  if negb has_name then Ok None
  else
    matched <- any_match (py_getitem "name" product) products_list ;;
    if negb matched then Ok None
    else
      match product with
      | JObj d =>
          let normalized_product := normalize_product_data d in
          name <- py_getitem "name" product ;;
          canonical <- normalize_product_name name products_list ;;
          let normalized_product := obj_set "name" canonical normalized_product in
          match obj_get "coverings" normalized_product with
          | Some (JArr coverings) =>
              kept <- normalize_coverings coverings coverings_list ;;
              Ok (Some (JObj (obj_set "coverings" (JArr kept)
                                      normalized_product)))
          | _ => Ok (Some (JObj normalized_product))
          end
      | _ => Raise (AttributeError ("'" ++ type_name product
                                    ++ "' object has no attribute 'copy'"))
      end.

(** The body of the record loop of [process_chunk_data]. *)
Definition process_item (products_list coverings_list : list string)
  (item : json) : result (option json) :=
  has_products <- py_in "products" item ;;
  if negb has_products then Ok None
  else
    products <- py_getitem "products" item ;;
    match products with
    | JArr ps =>
        normalized_products <-
          collect (normalize_product products_list coverings_list) ps ;;
        match normalized_products with
        | [] => Ok None
        | _ :: _ =>
            processed_item <-
              copy_with "products" (JArr normalized_products) item ;;
            Ok (Some processed_item)
        end
    | _ => Ok None
    end.

(** Lines 135-168 of [process_chunk_data]: the records handed to the
    client-name normalisation. *)
Definition filter_items (products_list coverings_list : list string)
  (data : list json) : result (list json) :=
  collect (process_item products_list coverings_list) data.

(** The prompt of the client-name normalisation. *)
Definition client_prompt (E : env) (clients_list : json)
  (processed_items : list json) : string :=
  "
        You are an assistant specialized in normalizing client names. Your task is to match and replace client names with their standardized versions from a reference list.

        REFERENCE LIST:
        " ++ json_dumps E clients_list ++ "

        RULES:
        1. Match the input client name with the most similar name in the reference list
        2. If a match is found, replace the name with the standardized version and include its ID
        3. If no match is found, keep the original name
        4. Preserve all other fields in the input data
        5. Return the data in the same format as the input

        INPUT DATA:
        " ++ json_dumps E (JArr processed_items) ++ "

        Return the normalized data in JSON format.
        ".

(** [json.loads(call_llm(prompt))] *)
Definition ask_json (E : env) (prompt : string) : M json :=
  answer <~ call_llm E prompt ;;
  lift (json_loads E answer).

Definition process_chunk_data (E : env) (chunk : dict)
  (products_list coverings_list : list string) (clients_list : json)
  : M json :=
  match obj_get "data" chunk with
  | Some (JArr data) =>
      processed_items <~ lift (filter_items products_list coverings_list data) ;;
      match processed_items with
      | [] => ret (JArr [])
      | _ :: _ =>
          let prompt := client_prompt E clients_list processed_items in
          try_except (ask_json E prompt)
            (fun e => HTTPException 500
               ("Error during client names normalization in chunk: "
                ++ str_of_exn e))
      end
  | _ => ret (JArr [])
  end.

(** *** Merging by invoice number *)

(** A hashable value as a dict key.  Python compares numbers by value
    ([1 == 1.0 == True]): a number is kept as [m * 2 ^ e] with [m] odd.
    Every NaN that [json.loads] builds is one object, which a dict finds
    by identity. *)
Inductive pykey : Type :=
| KNone
| KStr (s : string)
| KNum (m e : Z)
| KInf (neg : bool)
| KNan.

(** [p = m * 2 ^ k] with [m] odd. *)
Fixpoint odd_part (p : positive) : positive * Z :=
  match p with
  | xO q => let (m, k) := odd_part q in (m, k + 1)%Z
  | _ => (p, 0%Z)
  end.

Definition key_of_dyadic (neg : bool) (p : positive) (e : Z) : pykey :=
  let (m, k) := odd_part p in
  KNum (if neg then Zneg m else Zpos m) (e + k).

(** [hash(v)], with the key it makes. *)
Definition hash_key (v : json) : result pykey :=
  match v with
  | JNull => Ok KNone
  | JBool b => Ok (if b then KNum 1 0 else KNum 0 0)
  | JInt Z0 => Ok (KNum 0 0)
  | JInt (Zpos p) => Ok (key_of_dyadic false p 0)
  | JInt (Zneg p) => Ok (key_of_dyadic true p 0)
  | JFloat (S754_zero _) => Ok (KNum 0 0)
  | JFloat (S754_infinity neg) => Ok (KInf neg)
  | JFloat S754_nan => Ok KNan
  | JFloat (S754_finite neg m e) => Ok (key_of_dyadic neg m e)
  | JStr s => Ok (KStr s)
  | JArr _ | JObj _ =>
      Raise (TypeError ("unhashable type: '" ++ type_name v ++ "'"))
  end.

Definition pykey_eqb (a b : pykey) : bool :=
  match a, b with
  | KNone, KNone => true
  | KStr s, KStr t => String.eqb s t
  | KNum m e, KNum m' e' => (m =? m')%Z && (e =? e')%Z
  | KInf s, KInf t => Bool.eqb s t
  | KNan, KNan => true
  | _, _ => false
  end.

(** [invoice_dict]: invoice number to record, in insertion order. *)
Definition invoice_dict : Type := list (pykey * dict).

Fixpoint dict_get (k : pykey) (d : invoice_dict) : option dict :=
  match d with
  | [] => None
  | (k', v) :: rest => if pykey_eqb k' k then Some v else dict_get k rest
  end.

Fixpoint dict_set (k : pykey) (v : dict) (d : invoice_dict) : invoice_dict :=
  match d with
  | [] => [(k, v)]
  | (k', v') :: rest =>
      if pykey_eqb k' k then (k', v) :: rest
      else (k', v') :: dict_set k v rest
  end.

(** [item.get("invoice_number")] *)
Definition get_invoice_number (item : dict) : json :=
  match obj_get "invoice_number" item with
  | Some v => v
  | None => JNull
  end.

(** [invoice_dict[invoice_number]["products"].extend(item["products"])]:
    the stored record's list grows in place. *)
Definition extend_products (stored item : dict) : result dict :=
  match obj_get "products" stored with
  | None => Raise (KeyError "'products'")
  | Some (JArr products) =>
      match obj_get "products" item with
      | None => Raise (KeyError "'products'")
      | Some v =>
          more <- py_iter v ;;
          Ok (obj_set "products" (JArr (products ++ more)%list) stored)
      end
  | Some v =>
      Raise (AttributeError ("'" ++ type_name v
                             ++ "' object has no attribute 'extend'"))
  end.

(** One turn of the loop of [merge_items_by_invoice]. *)
Definition merge_step (acc : invoice_dict) (item : json) : result invoice_dict :=
  match item with
  | JObj d =>
      let invoice_number := get_invoice_number d in
      if negb (truthy invoice_number) then Ok acc
      else
        k <- hash_key invoice_number ;;
        match dict_get k acc with
        | Some stored =>
            merged <- extend_products stored d ;;
            Ok (dict_set k merged acc)
        | None => Ok (acc ++ [(k, d)])%list
        end
  | _ => Raise (AttributeError ("'" ++ type_name item
                                ++ "' object has no attribute 'get'"))
  end.

Fixpoint merge_loop (acc : invoice_dict) (items : list json)
  : result invoice_dict :=
  match items with
  | [] => Ok acc
  | item :: rest =>
      acc' <- merge_step acc item ;;
      merge_loop acc' rest
  end.

Definition merge_items_by_invoice (items : list json) : result (list json) :=
  invoice_dict <- merge_loop [] items ;;
  Ok (map (fun kv => JObj (snd kv)) invoice_dict).

(** The loop of [normalize_results] over the chunks. *)
Fixpoint normalize_chunks (E : env) (chunks : list dict)
  (products_list coverings_list : list string) (clients_list : json)
  (processed_items : list json) : M (list json) :=
  match chunks with
  | [] => ret processed_items
  | chunk :: rest =>
      out <~ process_chunk_data E chunk products_list coverings_list
                                clients_list ;;
      more <~ lift (py_iter out) ;;
      normalize_chunks E rest products_list coverings_list clients_list
                       (processed_items ++ more)%list
  end.

(** [normalize_results], from the chunks of [result["raw_data"]]. *)
Definition normalize_results (E : env) (chunks : list dict)
  (products_list coverings_list : list string) (clients_list : json)
  : M (list json) :=
  processed_items <~ normalize_chunks E chunks products_list coverings_list
                                      clients_list [] ;;
  lift (merge_items_by_invoice processed_items).

End DataFormatter.

(** ** src/data_extracter.py *)

Module DataExtracter.
Import PyStr Py Llm DataFormatter.

Definition PAGES_PER_CHUNK : nat := 10.

(** [range(i, n, PAGES_PER_CHUNK)] *)
Equations? range_from (i n : nat) : list nat by wf (n - i) lt :=
  range_from i n with lt_dec i n := {
    | left _ => i :: range_from (i + PAGES_PER_CHUNK) n ;
    | right _ => [] }.
Proof.
  unfold PAGES_PER_CHUNK. lia.
Qed.

(** The values [i] takes in the chunk loop. *)
Definition chunk_starts (pages_text : list string) : list nat :=
  range_from 0 (List.length pages_text).

(** [pages_text[i : i + PAGES_PER_CHUNK]] *)
Definition chunk_pages (pages_text : list string) (i : nat) : list string :=
  firstn PAGES_PER_CHUNK (skipn i pages_text).

Definition chunk_text (pages_text : list string) (i : nat) : string :=
  join newline (chunk_pages pages_text i).

(** The first and last page (1-based) of the chunk that starts at [i]. *)
Definition first_page (i : nat) : nat := i + 1.

Definition last_page (pages_text : list string) (i : nat) : nat :=
  Nat.min (i + PAGES_PER_CHUNK) (List.length pages_text).

Definition current_chunk_range (pages_text : list string) (i : nat) : string :=
  str_of_nat (first_page i) ++ "-" ++ str_of_nat (last_page pages_text i).

Definition chunk_prompt (main_prompt : string) (pages_text : list string)
  (i : nat) : string :=
  main_prompt ++ "

Extract informations from the following invoices text (pages "
  ++ current_chunk_range pages_text i ++ "): 
---
" ++ chunk_text pages_text i ++ "
---".

(** An entry of [COMPANIES_INFO]. *)
Record company : Type := mkCompany {
  NAME : string;
  MAIN_PROMPT : string;
  PRODUCTS_LIST : list string;
  COVERINGS_LIST : list string
}.

(** The dict [extract_invoice_data] returns. *)
Record invoice_result : Type := mkResult {
  filename : string;
  company_id : string;
  company_name : string;
  chunks : list dict;
  total_chunks : nat;
  total_pages : nat;
  normalized_data : list json
}.

Definition no_result_error (pages : string) : exn :=
  HTTPException 500
    ("Error: No result (raw invoice info) from Gemini API for pages " ++ pages).

Definition parse_error (pages msg : string) : exn :=
  HTTPException 500
    ("Error parsing JSON response for pages " ++ pages ++ ": " ++ msg).

(** [except json.JSONDecodeError as e: raise HTTPException(...)]: any
    other exception of [json.loads] goes on as it is. *)
Definition on_decode_error (pages : string) (e : exn) : exn :=
  match e with
  | JSONDecodeError msg => parse_error pages msg
  | _ => e
  end.

(** The chunk loop (lines 155-184), over the remaining values of [i];
    [chunks] is [result["raw_data"]["chunks"]] so far. *)
Fixpoint extract_chunks (E : env) (main_prompt : string)
  (pages_text : list string) (starts : list nat) (chunks : list dict)
  : M (list dict) :=
  match starts with
  | [] => ret chunks
  | i :: rest =>
      let range := current_chunk_range pages_text i in
      initial_json <~ call_llm E (chunk_prompt main_prompt pages_text i) ;;
      match initial_json with
      | EmptyString => raise (no_result_error range)
      | _ =>
          match json_loads E initial_json with
          | Ok chunk_result =>
              extract_chunks E main_prompt pages_text rest
                (chunks ++ [[("pages", JStr range); ("data", chunk_result)]])%list
          | Raise e => raise (on_decode_error range e)
          end
      end
  end.

(** [extract_invoice_data] from line 143 on: the company entry, the
    client directory and the page texts are already at hand. *)
Definition extract_invoice_data (E : env) (file_name companyId : string)
  (company_config : company) (clients_list : json)
  (pages_text : list string) : M invoice_result :=
  raw_chunks <~ extract_chunks E (MAIN_PROMPT company_config) pages_text
                               (chunk_starts pages_text) [] ;;
  match raw_chunks with
  | [] => raise (HTTPException 500
                   "Error: No valid results from any chunk processing")
  | _ :: _ =>
      normalized <~ normalize_results E raw_chunks
                      (PRODUCTS_LIST company_config)
                      (COVERINGS_LIST company_config) clients_list ;;
      ret (mkResult file_name companyId (NAME company_config) raw_chunks
                    (List.length raw_chunks) (List.length pages_text)
                    normalized)
  end.

End DataExtracter.

(** ** Vocabulary of the properties *)

Module Spec.
Import PyStr Py DataFormatter.

(** [standard_name] occurs in [name], case-insensitively. *)
Definition matches (standard_name name : string) : Prop :=
  substring_of (lower standard_name) (lower name).

Definition some_match (standard_names : list string) (name : string) : Prop :=
  exists s, In s standard_names /\ matches s name.

(** [canonical] is the first entry of [standard_names], in list order,
    that occurs in [name]. *)
Definition first_match (standard_names : list string)
  (name canonical : string) : Prop :=
  exists earlier later,
    standard_names = (earlier ++ canonical :: later)%list
    /\ matches canonical name
    /\ forall s, In s earlier -> ~ matches s name.

(** A covering as the data model has it: a dict whose name, when it has
    one, is a string. *)
Definition covering_shape (covering : json) : Prop :=
  exists d, covering = JObj d
            /\ forall v, obj_get "name" d = Some v -> exists n, v = JStr n.

(** The coverings of a product, when it carries a list of them. *)
Definition coverings_of (product : dict) : list json :=
  match obj_get "coverings" product with
  | Some (JArr coverings) => coverings
  | _ => []
  end.

(** The test both loops make of a name against one standard name. *)
Definition hit (name standard_name : string) : bool :=
  contains (lower standard_name) (lower name).

(** The products of a record and the coverings of a product, where these
    are lists; the coverings found anywhere in a list of records. *)
Definition products_of (record : json) : list json :=
  match record with
  | JObj d =>
      match obj_get "products" d with
      | Some (JArr products) => products
      | _ => []
      end
  | _ => []
  end.

Definition coverings_of_product (product : json) : list json :=
  match product with
  | JObj d => coverings_of d
  | _ => []
  end.

Definition coverings_in (records : list json) : list json :=
  flat_map coverings_of_product (flat_map products_of records).

(** The covering rule read over a whole chunk: a named covering anywhere
    in the chunk is kept, renamed, exactly when its own name matches. *)
Definition covering_rule_in_chunk : Prop :=
  forall (pl cl : list string) (data out : list json)
         (covering : dict) (name : string),
    filter_items pl cl data = Ok out ->
    In (JObj covering) (coverings_in data) ->
    obj_get "name" covering = Some (JStr name) ->
    (some_match cl name <->
     exists c, In (JObj (obj_set "name" (JStr c) covering)) (coverings_in out)).

(** *** Numerals *)

(** Only white space; only digits and thousands dots. *)
Fixpoint blank (s : string) : bool :=
  match s with
  | EmptyString => true
  | String c t => isspace c && blank t
  end.

(** No character of [s] is white space. *)
Fixpoint solid (s : string) : bool :=
  match s with
  | EmptyString => true
  | String c t => negb (isspace c) && solid t
  end.

Fixpoint grouped (s : string) : bool :=
  match s with
  | EmptyString => true
  | String c t => (isdigit c || Ascii.eqb c ".") && grouped t
  end.

(** The price a string is cleaned to before [float] reads it. *)
Definition cleaned_price (s : string) : string :=
  replace "," "." (replace "." "" (strip s)).

(** *** Merging *)

(** The key under which the merge files a record; [None] for a record
    the merge passes over (no invoice number, or an empty one). *)
Definition invoice_key (item : json) : option pykey :=
  match item with
  | JObj d =>
      let invoice_number := get_invoice_number d in
      if truthy invoice_number then
        match hash_key invoice_number with
        | Ok k => Some k
        | Raise _ => None
        end
      else None
  | _ => None
  end.

Definition has_key (k : pykey) (item : json) : bool :=
  match invoice_key item with
  | Some k' => pykey_eqb k' k
  | None => false
  end.

(** The records filed under [k], in encounter order, and their products
    laid end to end. *)
Definition same_number (k : pykey) (items : list json) : list json :=
  filter (has_key k) items.

Definition merged_products (k : pykey) (items : list json) : list json :=
  flat_map products_of (same_number k items).

(** A record as the data model has it: a dict with a list of products
    whose invoice number, when there is one, is hashable. *)
Definition well_formed_item (item : json) : Prop :=
  exists d ps,
    item = JObj d
    /\ obj_get "products" d = Some (JArr ps)
    /\ (truthy (get_invoice_number d) = true ->
        exists k, hash_key (get_invoice_number d) = Ok k).

(** [first] is the first record of [items] filed under [k]. *)
Definition first_seen (k : pykey) (items : list json) (first : dict) : Prop :=
  exists earlier later,
    items = (earlier ++ JObj first :: later)%list
    /\ invoice_key (JObj first) = Some k
    /\ forall x, In x earlier -> invoice_key x <> Some k.

(** What [invoice_dict] holds once the records [seen] went through the
    loop: one entry per invoice number met, each the first record seen
    under that number with the products of all of them. *)
Definition entry_ok (seen : list json) (e : pykey * dict) : Prop :=
  exists first,
    first_seen (fst e) seen first
    /\ snd e = obj_set "products" (JArr (merged_products (fst e) seen)) first.

Definition merge_inv (seen : list json) (acc : invoice_dict) : Prop :=
  NoDup (map fst acc)
  /\ Forall (entry_ok seen) acc
  /\ forall x k, In x seen -> invoice_key x = Some k -> In k (map fst acc).

End Spec.

(** ** Vocabulary of the properties of a run *)

Module RunSpec.
Import PyStr Py Llm DataFormatter DataExtracter.

(** The extraction prompts of a run, one per chunk, in order. *)
Definition extraction_prompts (main_prompt : string)
  (pages_text : list string) : list string :=
  map (chunk_prompt main_prompt pages_text) (chunk_starts pages_text).

(** What [call_llm] answers for chunk number [j] of a run started after
    the prompts [l0], once the chunks before it were accepted. *)
Definition extraction_answer (E : env) (main_prompt : string)
  (pages_text : list string) (l0 : list string) (j : nat) : result string :=
  fst (call_llm E (nth j (extraction_prompts main_prompt pages_text) "")
                (l0 ++ firstn j (extraction_prompts main_prompt pages_text))%list).

(** The answer for chunk [j] is a non-empty string that decodes. *)
Definition chunk_accepted (E : env) (main_prompt : string)
  (pages_text : list string) (l0 : list string) (j : nat) : Prop :=
  exists t v,
    extraction_answer E main_prompt pages_text l0 j = Ok t
    /\ t <> ""
    /\ json_loads E t = Ok v.

(** The page range of chunk number [k]. *)
Definition range_of_chunk (pages_text : list string) (k : nat) : string :=
  current_chunk_range pages_text (nth k (chunk_starts pages_text) 0).

(** The client-name call made after the prompts [l] fails with [cause]:
    [call_llm] raises it, or its answer does not decode. *)
Definition second_call_fails (E : env) (clients_list : json)
  (survivors : list json) (l : list string) (cause : exn) : Prop :=
  fst (call_llm E (client_prompt E clients_list survivors) l) = Raise cause
  \/ exists t,
       fst (call_llm E (client_prompt E clients_list survivors) l) = Ok t
       /\ json_loads E t = Raise cause.

Definition client_error (cause : exn) : exn :=
  HTTPException 500
    ("Error during client names normalization in chunk: " ++ str_of_exn cause).

End RunSpec.

(** ** Sample data *)

Module Samples.
Import PyStr Py DataFormatter.

Definition products_list : list string := ["Divano Letto"; "Poltrona"].

Definition coverings_list : list string := ["DURIAN"; "PIANTA MAIORCA"].

Definition durian : dict :=
  [("name", JStr "Rivestimento DURIAN extra"); ("code", JStr "12");
   ("count", JStr "2")].

Definition unknown_fabric : dict :=
  [("name", JStr "Unknown Fabric"); ("code", JStr "7")].

Definition armchair : dict :=
  [("code", JStr "COD123"); ("name", JStr "POLTRONA relax blu");
   ("quantity", JStr "1"); ("full_price", JStr "1.234,56");
   ("discounted_price", JStr "abc");
   ("coverings", JArr [JObj durian; JObj unknown_fabric])].

(** A product no canonical name occurs in, carrying a covering whose
    name does match. *)
Definition lamp : dict :=
  [("code", JStr "L1"); ("name", JStr "Lampada");
   ("coverings", JArr [JObj durian])].

Definition lamp_record : dict :=
  [("name", JStr "Mario Rossi"); ("invoice_number", JStr "123/2024");
   ("products", JArr [JObj lamp])].

Definition sofa : dict :=
  [("code", JStr "DL1"); ("name", JStr "Divano Letto"); ("quantity", JInt 1)].

(** Two chunk outputs for invoice 123/2024 (the second repeats a product
    of the first) around a record without invoice number. *)
Definition invoice_first : dict :=
  [("name", JStr "Mario Rossi"); ("id", JStr "42");
   ("invoice_number", JStr "123/2024"); ("invoice_date", JStr "01/01/2024");
   ("products", JArr [JObj sofa; JObj armchair])].

Definition unnumbered : dict :=
  [("name", JStr "Anna Bianchi"); ("products", JArr [JObj sofa])].

Definition invoice_again : dict :=
  [("name", JStr "M. Rossi"); ("invoice_number", JStr "123/2024");
   ("products", JArr [JObj armchair])].

Definition chunk_outputs : list json :=
  [JObj invoice_first; JObj unnumbered; JObj invoice_again].

(** A record without a list of products, and one whose only product
    matches nothing. *)
Definition no_products : dict :=
  [("name", JStr "Mario Rossi"); ("invoice_number", JStr "9/2024");
   ("products", JStr "none")].

End Samples.

(** ** Sample runs *)

Module SampleRun.
Import PyStr Py Llm DataFormatter DataExtracter.

Definition armchair_record : dict :=
  [("name", JStr "Mario Rossi"); ("invoice_number", JStr "123/2024");
   ("invoice_date", JStr "01/01/2024");
   ("products", JArr [JObj Samples.armchair])].

(** A decoder that knows two documents and rejects everything else. *)
Definition decode (s : string) : result json :=
  if String.eqb s "[]" then Ok (JArr [])
  else if String.eqb s "[armchair record]"
       then Ok (JArr [JObj armchair_record])
       else Raise (JSONDecodeError "Expecting value: line 1 column 1 (char 0)").

Definition dumps (v : json) : string :=
  match v with
  | JArr [] => "[]"
  | _ => "[...]"
  end.

Definition answer (t : string) : result response :=
  Ok (mkResponse None (Ok t)).

(** A provider that answers the first prompt with [first] and every
    later prompt with [later]. *)
Definition provider (first later : result response)
  (sent : list string) (prompt : string) : result response :=
  match sent with
  | [] => first
  | _ :: _ => later
  end.

Definition env_of (first later : result response) : env :=
  mkEnv (Some "secret") (provider first later) decode dumps.

Definition le_comfort : company :=
  mkCompany "Le Comfort" "MAIN PROMPT"
            Samples.products_list Samples.coverings_list.

Definition fifteen_pages : list string := repeat "page text" 15.

Definition one_page : list string := ["Fattura 123/2024"].

Definition crm_clients : json :=
  JArr [JObj [("name", JStr "Mario Rossi"); ("id", JStr "42")]].

(** What the chunk loop records for [one_page] when the provider answers
    with the armchair record, and what the product filter keeps of it. *)
Definition recorded_chunk : dict :=
  [("pages", JStr "1-1"); ("data", JArr [JObj armchair_record])].

Definition armchair_survivor : json :=
  JObj [("name", JStr "Mario Rossi"); ("invoice_number", JStr "123/2024");
        ("invoice_date", JStr "01/01/2024");
        ("products", JArr [JObj
           [("code", JStr "COD123"); ("name", JStr "Poltrona");
            ("quantity", JInt 1);
            ("full_price", JFloat (S754_finite false 5429652300748554 (-42)));
            ("discounted_price", JNull);
            ("coverings", JArr [JObj
               [("name", JStr "DURIAN"); ("code", JStr "12");
                ("count", JStr "2")]])]])].

Definition outage : result response :=
  Raise (ProviderFailure "503 Service Unavailable").

(** A chunk whose only record has no matching product. *)
Definition lamp_chunk : dict :=
  [("pages", JStr "1-1"); ("data", JArr [JObj Samples.lamp_record])].

(** No key in the environment, and a provider that would fail. *)
Definition env_without_key : env :=
  mkEnv None (provider outage outage) decode dumps.

(** The provider reports the prompt as blocked; the provider fails with
    a message of its own. *)
Definition blocked : result response :=
  Ok (mkResponse (Some "SAFETY")
                 (Raise (ProviderFailure "response has no text"))).

Definition transport_failure : result response :=
  Raise (ProviderFailure "500: Request was blocked: SAFETY").

End SampleRun.

(** ** The merge on objects *)

(** [merge_items_by_invoice] files a shallow copy of the first record of
    an invoice number, so the filed record and that record share one list
    of products, and [extend] grows this list in place.  Here the lists
    of products are objects in a store and a record refers to its list by
    address; everything else the merge only reads and stays a value. *)
Module MergeObjects.
Import PyStr Py DataFormatter.

(** The list objects, by address. *)
Definition store : Type := list (list json).

(** A record object: its dict, and the address of the list that its
    [products] entry refers to. *)
Record record_obj : Type := mkRecord {
  fields : dict;
  products_at : nat
}.

Definition load (s : store) (a : nat) : list json := nth a s [].

Fixpoint store_set (s : store) (a : nat) (v : list json) : store :=
  match s, a with
  | [], _ => []
  | _ :: rest, O => v :: rest
  | x :: rest, S a' => x :: store_set rest a' v
  end.

(** The dict a record object stands for in the store [s]. *)
Definition view (s : store) (r : record_obj) : dict :=
  obj_set "products" (JArr (load s (products_at r))) (fields r).

Definition value_of (s : store) (r : record_obj) : json := JObj (view s r).

Definition filed : Type := list (pykey * record_obj).

Fixpoint filed_get (k : pykey) (d : filed) : option record_obj :=
  match d with
  | [] => None
  | (k', r) :: rest => if pykey_eqb k' k then Some r else filed_get k rest
  end.

(** One turn of the loop: [stored_list.extend(item_list)] writes the
    store, [item.copy()] files a record that keeps the item's address. *)
Definition merge_step_obj (st : store * filed) (item : record_obj)
  : result (store * filed) :=
  let (s, invoice_dict) := st in
  let invoice_number := get_invoice_number (fields item) in
  if negb (truthy invoice_number) then Ok st
  else
    k <- hash_key invoice_number ;;
    match filed_get k invoice_dict with
    | Some stored =>
        let a := products_at stored in
        Ok (store_set s a (load s a ++ load s (products_at item))%list,
            invoice_dict)
    | None => Ok (s, (invoice_dict ++ [(k, item)])%list)
    end.

Fixpoint merge_loop_obj (st : store * filed) (items : list record_obj)
  : result (store * filed) :=
  match items with
  | [] => Ok st
  | item :: rest =>
      st' <- merge_step_obj st item ;;
      merge_loop_obj st' rest
  end.

(** The returned list, read in the final store. *)
Definition merge_objects (s : store) (items : list record_obj)
  : result (list json) :=
  st <- merge_loop_obj (s, []) items ;;
  Ok (map (fun e => value_of (fst st) (snd e)) (snd st)).

(** The merge as seen on values: the filed dicts in the store [s]. *)
Definition seen (s : store) (d : filed) : invoice_dict :=
  map (fun e => (fst e, view s (snd e))) d.

Definition addresses (items : list record_obj) : list nat :=
  map products_at items.

(** The records of [Samples.chunk_outputs] as objects, each with a list
    of its own. *)
Definition sample_store : store :=
  [[JObj Samples.sofa; JObj Samples.armchair]; [JObj Samples.sofa];
   [JObj Samples.armchair]].

Definition sample_objects : list record_obj :=
  [mkRecord Samples.invoice_first 0; mkRecord Samples.unnumbered 1;
   mkRecord Samples.invoice_again 2].

(** One record object listed three times. *)
Definition thrice : list record_obj :=
  let r := mkRecord [("invoice_number", JStr "123/2024");
                     ("products", JArr [])] 0 in
  [r; r; r].

End MergeObjects.

(** ** The request layer: the rest of src/data_extracter.py, and
    src/api/main.py *)

Module Request.
Import PyStr Py Llm DataFormatter DataExtracter.

(** [s.endswith(suffix)] *)
Fixpoint endswith (s suffix : string) : bool :=
  String.eqb s suffix
  || match s with
     | EmptyString => false
     | String _ t => endswith t suffix
     end.

(** An uploaded file: its name, if the client sent one, and what the PDF
    library makes of its contents: the number of pages, once the file is
    read and parsed, and the text of each page. *)
Record upload : Type := mkUpload {
  upload_filename : option string;
  pdf_page_count : result nat;
  pdf_page_text : nat -> result string
}.

(** What the CRM answers to [GET /clients]: a status code and the JSON
    of the body ([response.json()]). *)
Record crm_response : Type := mkCrmResponse {
  crm_status : Z;
  crm_json : result json
}.

(** What a request finds around it: the key of the API, the registry of
    companies and the answer of the CRM ([client.get] may raise). *)
Record world : Type := mkWorld {
  API_KEY : option string;
  COMPANIES_INFO : list (string * company);
  crm_get : result crm_response
}.

(** The loop [for page_num in range(total_pages)] of [get_pdf_text]. *)
Fixpoint read_pages (file : upload) (page_nums : list nat)
  : result (list string) :=
  match page_nums with
  | [] => Ok []
  | page_num :: rest =>
      text <- pdf_page_text file page_num ;;
      pages_text <- read_pages file rest ;;
      Ok (text :: pages_text)
  end.

(** [not text.strip()] *)
Definition is_blank (text : string) : bool :=
  match strip text with
  | EmptyString => true
  | String _ _ => false
  end.

(** The body of the [try] of [get_pdf_text]. *)
Definition read_pdf (file : upload) : result (list string) :=
  total_pages <- pdf_page_count file ;;
  pages_text <- read_pages file (seq 0 total_pages) ;;
  match pages_text with
  | [] => Raise (HTTPException 500 "Error extracting text")
  | _ :: _ =>
      if forallb is_blank pages_text
      then Raise (HTTPException 500 "Error extracting text")
      else Ok pages_text
  end.

Definition get_pdf_text (file : upload) : result (list string) :=
  match upload_filename file with
  | None | Some EmptyString =>
      Raise (HTTPException 400 "Error: A valid PDF file is required")
  | Some name =>
      if negb (endswith name ".pdf")
      then Raise (HTTPException 400 "Error: A valid PDF file is required")
      else
        match read_pdf file with
        | Ok pages_text => Ok pages_text
        | Raise e =>
            Raise (HTTPException 500
                     ("Error during text extraction: " ++ str_of_exn e))
        end
  end.

Definition fetch_clients_from_crm (W : world) : result json :=
  response <- crm_get W ;;
  if (crm_status response =? 200)%Z
  then
    clients_data <- crm_json response ;;
    py_getitem "data" clients_data
  else
    Raise (HTTPException (crm_status response)
                         "Error: Failed to fetch clients data").

(** [COMPANIES_INFO[companyId]], when [companyId in COMPANIES_INFO]. *)
Fixpoint find_company (companyId : string)
  (registry : list (string * company)) : option company :=
  match registry with
  | [] => None
  | (id, c) :: rest =>
      if String.eqb id companyId then Some c else find_company companyId rest
  end.

Definition invalid_company : exn :=
  HTTPException 400 "Error: A valid company ID is required".

(** [extract_invoice_data] as a whole: the checks and the fetches of
    lines 125-141, then [DataExtracter.extract_invoice_data]. *)
Definition extract_invoice_data_of_upload (W : world) (E : env)
  (file : upload) (companyId : option string) : M invoice_result :=
  match companyId with
  | None | Some EmptyString => raise invalid_company
  | Some id =>
      match find_company id (COMPANIES_INFO W) with
      | None => raise invalid_company
      | Some company_config =>
          clients_list <~ lift (fetch_clients_from_crm W) ;;
          pages_text <~ lift (get_pdf_text file) ;;
          extract_invoice_data E
            (match upload_filename file with
             | Some name => name
             | None => EmptyString
             end)
            id company_config clients_list pages_text
      end
  end.

(** [a != b] on optional header and key. *)
Definition key_differs (a b : option string) : bool :=
  match a, b with
  | None, None => false
  | Some x, Some y => negb (String.eqb x y)
  | _, _ => true
  end.

(** src/api/main.py *)
Definition verify_api_key (W : world) (x_api_key : option string)
  : result (option string) :=
  if key_differs x_api_key (API_KEY W)
  then Raise (HTTPException 403 "API key not valid")
  else Ok x_api_key.

(** [POST /invoices/upload]: the dependency runs first, then the
    handler. *)
Definition upload_invoice (W : world) (E : env) (file : upload)
  (companyId : option string) (x_api_key : option string)
  : M invoice_result :=
  api_key <~ lift (verify_api_key W x_api_key) ;;
  extract_invoice_data_of_upload W E file companyId.

End Request.

(** ** Vocabulary of the laws of the pipeline *)

Module Laws.
Import PyStr Py Llm DataFormatter DataExtracter Spec RunSpec Request.

(** A product, a covering named by an entry of a reference list. *)
Definition named_in (standard_names : list string) (x : json) : Prop :=
  exists d c, x = JObj d /\ obj_get "name" d = Some (JStr c)
              /\ In c standard_names.

(** The upload is named as a PDF file; the company id names an entry of
    the registry. *)
Definition pdf_name (file : upload) (name : string) : Prop :=
  upload_filename file = Some name /\ exists stem, name = stem ++ ".pdf".

Definition known_company (W : world) (companyId : option string)
  (id : string) (company_config : company) : Prop :=
  companyId = Some id /\ id <> ""
  /\ find_company id (COMPANIES_INFO W) = Some company_config.

(** A lower-case letter of the ASCII alphabet; a string of them. *)
Definition low (c : ascii) : bool :=
  let n := nat_of_ascii c in (97 <=? n) && (n <=? 122).

Fixpoint lows (s : string) : bool :=
  match s with
  | EmptyString => true
  | String c t => low c && lows t
  end.

(** An optional sign, as it is written and as it is read. *)
Definition sign_text (sign : option bool) : string :=
  match sign with
  | None => ""
  | Some true => "-"
  | Some false => "+"
  end.

Definition sign_is_minus (sign : option bool) : bool :=
  match sign with
  | Some true => true
  | _ => false
  end.

(** The exception is an HTTPException; the outcome is a value or an
    exception of Python itself, not an HTTPException. *)
Definition is_http (e : exn) : bool :=
  match e with
  | HTTPException _ _ => true
  | _ => false
  end.

Definition plain_failure {A : Type} (r : result A) : Prop :=
  forall e, r = Raise e -> is_http e = false.

(** The details of the HTTPExceptions that [call_llm] and a run of
    [extract_invoice_data] raise themselves. *)
Definition client_failure (detail : string) : Prop :=
  detail = "GOOGLE_API_KEY not found in environment variables. Please set it in your .env file."
  \/ exists cause, detail = "Error during Gemini API call: " ++ cause.

Definition run_failure (detail : string) : Prop :=
  client_failure detail
  \/ (exists pages,
        detail = "Error: No result (raw invoice info) from Gemini API for pages "
                 ++ pages)
  \/ (exists pages msg,
        detail = "Error parsing JSON response for pages " ++ pages ++ ": " ++ msg)
  \/ detail = "Error: No valid results from any chunk processing"
  \/ (exists cause,
        detail = "Error during client names normalization in chunk: " ++ cause).

End Laws.

(** ** Sample requests *)

Module SampleRequest.
Import PyStr Py Llm DataFormatter DataExtracter Request.

(** A provider that answers every prompt with the armchair record. *)
Definition steady : env :=
  SampleRun.env_of (SampleRun.answer "[armchair record]")
                   (SampleRun.answer "[armchair record]").

(** What a run over [SampleRun.one_page] returns with it. *)
Definition document : invoice_result :=
  mkResult "invoices.pdf" "86e676e3-4cc0-4725-b12c-358d3b4b3e43" "Le Comfort"
           [SampleRun.recorded_chunk] 1 1 [JObj SampleRun.armchair_record].

(** A chunk whose second record has, after a lamp, a product named
    null. *)
Definition unnamed_product : dict := [("name", JNull)].

Definition misnamed_record : dict :=
  [("invoice_number", JStr "7/2024");
   ("products", JArr [JObj Samples.lamp; JObj unnamed_product])].

Definition misnamed_chunk : dict :=
  [("pages", JStr "1-1");
   ("data", JArr [JObj SampleRun.armchair_record; JObj misnamed_record])].

(** A one-page PDF, a scan without text, and a text file. *)
Definition invoice_pdf : upload :=
  mkUpload (Some "invoices.pdf") (Ok 1) (fun _ => Ok "Fattura 123/2024").

Definition blank_scan : upload :=
  mkUpload (Some "scan.pdf") (Ok 2) (fun _ => Ok (String (ascii_of_nat 12) "")).

Definition notes_txt : upload :=
  mkUpload (Some "notes.txt") (Ok 1) (fun _ => Ok "Fattura 123/2024").

(** A registry with one company, a CRM that answers, and one that
    refuses the secret key. *)
Definition registry : list (string * company) :=
  [("86e676e3-4cc0-4725-b12c-358d3b4b3e43", SampleRun.le_comfort)].

Definition crm_up : result crm_response :=
  Ok (mkCrmResponse 200 (Ok (JObj [("data", SampleRun.crm_clients)]))).

Definition crm_refuses : result crm_response :=
  Ok (mkCrmResponse 401 (Ok (JObj [("error", JStr "unauthorized")]))).

Definition office : world := mkWorld (Some "k3y") registry crm_up.

Definition locked_out : world := mkWorld (Some "k3y") registry crm_refuses.

End SampleRequest.

(** * Properties *)

(** ** Strings *)

Module PyStrFacts.
Import PyStr.

Lemma append_nil_r (s : string) : s ++ "" = s.
Proof. induction s as [|c s IH]; simpl; [reflexivity | now rewrite IH]. Qed.

Lemma append_assoc (a b c : string) : (a ++ b) ++ c = a ++ (b ++ c).
Proof. induction a as [|x a IH]; simpl; [reflexivity | now rewrite IH]. Qed.

Lemma prefix_iff (p s : string) :
  prefix p s = true <-> exists post, s = p ++ post.
Proof.
  revert s. induction p as [|c p IH]; intros s.
  - destruct s; simpl; split; intros _; eauto.
  - destruct s as [|d s]; simpl.
    + split; [discriminate | intros [post H]; discriminate].
    + destruct (ascii_dec c d) as [->|Hcd].
      * rewrite IH. split; intros [post H]; exists post.
        -- now rewrite H.
        -- congruence.
      * split; [discriminate | intros [post H]; congruence].
Qed.

(** [needle in hay] decides that [needle] occurs inside [hay]. *)
Lemma contains_iff (needle hay : string) :
  contains needle hay = true <-> substring_of needle hay.
Proof.
  unfold substring_of. induction hay as [|c hay IH].
  - cbn [contains]. rewrite orb_false_r, prefix_iff. split.
    + intros [post H]. exists "", post. exact H.
    + intros [pre [post H]]. destruct pre; simpl in H.
      * eauto.
      * discriminate.
  - cbn [contains]. rewrite orb_true_iff, prefix_iff, IH. split.
    + intros [[post H] | [pre [post H]]].
      * exists "", post. exact H.
      * exists (String c pre), post. simpl. now rewrite H.
    + intros [pre [post H]]. destruct pre as [|d pre]; simpl in H.
      * left. eauto.
      * right. exists pre, post. congruence.
Qed.

End PyStrFacts.

(** ** Reading numbers *)

Module PyNumFacts.
Import PyStr PyNum Spec PyStrFacts.

Lemma isdigit_cases (c : ascii) :
  isdigit c = true ->
  In c ["0"; "1"; "2"; "3"; "4"; "5"; "6"; "7"; "8"; "9"]%char.
Proof.
  destruct c as [[|] [|] [|] [|] [|] [|] [|] [|]]; intros H;
    try discriminate H; cbn; tauto.
Qed.

(** A digit is no white space, no sign, no separator, no underscore. *)
Lemma digit_plain (c : ascii) :
  isdigit c = true ->
  isspace c = false
  /\ Ascii.eqb c "_" = false /\ Ascii.eqb c "." = false
  /\ Ascii.eqb c "," = false /\ c <> "-"%char /\ c <> "+"%char
  /\ Ascii.eqb c "e" = false /\ Ascii.eqb c "E" = false.
Proof.
  intros H. apply isdigit_cases in H. cbn [In] in H.
  repeat (destruct H as [<- | H]; [repeat split; discriminate|]).
  contradiction.
Qed.

Lemma lstrip_blank (w s : string) : blank w = true -> lstrip (w ++ s) = lstrip s.
Proof.
  induction w as [|c w IH]; cbn [blank append lstrip]; [reflexivity|].
  intros H. apply andb_true_iff in H. destruct H as [-> H]. now apply IH.
Qed.

Lemma rstrip_blank (w : string) : blank w = true -> rstrip w = "".
Proof.
  induction w as [|c w IH]; cbn [blank rstrip]; [reflexivity|].
  intros H. apply andb_true_iff in H. destruct H as [-> H].
  now rewrite IH.
Qed.

Lemma rstrip_solid (s w : string) :
  solid s = true -> blank w = true -> rstrip (s ++ w) = s.
Proof.
  intros Hs Hw. induction s as [|c s IH]; cbn [append].
  - now apply rstrip_blank.
  - cbn [solid] in Hs. apply andb_true_iff in Hs. destruct Hs as [Hc Hs].
    cbn [rstrip]. rewrite (IH Hs).
    destruct s; [|reflexivity].
    apply negb_true_iff in Hc. now rewrite Hc.
Qed.

(** Stripping removes the white space around a text without any. *)
Lemma strip_solid (w1 s w2 : string) :
  blank w1 = true -> solid s = true -> blank w2 = true ->
  strip (w1 ++ s ++ w2) = s.
Proof.
  intros H1 Hs H2. unfold strip. rewrite lstrip_blank by exact H1.
  destruct s as [|c s].
  - cbn [append]. destruct (lstrip w2) eqn:Hl; [reflexivity|].
    rewrite <- Hl. clear Hl.
    induction w2 as [|d w2 IH]; [reflexivity|].
    cbn [blank] in H2. apply andb_true_iff in H2. destruct H2 as [Hd H2].
    cbn [lstrip]. rewrite Hd. now apply IH.
  - assert (Hc : isspace c = false).
    { cbn [solid] in Hs. apply andb_true_iff in Hs.
      now apply negb_true_iff. }
    cbn [append lstrip]. rewrite Hc.
    now apply (rstrip_solid (String c s) w2).
Qed.

Lemma solid_app (a b : string) : solid (a ++ b) = solid a && solid b.
Proof.
  induction a as [|c a IH]; cbn [append solid]; [reflexivity|].
  now rewrite IH, andb_assoc.
Qed.

Lemma all_digits_solid (s : string) : all_digits s = true -> solid s = true.
Proof.
  induction s as [|c s IH]; cbn [all_digits solid]; [reflexivity|].
  intros H. apply andb_true_iff in H. destruct H as [Hc H].
  destruct (digit_plain c Hc) as [-> _]. now rewrite IH.
Qed.

Lemma grouped_solid (s : string) : grouped s = true -> solid s = true.
Proof.
  induction s as [|c s IH]; cbn [grouped solid]; [reflexivity|].
  intros H. apply andb_true_iff in H. destruct H as [Hc H].
  rewrite (IH H), andb_true_r. apply orb_true_iff in Hc.
  destruct Hc as [Hc | Hc].
  - now destruct (digit_plain c Hc) as [-> _].
  - apply Ascii.eqb_eq in Hc. now subst c.
Qed.

Lemma replace_app (old : ascii) (new a b : string) :
  replace old new (a ++ b) = replace old new a ++ replace old new b.
Proof.
  induction a as [|c a IH]; cbn [append replace]; [reflexivity|].
  rewrite IH. destruct (Ascii.eqb c old); [|reflexivity].
  now rewrite append_assoc.
Qed.

Lemma replace_digits (old : ascii) (new s : string) :
  isdigit old = false -> all_digits s = true -> replace old new s = s.
Proof.
  intros Hold. induction s as [|c s IH]; cbn [all_digits replace];
    [reflexivity|].
  intros H. apply andb_true_iff in H. destruct H as [Hc H].
  destruct (Ascii.eqb_spec c old) as [->|_]; [congruence|].
  now rewrite IH.
Qed.

(** Dropping the dots of a grouped numeral leaves its digits. *)
Lemma grouped_digits (s : string) :
  grouped s = true -> all_digits (replace "." "" s) = true.
Proof.
  induction s as [|c s IH]; cbn [grouped replace]; [reflexivity|].
  intros H. apply andb_true_iff in H. destruct H as [Hc H].
  destruct (Ascii.eqb c ".") eqn:Hdot; cbn [append].
  - now apply IH.
  - cbn [all_digits]. rewrite orb_false_r in Hc. now rewrite Hc, IH.
Qed.

Lemma span_digits_all (d rest : string) :
  all_digits d = true ->
  (forall c t, rest = String c t -> isdigit c = false) ->
  span_digits (d ++ rest) = (d, rest).
Proof.
  intros Hd Hrest. induction d as [|c d IH]; cbn [append].
  - destruct rest as [|c t]; [reflexivity|].
    cbn [span_digits]. now rewrite (Hrest c t eq_refl).
  - cbn [all_digits] in Hd. apply andb_true_iff in Hd.
    destruct Hd as [Hc Hd]. cbn [span_digits]. now rewrite Hc, (IH Hd).
Qed.

End PyNumFacts.

(** ** Price and quantity coercion *)

Module Coercion.
Import PyStr PyNum Py DataFormatter Spec PyStrFacts PyNumFacts.

Lemma strip_id (s : string) : solid s = true -> strip s = s.
Proof.
  intros Hs. pose proof (strip_solid "" s "" eq_refl Hs eq_refl) as H.
  cbn [append] in H. now rewrite append_nil_r in H.
Qed.

Lemma grouped_app (a b : string) : grouped (a ++ b) = grouped a && grouped b.
Proof.
  induction a as [|c a IH]; cbn [append grouped]; [reflexivity|].
  now rewrite IH, andb_assoc.
Qed.

Lemma all_digits_grouped (s : string) : all_digits s = true -> grouped s = true.
Proof.
  induction s as [|c s IH]; cbn [all_digits grouped]; [reflexivity|].
  intros H. apply andb_true_iff in H. destruct H as [-> H]. now apply IH.
Qed.

Lemma drop_underscores_grouped (s : string) (prev : bool) :
  grouped s = true -> drop_underscores prev s = Some s.
Proof.
  revert prev. induction s as [|c s IH]; intros prev H; [reflexivity|].
  cbn [grouped] in H. apply andb_true_iff in H. destruct H as [Hc H].
  cbn [drop_underscores].
  assert (Hu : Ascii.eqb c "_" = false).
  { apply orb_true_iff in Hc. destruct Hc as [Hc | Hc].
    - now destruct (digit_plain c Hc) as [_ [-> _]].
    - apply Ascii.eqb_eq in Hc. now subst c. }
  rewrite Hu, (IH _ H). reflexivity.
Qed.

Lemma split_sign_grouped (s : string) :
  grouped s = true -> split_sign s = (false, s).
Proof.
  destruct s as [|c s]; [reflexivity|]. cbn [grouped].
  intros H. apply andb_true_iff in H. destruct H as [Hc _].
  apply orb_true_iff in Hc. destruct Hc as [Hc | Hc].
  - apply isdigit_cases in Hc. cbn [In] in Hc.
    repeat (destruct Hc as [<- | Hc]; [reflexivity|]). contradiction.
  - apply Ascii.eqb_eq in Hc. now subst c.
Qed.

Lemma append_empty (a b : string) : a ++ b = "" -> a = "" /\ b = "".
Proof. destruct a; cbn [append]; [auto | discriminate]. Qed.



Lemma convert_price_str (s : string) :
  s <> "" ->
  convert_price_to_float (JStr s)
  = match py_float (cleaned_price s) with
    | Some f => JFloat f
    | None => JNull
    end.
Proof. destruct s; [contradiction | reflexivity]. Qed.

Lemma convert_quantity_str (s : string) :
  s <> "" ->
  convert_quantity_to_int (JStr s)
  = match py_int (strip s) with
    | Some n => JInt n
    | None => JNull
    end.
Proof. destruct s; [contradiction | reflexivity]. Qed.


(** [int] on digits alone, within the digit cap. *)
Lemma py_int_digits (d : string) :
  all_digits d = true -> d <> "" ->
  String.length d <= int_max_str_digits ->
  py_int d = Some (digits_value d).
Proof.
  intros Hd Hne Hlen. pose proof (all_digits_grouped d Hd) as Hg.
  unfold py_int. rewrite (strip_id _ (grouped_solid _ Hg)).
  rewrite (split_sign_grouped _ Hg), (drop_underscores_grouped _ _ Hg).
  apply Nat.leb_le in Hlen. rewrite Hd, Hlen.
  destruct d; [contradiction | reflexivity].
Qed.


(** C6: a value that is not a string, or the empty string, coerces to
    None; any other string is stripped and read by [int], the outcome
    being that integer, or None when [int] fails, so that a failure never
    shows as a number; a run of digits with white space around it
    coerces to the integer it denotes; "3" coerces to 3, "3.5" and "" to
    None. *)
Theorem quantity_coercion :
  (forall v, (forall s, v <> JStr s) -> convert_quantity_to_int v = JNull)
  /\ convert_quantity_to_int (JStr "") = JNull
  /\ (forall s, s <> "" ->
        convert_quantity_to_int (JStr s)
        = match py_int (strip s) with
          | Some n => JInt n
          | None => JNull
          end)
  /\ (forall v, convert_quantity_to_int v = JNull
                \/ exists n, convert_quantity_to_int v = JInt n)
  /\ (forall v n,
        convert_quantity_to_int v = JInt n ->
        exists s, v = JStr s /\ s <> "" /\ py_int (strip s) = Some n)
  /\ (forall s, py_int (strip s) = None ->
                convert_quantity_to_int (JStr s) = JNull)
  /\ (forall w1 d w2,
        blank w1 = true -> blank w2 = true ->
        all_digits d = true -> d <> "" ->
        String.length d <= int_max_str_digits ->
        convert_quantity_to_int (JStr (w1 ++ d ++ w2))
        = JInt (digits_value d))
  /\ convert_quantity_to_int (JStr "3") = JInt 3
  /\ convert_quantity_to_int (JStr "3.5") = JNull.
Proof.
  assert (Hshape : forall v,
            convert_quantity_to_int v = JNull
            \/ exists s n, v = JStr s /\ s <> ""
                           /\ py_int (strip s) = Some n
                           /\ convert_quantity_to_int v = JInt n).
  { intros v. destruct v as [| | | |s| |]; try (left; reflexivity).
    destruct s as [|c s]; [left; reflexivity|].
    rewrite convert_quantity_str by discriminate.
    destruct (py_int (strip (String c s))) as [n|] eqn:Hn;
      [right | left; reflexivity].
    exists (String c s), n. repeat split; auto. discriminate. }
  repeat match goal with |- _ /\ _ => split end.
  - intros v Hv. destruct v; try reflexivity. exfalso. now apply (Hv s).
  - reflexivity.
  - intros s Hs. now apply convert_quantity_str.
  - intros v. destruct (Hshape v) as [H | [s [n [_ [_ [_ H]]]]]]; eauto.
  - intros v n Hv. destruct (Hshape v) as [H | [s [n' [-> [Hs [Hn H]]]]]].
    + congruence.
    + exists s. repeat split; auto. congruence.
  - intros s Hs. destruct s as [|c s]; [reflexivity|].
    rewrite convert_quantity_str by discriminate. now rewrite Hs.
  - intros w1 d w2 H1 H2 Hd Hne Hlen.
    rewrite convert_quantity_str.
    + rewrite (strip_solid w1 d w2 H1 (all_digits_solid d Hd) H2).
      now rewrite (py_int_digits d Hd Hne Hlen).
    + intros Hnil. apply append_empty in Hnil. destruct Hnil as [_ Hnil].
      apply append_empty in Hnil. destruct Hnil as [Hnil _]. contradiction.
  - vm_compute. reflexivity.
  - vm_compute. reflexivity.
Qed.


Lemma quantity_coercion_witness :
  blank " " = true /\ blank "" = true
  /\ all_digits "12" = true /\ "12" <> ""
  /\ String.length "12" <= int_max_str_digits
  /\ convert_quantity_to_int (JStr (" " ++ "12" ++ "")) = JInt (digits_value "12").
Proof.
  assert (H1 : blank " " = true) by reflexivity.
  assert (H2 : blank "" = true) by reflexivity.
  assert (H3 : all_digits "12" = true) by reflexivity.
  assert (H4 : "12" <> "") by (intros H; discriminate H).
  assert (H5 : String.length "12" <= int_max_str_digits)
    by (apply Nat.leb_le; reflexivity).
  destruct quantity_coercion as [_ [_ [_ [_ [_ [_ [Hdigits _]]]]]]].
  split; [exact H1|]. split; [exact H2|]. split; [exact H3|].
  split; [exact H4|]. split; [exact H5|].
  exact (Hdigits " " "12" "" H1 H2 H3 H4 H5).
Defined.

End Coercion.

(** ** Dicts and loops *)

Module PyFacts.
Import PyStr Py.

Lemma obj_get_set_same (k : string) (v : json) (d : dict) :
  obj_get k (obj_set k v d) = Some v.
Proof.
  induction d as [|[k' v'] d IH]; simpl.
  - now rewrite String.eqb_refl.
  - destruct (String.eqb k' k) eqn:Hk; simpl; now rewrite Hk.
Qed.

Lemma obj_get_set_other (k k' : string) (v : json) (d : dict) :
  k <> k' -> obj_get k' (obj_set k v d) = obj_get k' d.
Proof.
  intros Hne. induction d as [|[k0 v0] d IH]; simpl.
  - destruct (String.eqb_spec k k'); [contradiction | reflexivity].
  - destruct (String.eqb_spec k0 k) as [->|Hk0]; simpl.
    + destruct (String.eqb_spec k k'); [contradiction | reflexivity].
    + now rewrite IH.
Qed.

Lemma obj_set_same (k : string) (v : json) (d : dict) :
  obj_get k d = Some v -> obj_set k v d = d.
Proof.
  induction d as [|[k' v'] d IH]; simpl; [discriminate|].
  destruct (String.eqb k' k); intros H.
  - now injection H as ->.
  - now rewrite IH.
Qed.

Lemma obj_set_twice (k : string) (v w : json) (d : dict) :
  obj_set k v (obj_set k w d) = obj_set k v d.
Proof.
  induction d as [|[k' v'] d IH]; simpl.
  - now rewrite String.eqb_refl.
  - destruct (String.eqb k' k) eqn:Hk; simpl; rewrite Hk; [reflexivity|].
    now rewrite IH.
Qed.

Lemma collect_app {A B : Type} (body : A -> result (option B))
  (xs ys : list A) :
  collect body (xs ++ ys)%list =
  (a <- collect body xs ;; b <- collect body ys ;; Ok (a ++ b)%list).
Proof.
  induction xs as [|x xs IH]; simpl.
  - destruct (collect body ys); reflexivity.
  - destruct (body x) as [r|e]; simpl; [|reflexivity].
    rewrite IH. destruct (collect body xs) as [a|e]; simpl; [|reflexivity].
    destruct (collect body ys) as [b|e]; simpl; [|reflexivity].
    destruct r; reflexivity.
Qed.

(** A loop that ran to its end kept exactly what its body kept. *)
Lemma collect_In {A B : Type} (body : A -> result (option B))
  (xs : list A) (out : list B) :
  collect body xs = Ok out ->
  forall y, In y out <-> exists x, In x xs /\ body x = Ok (Some y).
Proof.
  revert out. induction xs as [|x xs IH]; simpl; intros out H y.
  - injection H as <-. split; [contradiction | intros [x [[] _]]].
  - destruct (body x) as [r|e] eqn:Hx; simpl in H; [|discriminate].
    destruct (collect body xs) as [rs|e]; simpl in H; [|discriminate].
    injection H as <-. specialize (IH rs eq_refl y).
    destruct r as [b|]; simpl; rewrite IH; split.
    + intros [<- | [x' [Hin Hb]]]; eauto.
    + intros [x' [[<- | Hin] Hb]]; [left; congruence | right; eauto].
    + intros [x' [Hin Hb]]; eauto.
    + intros [x' [[<- | Hin] Hb]]; [congruence | eauto].
Qed.

Lemma collect_ok {A B : Type} (body : A -> result (option B)) (xs : list A) :
  Forall (fun x => exists r, body x = Ok r) xs ->
  exists out, collect body xs = Ok out.
Proof.
  induction 1 as [|x xs [r Hr] _ [out IH]]; simpl; eauto.
  rewrite Hr, IH. simpl. eauto.
Qed.

End PyFacts.

(** ** Matching names against a reference list *)

Module MatchFacts.
Import PyStr Py DataFormatter Spec PyStrFacts PyFacts.

Lemma hit_iff (name s : string) : hit name s = true <-> matches s name.
Proof. apply contains_iff. Qed.

Lemma any_match_str (get : result json) (name : string) (l : list string) :
  get = Ok (JStr name) -> any_match get l = Ok (existsb (hit name) l).
Proof.
  intros ->. induction l as [|s l IH]; simpl; [reflexivity|].
  fold (hit name s). destruct (hit name s); [reflexivity | exact IH].
Qed.

Lemma existsb_some_match (name : string) (l : list string) :
  existsb (hit name) l = true <-> some_match l name.
Proof.
  rewrite existsb_exists. unfold some_match.
  split; intros [s [Hin Hs]]; exists s; split; auto; now apply hit_iff.
Qed.

Lemma normalize_product_name_str (name : string) (l : list string) :
  normalize_product_name (JStr name) l =
  Ok (JStr (match find (hit name) l with Some s => s | None => name end)).
Proof.
  induction l as [|s l IH]; simpl; [reflexivity|].
  fold (hit name s). destruct (hit name s); [reflexivity | exact IH].
Qed.

Lemma find_first_match (name : string) (l : list string) (c : string) :
  find (hit name) l = Some c <-> first_match l name c.
Proof.
  unfold first_match. induction l as [|s l IH]; simpl.
  - split; [discriminate | intros [e [a [H _]]]; destruct e; discriminate].
  - destruct (hit name s) eqn:Hs.
    + split.
      * intros H. injection H as <-. exists [], l.
        repeat split; [now apply hit_iff | intros ? []].
      * intros [e [a [Hl [Hc Hno]]]]. destruct e as [|x e]; simpl in Hl.
        -- congruence.
        -- injection Hl as <- _. exfalso. apply (Hno s); [now left|].
           now apply hit_iff.
    + rewrite IH. split.
      * intros [e [a [-> [Hc Hno]]]]. exists (s :: e), a.
        repeat split; auto. intros x [<- | Hx]; [|now apply Hno].
        rewrite <- hit_iff. congruence.
      * intros [e [a [Hl [Hc Hno]]]]. destruct e as [|x e]; simpl in Hl.
        -- injection Hl as -> _. apply hit_iff in Hc. congruence.
        -- injection Hl as _ ->. exists e, a.
           repeat split; auto. intros y Hy. apply Hno. now right.
Qed.

Lemma existsb_find (name : string) (l : list string) :
  existsb (hit name) l = true -> exists c, find (hit name) l = Some c.
Proof.
  induction l as [|s l IH]; simpl; [discriminate|].
  destruct (hit name s); simpl; eauto.
Qed.

(** What [normalize_covering] does to a dict with a string name. *)
Lemma normalize_covering_named (cl : list string) (d : dict) (name : string) :
  obj_get "name" d = Some (JStr name) ->
  normalize_covering cl (JObj d) =
  Ok (match find (hit name) cl with
      | Some c => Some (JObj (obj_set "name" (JStr c) d))
      | None => None
      end).
Proof.
  intros Hn. unfold normalize_covering. cbn [py_in bind].
  unfold obj_has. rewrite Hn. cbn [negb].
  rewrite (any_match_str _ name) by (cbn [py_getitem]; now rewrite Hn).
  cbn [bind]. destruct (existsb (hit name) cl) eqn:Hex; cbn [negb].
  - destruct (existsb_find _ _ Hex) as [c Hc]. rewrite Hc.
    cbn [py_getitem]. rewrite Hn. cbn [bind].
    rewrite normalize_product_name_str, Hc. reflexivity.
  - destruct (find (hit name) cl) as [c|] eqn:Hc; [|reflexivity].
    apply find_some in Hc. destruct Hc as [Hin Hc].
    assert (existsb (hit name) cl = true) by (apply existsb_exists; eauto).
    congruence.
Qed.

Lemma normalize_covering_unnamed (cl : list string) (d : dict) :
  obj_get "name" d = None -> normalize_covering cl (JObj d) = Ok None.
Proof.
  intros Hn. unfold normalize_covering. cbn [py_in bind].
  unfold obj_has. now rewrite Hn.
Qed.

Lemma normalize_coverings_ok (cl : list string) (coverings : list json) :
  Forall covering_shape coverings ->
  exists kept, normalize_coverings coverings cl = Ok kept.
Proof.
  intros H. apply collect_ok. eapply Forall_impl; [|exact H].
  intros c [d [-> Hd]]. destruct (obj_get "name" d) as [v|] eqn:Hv.
  - destruct (Hd v eq_refl) as [n ->].
    rewrite (normalize_covering_named cl d n Hv). eauto.
  - rewrite (normalize_covering_unnamed cl d Hv). eauto.
Qed.

Lemma convert_field_get_other (conv : json -> json) (k k' : string) (d : dict) :
  k <> k' -> obj_get k' (convert_field conv k d) = obj_get k' d.
Proof.
  intros Hne. unfold convert_field. destruct (obj_get k d); [|reflexivity].
  now apply obj_get_set_other.
Qed.

Lemma normalize_product_data_get (k : string) (d : dict) :
  k <> "full_price" -> k <> "discounted_price" -> k <> "quantity" ->
  obj_get k (normalize_product_data d) = obj_get k d.
Proof.
  intros H1 H2 H3. unfold normalize_product_data.
  rewrite !convert_field_get_other; auto.
Qed.

(** What the product loop does to a dict with a string name. *)
Lemma normalize_product_named (pl cl : list string) (d : dict) (name : string) :
  obj_get "name" d = Some (JStr name) ->
  normalize_product pl cl (JObj d) =
  match find (hit name) pl with
  | None => Ok None
  | Some c =>
      let p := obj_set "name" (JStr c) (normalize_product_data d) in
      match obj_get "coverings" d with
      | Some (JArr coverings) =>
          kept <- normalize_coverings coverings cl ;;
          Ok (Some (JObj (obj_set "coverings" (JArr kept) p)))
      | _ => Ok (Some (JObj p))
      end
  end.
Proof.
  intros Hn. unfold normalize_product. cbn [py_in bind].
  unfold obj_has. rewrite Hn. cbn [negb].
  rewrite (any_match_str _ name) by (cbn [py_getitem]; now rewrite Hn).
  cbn [bind]. destruct (existsb (hit name) pl) eqn:Hex; cbn [negb].
  - destruct (existsb_find _ _ Hex) as [c Hc]. rewrite Hc.
    cbn [py_getitem]. rewrite Hn. cbn [bind].
    rewrite normalize_product_name_str, Hc. cbn [bind].
    rewrite obj_get_set_other by discriminate.
    rewrite normalize_product_data_get by discriminate. reflexivity.
  - destruct (find (hit name) pl) as [c|] eqn:Hc; [|reflexivity].
    apply find_some in Hc. destruct Hc as [Hin Hc].
    assert (existsb (hit name) pl = true) by (apply existsb_exists; eauto).
    congruence.
Qed.

End MatchFacts.

Module NameFilter.
Import PyStr Py DataFormatter Spec PyStrFacts PyFacts MatchFacts.

Lemma some_match_first (l : list string) (name : string) :
  some_match l name <-> exists c, first_match l name c.
Proof.
  rewrite <- existsb_some_match. split.
  - intros H. destruct (existsb_find _ _ H) as [c Hc].
    exists c. now apply find_first_match.
  - intros [c Hc]. apply find_first_match in Hc. apply find_some in Hc.
    apply existsb_exists. exists c. exact Hc.
Qed.

Lemma find_none_no_match (l : list string) (name : string) :
  find (hit name) l = None <-> ~ some_match l name.
Proof.
  rewrite some_match_first. split.
  - intros H [c Hc]. apply find_first_match in Hc. congruence.
  - intros H. destruct (find (hit name) l) as [c|] eqn:Hc; [|reflexivity].
    exfalso. apply H. exists c. now apply find_first_match.
Qed.

(** The coverings kept by [normalize_coverings] are the renamed matching
    ones. *)
Lemma kept_coverings (cl : list string) (coverings kept : list json) :
  Forall covering_shape coverings ->
  normalize_coverings coverings cl = Ok kept ->
  forall k, In k kept <->
    exists covering cname c,
      In (JObj covering) coverings
      /\ obj_get "name" covering = Some (JStr cname)
      /\ first_match cl cname c
      /\ k = JObj (obj_set "name" (JStr c) covering).
Proof.
  intros Hshape Hk k. unfold normalize_coverings in Hk.
  rewrite (collect_In _ _ _ Hk k). rewrite Forall_forall in Hshape. split.
  - intros [x [Hin Hx]]. destruct (Hshape x Hin) as [d [-> Hd]].
    destruct (obj_get "name" d) as [v|] eqn:Hv.
    + destruct (Hd v eq_refl) as [n ->].
      rewrite (normalize_covering_named cl d n Hv) in Hx.
      destruct (find (hit n) cl) as [c|] eqn:Hc; [|discriminate].
      injection Hx as <-. exists d, n, c.
      repeat split; auto. now apply find_first_match.
    + rewrite (normalize_covering_unnamed cl d Hv) in Hx. discriminate.
  - intros [d [n [c [Hin [Hn [Hc ->]]]]]]. exists (JObj d). split; [exact Hin|].
    rewrite (normalize_covering_named cl d n Hn).
    apply find_first_match in Hc. now rewrite Hc.
Qed.

(** C2, amended: a product with a string name survives the product loop
    exactly when some canonical product name occurs in its name,
    case-insensitively, and it then carries the first such name in list
    order; the coverings of a surviving product that are kept are exactly
    those whose own name matches a canonical covering name, each renamed
    to the first match in list order. *)
Theorem name_filter_first_match
  (pl cl : list string) (product : dict) (name : string) :
  obj_get "name" product = Some (JStr name) ->
  Forall covering_shape (coverings_of product) ->
  ((exists p, normalize_product pl cl (JObj product) = Ok (Some p))
   <-> some_match pl name)
  /\ (~ some_match pl name ->
      normalize_product pl cl (JObj product) = Ok None)
  /\ (forall p, normalize_product pl cl (JObj product) = Ok (Some p) ->
      exists d c,
        p = JObj d
        /\ obj_get "name" d = Some (JStr c)
        /\ first_match pl name c
        /\ forall coverings,
             obj_get "coverings" product = Some (JArr coverings) ->
             exists kept,
               obj_get "coverings" d = Some (JArr kept)
               /\ forall k, In k kept <->
                    exists covering cname c',
                      In (JObj covering) coverings
                      /\ obj_get "name" covering = Some (JStr cname)
                      /\ first_match cl cname c'
                      /\ k = JObj (obj_set "name" (JStr c') covering)).
Proof.
  intros Hn Hshape.
  pose proof (normalize_product_named pl cl product name Hn) as Hp.
  assert (Hkept : forall coverings,
             obj_get "coverings" product = Some (JArr coverings) ->
             exists kept, normalize_coverings coverings cl = Ok kept).
  { intros cs Hcs. apply normalize_coverings_ok.
    unfold coverings_of in Hshape. now rewrite Hcs in Hshape. }
  destruct (find (hit name) pl) as [c|] eqn:Hc; cbn zeta in Hp.
  - assert (Hfirst : first_match pl name c) by now apply find_first_match.
    assert (Hsome : some_match pl name)
      by (apply some_match_first; eauto).
    assert (Hshape' : forall cs, obj_get "coverings" product = Some (JArr cs) ->
                                 Forall covering_shape cs).
    { intros cs Hcs. unfold coverings_of in Hshape. now rewrite Hcs in Hshape. }
    destruct (obj_get "coverings" product) as [v|] eqn:Hcov.
    + assert (Hplain : (forall cs, v <> JArr cs) ->
                       normalize_product pl cl (JObj product) =
                       Ok (Some (JObj (obj_set "name" (JStr c)
                                         (normalize_product_data product))))).
      { intros Hv. rewrite Hp. destruct v; try reflexivity.
        exfalso. now apply (Hv xs). }
      destruct v as [| | | | |cs|].
      6: { destruct (Hkept cs eq_refl) as [kept Hk]. rewrite Hk in Hp.
           cbn [bind] in Hp. rewrite Hp. repeat split; eauto.
           - intros; contradiction.
           - intros p Hq. injection Hq as <-. eexists. exists c.
             repeat split; auto.
             + rewrite obj_get_set_other by discriminate.
               apply obj_get_set_same.
             + intros cs' Hcs'. injection Hcs' as <-. exists kept. split.
               * apply obj_get_set_same.
               * apply kept_coverings; auto. }
      all: rewrite Hplain by discriminate; repeat split; eauto;
        [ intros; contradiction
        | intros p Hq; injection Hq as <-; eexists; exists c;
          repeat split; auto; [apply obj_get_set_same | discriminate] ].
    + rewrite Hp. repeat split; eauto.
      * intros; contradiction.
      * intros p Hq. injection Hq as <-. eexists. exists c.
        repeat split; auto; [apply obj_get_set_same | discriminate].
  - assert (Hno : ~ some_match pl name) by now apply find_none_no_match.
    rewrite Hp. repeat split.
    + intros [p Hq]. discriminate.
    + intros H. contradiction.
    + intros p Hq. discriminate.
Qed.

Lemma name_filter_first_match_witness :
  obj_get "name" Samples.armchair = Some (JStr "POLTRONA relax blu")
  /\ Forall covering_shape (coverings_of Samples.armchair)
  /\ ((exists p, normalize_product Samples.products_list Samples.coverings_list
                   (JObj Samples.armchair) = Ok (Some p))
      <-> some_match Samples.products_list "POLTRONA relax blu").
Proof.
  assert (H1 : obj_get "name" Samples.armchair
               = Some (JStr "POLTRONA relax blu")) by reflexivity.
  assert (H2 : Forall covering_shape (coverings_of Samples.armchair)).
  { repeat constructor;
      (eexists; split; [reflexivity|]; intros v Hv;
       injection Hv as <-; eexists; reflexivity). }
  split; [exact H1|]. split; [exact H2|].
  exact (proj1 (name_filter_first_match Samples.products_list
                  Samples.coverings_list Samples.armchair
                  "POLTRONA relax blu" H1 H2)).
Defined.

(** C2 as stated fails for a covering whose product is dropped: DURIAN is
    a canonical covering name, but the lamp that carries the covering
    matches no canonical product name, and the covering goes with it. *)
Lemma covering_of_dropped_product :
  ~ covering_rule_in_chunk.
Proof.
  intros Hrule.
  assert (Hrun : filter_items ["SOFA"] Samples.coverings_list
                   [JObj Samples.lamp_record] = Ok []) by reflexivity.
  assert (Hin : In (JObj Samples.durian)
                   (coverings_in [JObj Samples.lamp_record]))
    by (left; reflexivity).
  assert (Hname : obj_get "name" Samples.durian
                  = Some (JStr "Rivestimento DURIAN extra")) by reflexivity.
  assert (Hmatch : some_match Samples.coverings_list
                     "Rivestimento DURIAN extra").
  { exists "DURIAN". split; [left; reflexivity|].
    apply hit_iff. reflexivity. }
  destruct (proj1 (Hrule _ _ _ _ _ _ Hrun Hin Hname) Hmatch) as [c []].
Qed.

End NameFilter.

(** ** Which records reach the client-name normalisation *)

Module Retention.
Import PyStr Py DataFormatter Spec PyStrFacts PyFacts.

(** The record loop on a dict whose [products] is a list. *)
Lemma process_item_list (pl cl : list string) (d : dict) (ps : list json) :
  obj_get "products" d = Some (JArr ps) ->
  process_item pl cl (JObj d) =
  (survivors <- collect (normalize_product pl cl) ps ;;
   Ok (match survivors with
       | [] => None
       | _ :: _ => Some (JObj (obj_set "products" (JArr survivors) d))
       end)).
Proof.
  intros Hp. unfold process_item. cbn [py_in bind]. unfold obj_has.
  rewrite Hp. cbn [negb py_getitem]. rewrite Hp. cbn [bind].
  destruct (collect (normalize_product pl cl) ps) as [[|s survivors]|e];
    reflexivity.
Qed.

(** The record loop on a dict without a list of products. *)
Lemma process_item_no_list (pl cl : list string) (d : dict) :
  (forall ps, obj_get "products" d <> Some (JArr ps)) ->
  process_item pl cl (JObj d) = Ok None.
Proof.
  intros Hp. unfold process_item. cbn [py_in bind]. unfold obj_has.
  destruct (obj_get "products" d) as [v|] eqn:Hv; cbn [negb]; [|reflexivity].
  cbn [py_getitem]. rewrite Hv. cbn [bind].
  destruct v; try reflexivity. exfalso. now apply (Hp xs).
Qed.

(** Only a dict with a list of products, one of which survives, is kept. *)
Lemma process_item_kept (pl cl : list string) (x o : json) :
  process_item pl cl x = Ok (Some o) ->
  exists d ps survivors,
    x = JObj d
    /\ obj_get "products" d = Some (JArr ps)
    /\ collect (normalize_product pl cl) ps = Ok survivors
    /\ survivors <> []
    /\ o = JObj (obj_set "products" (JArr survivors) d).
Proof.
  intros H. destruct x as [| b | n | f | s | xs | d];
    try (unfold process_item in H; cbn [py_in bind] in H; discriminate).
  - unfold process_item in H. cbn [py_in bind] in H.
    destruct (contains "products" s); cbn [negb py_getitem bind] in H;
      discriminate.
  - unfold process_item in H. cbn [py_in bind] in H.
    destruct (existsb (is_str "products") xs); cbn [negb py_getitem bind] in H;
      discriminate.
  - destruct (obj_get "products" d) as [v|] eqn:Hv.
    + destruct v as [| | | | |ps|];
        try (rewrite process_item_no_list in H;
             [discriminate | intros ps' Hps'; congruence]).
      rewrite (process_item_list pl cl d ps Hv) in H.
      destruct (collect (normalize_product pl cl) ps) as [survivors|e] eqn:Hs;
        cbn [bind] in H; [|discriminate].
      destruct survivors as [|s survivors]; [discriminate|].
      injection H as <-. exists d, ps, (s :: survivors).
      repeat split; auto. discriminate.
    + rewrite process_item_no_list in H;
        [discriminate | intros ps' Hps'; congruence].
Qed.

(** C7: a record whose [products] is missing or not a list is passed over
    without failing, so the loop runs as if the record were not there; a
    record with a list of products is kept, with the surviving products,
    when at least one product survives, and left out when none does; the
    processed records are exactly those made this way. *)
Theorem record_retention (pl cl : list string) :
  (forall d,
      (forall ps, obj_get "products" d <> Some (JArr ps)) ->
      process_item pl cl (JObj d) = Ok None)
  /\ (forall d before after,
      (forall ps, obj_get "products" d <> Some (JArr ps)) ->
      filter_items pl cl (before ++ JObj d :: after)%list
      = filter_items pl cl (before ++ after)%list)
  /\ (forall d ps survivors,
      obj_get "products" d = Some (JArr ps) ->
      collect (normalize_product pl cl) ps = Ok survivors ->
      process_item pl cl (JObj d)
      = Ok (match survivors with
            | [] => None
            | _ :: _ => Some (JObj (obj_set "products" (JArr survivors) d))
            end))
  /\ (forall data out,
      filter_items pl cl data = Ok out ->
      forall o, In o out <->
        exists d ps survivors,
          In (JObj d) data
          /\ obj_get "products" d = Some (JArr ps)
          /\ collect (normalize_product pl cl) ps = Ok survivors
          /\ survivors <> []
          /\ o = JObj (obj_set "products" (JArr survivors) d)).
Proof.
  split; [|split; [|split]].
  - intros d Hd. now apply process_item_no_list.
  - intros d before after Hd. unfold filter_items.
    rewrite !collect_app. cbn [collect].
    rewrite (process_item_no_list pl cl d Hd). cbn [bind].
    destruct (collect (process_item pl cl) before) as [a|e]; cbn [bind];
      [|reflexivity].
    destruct (collect (process_item pl cl) after) as [b|e]; reflexivity.
  - intros d ps survivors Hp Hs.
    rewrite (process_item_list pl cl d ps Hp), Hs. reflexivity.
  - intros data out Hout o. unfold filter_items in Hout.
    rewrite (collect_In _ _ _ Hout o). split.
    + intros [x [Hin Hx]].
      destruct (process_item_kept pl cl x o Hx)
        as [d [ps [survivors [-> [Hp [Hs [Hne ->]]]]]]].
      exists d, ps, survivors. repeat split; auto.
    + intros [d [ps [survivors [Hin [Hp [Hs [Hne ->]]]]]]].
      exists (JObj d). split; [exact Hin|].
      rewrite (process_item_list pl cl d ps Hp), Hs. cbn [bind].
      destruct survivors; [contradiction | reflexivity].
Qed.

Lemma record_retention_witness :
  (forall ps, obj_get "products" Samples.no_products <> Some (JArr ps))
  /\ process_item Samples.products_list Samples.coverings_list
                  (JObj Samples.no_products) = Ok None
  /\ obj_get "products" Samples.lamp_record = Some (JArr [JObj Samples.lamp])
  /\ collect (normalize_product Samples.products_list Samples.coverings_list)
             [JObj Samples.lamp] = Ok []
  /\ process_item Samples.products_list Samples.coverings_list
                  (JObj Samples.lamp_record) = Ok None.
Proof.
  assert (H1 : forall ps,
             obj_get "products" Samples.no_products <> Some (JArr ps))
    by (intros ps H; discriminate H).
  assert (H2 : obj_get "products" Samples.lamp_record
               = Some (JArr [JObj Samples.lamp])) by reflexivity.
  assert (H3 : collect (normalize_product Samples.products_list
                                          Samples.coverings_list)
                       [JObj Samples.lamp] = Ok []) by reflexivity.
  destruct (record_retention Samples.products_list Samples.coverings_list)
    as [Hskip [_ [Hkeep _]]].
  split; [exact H1|]. split; [exact (Hskip _ H1)|].
  split; [exact H2|]. split; [exact H3|].
  exact (Hkeep _ _ _ H2 H3).
Defined.

(** A chunk with a record without products, one whose product matches
    nothing and one with a matching product: only the last is kept, its
    product renamed and coerced, its coverings filtered. *)
Example filter_sample_chunk :
  filter_items Samples.products_list Samples.coverings_list
    [JObj Samples.no_products; JObj Samples.lamp_record;
     JObj [("invoice_number", JStr "123/2024");
           ("products", JArr [JObj Samples.lamp; JObj Samples.armchair])]]
  = Ok [JObj [("invoice_number", JStr "123/2024");
              ("products", JArr [JObj
                 [("code", JStr "COD123"); ("name", JStr "Poltrona");
                  ("quantity", JInt 1);
                  ("full_price",
                   JFloat (S754_finite false 5429652300748554 (-42)));
                  ("discounted_price", JNull);
                  ("coverings", JArr [JObj
                     [("name", JStr "DURIAN"); ("code", JStr "12");
                      ("count", JStr "2")]])]])]].
Proof. vm_compute. reflexivity. Qed.

End Retention.

(** ** Merging by invoice number *)

Module Merge.
Import PyStr Py DataFormatter Spec PyStrFacts PyFacts.

Lemma pykey_eqb_eq (a b : pykey) : pykey_eqb a b = true <-> a = b.
Proof.
  destruct a as [|s|m e|n|], b as [|s'|m' e'|n'|]; simpl;
    try (split; [discriminate | intros H; discriminate H]);
    try (split; reflexivity).
  - rewrite String.eqb_eq. split; congruence.
  - rewrite andb_true_iff, !Z.eqb_eq. split; [intros [-> ->] | intros H].
    + reflexivity.
    + injection H as -> ->. auto.
  - split; [intros H; apply Bool.eqb_prop in H; now subst|].
    intros H. injection H as ->. apply Bool.eqb_reflx.
Qed.

Lemma pykey_eqb_neq (a b : pykey) : pykey_eqb a b = false <-> a <> b.
Proof.
  rewrite <- pykey_eqb_eq. destruct (pykey_eqb a b); split; intros H;
    try reflexivity; try discriminate; congruence.
Qed.

Lemma dict_get_In (k : pykey) (acc : invoice_dict) (d : dict) :
  dict_get k acc = Some d -> In (k, d) acc.
Proof.
  induction acc as [|[k' v] acc IH]; simpl; [discriminate|].
  destruct (pykey_eqb k' k) eqn:Hk.
  - apply pykey_eqb_eq in Hk. intros H. injection H as ->. left. now subst.
  - intros H. right. now apply IH.
Qed.

Lemma dict_get_None (k : pykey) (acc : invoice_dict) :
  dict_get k acc = None -> ~ In k (map fst acc).
Proof.
  induction acc as [|[k' v] acc IH]; simpl; [tauto|].
  destruct (pykey_eqb k' k) eqn:Hk; [discriminate|].
  apply pykey_eqb_neq in Hk. intros H [Heq | Hin]; [contradiction|].
  now apply IH.
Qed.

Lemma dict_set_keys (k : pykey) (v w : dict) (acc : invoice_dict) :
  dict_get k acc = Some w -> map fst (dict_set k v acc) = map fst acc.
Proof.
  induction acc as [|[k' v'] acc IH]; simpl; [discriminate|].
  destruct (pykey_eqb k' k) eqn:Hk; simpl; [reflexivity|].
  intros H. now rewrite IH.
Qed.

(** Replacing the record filed under [k] touches that entry only. *)
Lemma Forall_dict_set (P Q : pykey * dict -> Prop) (k : pykey) (v : dict)
  (acc : invoice_dict) :
  NoDup (map fst acc) ->
  Forall P acc ->
  (forall e, fst e <> k -> P e -> Q e) ->
  Q (k, v) ->
  Forall Q (dict_set k v acc).
Proof.
  intros Hnd HP Hother Hk.
  induction acc as [|[k' v'] acc IH]; simpl.
  - constructor; [exact Hk | constructor].
  - inversion Hnd as [|? ? Hnotin Hnd']; subst.
    inversion HP as [|? ? Hx HP']; subst.
    destruct (pykey_eqb k' k) eqn:Hkk.
    + apply pykey_eqb_eq in Hkk. subst k'. constructor; [exact Hk|].
      rewrite Forall_forall in HP'. apply Forall_forall. intros e He.
      apply Hother; [|now apply HP'].
      intros Heq. apply Hnotin. rewrite <- Heq. now apply in_map.
    + apply pykey_eqb_neq in Hkk. constructor; [|now apply IH].
      now apply Hother.
Qed.

Lemma has_key_iff (k : pykey) (x : json) :
  has_key k x = true <-> invoice_key x = Some k.
Proof.
  unfold has_key. destruct (invoice_key x) as [k'|].
  - rewrite pykey_eqb_eq. split; congruence.
  - split; discriminate.
Qed.

Lemma has_key_false (k : pykey) (x : json) :
  invoice_key x <> Some k -> has_key k x = false.
Proof.
  intros H. destruct (has_key k x) eqn:Hk; [|reflexivity].
  apply has_key_iff in Hk. contradiction.
Qed.

Lemma merged_products_snoc (k : pykey) (seen : list json) (x : json) :
  merged_products k (seen ++ [x])%list =
  (merged_products k seen
   ++ (if has_key k x then products_of x else []))%list.
Proof.
  unfold merged_products, same_number.
  rewrite filter_app, flat_map_app. cbn [filter].
  destruct (has_key k x); cbn [flat_map]; now rewrite ?app_nil_r.
Qed.

Lemma merged_products_none (k : pykey) (seen : list json) :
  (forall x, In x seen -> invoice_key x <> Some k) ->
  merged_products k seen = [].
Proof.
  intros H. unfold merged_products, same_number.
  induction seen as [|y seen IH]; [reflexivity|]. cbn [filter].
  rewrite has_key_false by (apply H; now left).
  apply IH. intros x Hx. apply H. now right.
Qed.

Lemma first_seen_snoc (k : pykey) (seen : list json) (x : json) (first : dict) :
  first_seen k seen first -> first_seen k (seen ++ [x])%list first.
Proof.
  intros [earlier [later [-> [Hk Hno]]]].
  exists earlier, (later ++ [x])%list. repeat split; auto.
  now rewrite <- app_assoc.
Qed.

Lemma entry_ok_snoc_other (seen : list json) (x : json) (e : pykey * dict) :
  invoice_key x <> Some (fst e) ->
  entry_ok seen e -> entry_ok (seen ++ [x])%list e.
Proof.
  intros Hx [first [Hf He]]. exists first. split.
  - now apply first_seen_snoc.
  - rewrite merged_products_snoc, has_key_false, app_nil_r by exact Hx.
    exact He.
Qed.

Lemma invoice_key_first_products (k : pykey) (first : dict) (v : json) :
  invoice_key (JObj first) = Some k ->
  invoice_key (JObj (obj_set "products" v first)) = Some k.
Proof.
  unfold invoice_key, get_invoice_number.
  now rewrite obj_get_set_other by discriminate.
Qed.

(** One turn of the loop keeps [merge_inv]. *)
Lemma merge_step_inv (seen : list json) (acc : invoice_dict) (x : json) :
  merge_inv seen acc ->
  well_formed_item x ->
  exists acc', merge_step acc x = Ok acc'
               /\ merge_inv (seen ++ [x])%list acc'.
Proof.
  intros [Hnd [Hall Hcov]] [d [ps [-> [Hps Hhash]]]].
  unfold merge_step.
  destruct (truthy (get_invoice_number d)) eqn:Htruthy; cbn [negb].
  - destruct (Hhash eq_refl) as [k Hk]. rewrite Hk. cbn [bind].
    assert (Hkey : invoice_key (JObj d) = Some k).
    { unfold invoice_key. cbn zeta. now rewrite Htruthy, Hk. }
    destruct (dict_get k acc) as [stored|] eqn:Hget.
    + pose proof (dict_get_In _ _ _ Hget) as Hin.
      rewrite Forall_forall in Hall.
      destruct (Hall _ Hin) as [first [Hfirst Hstored]].
      cbn [fst snd] in Hfirst, Hstored.
      unfold extend_products. subst stored.
      rewrite obj_get_set_same, Hps. cbn [py_iter bind].
      eexists. split; [reflexivity|]. split; [|split].
      * now rewrite (dict_set_keys k _ _ acc Hget).
      * apply (Forall_dict_set (entry_ok seen)); auto.
        -- now apply Forall_forall.
        -- intros e He. apply entry_ok_snoc_other. congruence.
        -- exists first. cbn [fst snd]. split.
           ++ now apply first_seen_snoc.
           ++ rewrite merged_products_snoc.
              rewrite (proj2 (has_key_iff k (JObj d)) Hkey).
              cbn [products_of]. rewrite Hps.
              apply obj_set_twice.
      * rewrite (dict_set_keys k _ _ acc Hget).
        intros y k' Hy Hk'. apply in_app_or in Hy.
        destruct Hy as [Hy | [<- | []]]; [now apply (Hcov y)|].
        assert (k' = k) by congruence. subst k'.
        apply (in_map fst) in Hin. exact Hin.
    + pose proof (dict_get_None _ _ Hget) as Hnotin.
      assert (Hfresh : forall y, In y seen -> invoice_key y <> Some k).
      { intros y Hy Hyk. apply Hnotin. now apply (Hcov y). }
      eexists. split; [reflexivity|]. split; [|split].
      * rewrite map_app. apply NoDup_app; auto.
        -- repeat constructor. intros [].
        -- intros a Ha [<- | []]. contradiction.
      * apply Forall_app. split.
        -- rewrite Forall_forall in Hall. apply Forall_forall.
           intros e He. apply entry_ok_snoc_other; [|now apply Hall].
           intros Heq. apply Hnotin.
           assert (fst e = k) by congruence. subst k. now apply in_map.
        -- constructor; [|constructor]. exists d. cbn [fst snd]. split.
           ++ exists seen, []. repeat split; auto.
           ++ rewrite merged_products_snoc, merged_products_none by exact Hfresh.
              rewrite (proj2 (has_key_iff k (JObj d)) Hkey).
              cbn [products_of app]. rewrite Hps.
              symmetry. now apply obj_set_same.
      * intros y k' Hy Hk'. rewrite map_app. apply in_or_app.
        apply in_app_or in Hy. destruct Hy as [Hy | [<- | []]].
        -- left. now apply (Hcov y).
        -- right. left. cbn [fst]. congruence.
  - exists acc. split; [reflexivity|].
    assert (Hkey : invoice_key (JObj d) = None).
    { unfold invoice_key. cbn zeta. now rewrite Htruthy. }
    split; [exact Hnd|]. split.
    + rewrite Forall_forall in Hall. apply Forall_forall.
      intros e He. apply entry_ok_snoc_other; [congruence | now apply Hall].
    + intros y k' Hy Hk'. apply in_app_or in Hy.
      destruct Hy as [Hy | [<- | []]]; [now apply (Hcov y) | congruence].
Qed.

Lemma merge_loop_inv (items seen : list json) (acc : invoice_dict) :
  merge_inv seen acc ->
  Forall well_formed_item items ->
  exists acc', merge_loop acc items = Ok acc'
               /\ merge_inv (seen ++ items)%list acc'.
Proof.
  revert seen acc. induction items as [|x items IH]; intros seen acc Hinv Hwf.
  - exists acc. rewrite app_nil_r. auto.
  - inversion Hwf as [|? ? Hx Hrest]; subst.
    destruct (merge_step_inv seen acc x Hinv Hx) as [acc1 [Hstep Hinv1]].
    destruct (IH (seen ++ [x])%list acc1 Hinv1 Hrest) as [acc' [Hloop Hinv']].
    exists acc'. cbn [merge_loop]. rewrite Hstep. cbn [bind].
    split; [exact Hloop|]. now rewrite <- app_assoc in Hinv'.
Qed.

Lemma entry_key (seen : list json) (e : pykey * dict) :
  entry_ok seen e -> invoice_key (JObj (snd e)) = Some (fst e).
Proof.
  intros [first [[earlier [later [_ [Hk _]]]] ->]].
  now apply invoice_key_first_products.
Qed.

Lemma NoDup_map_Some {A : Type} (l : list A) :
  NoDup l -> NoDup (map Some l).
Proof.
  induction 1 as [|a l Hnotin _ IH]; cbn [map]; constructor; [|exact IH].
  intros Hin. apply in_map_iff in Hin. destruct Hin as [b [Hb Hin]].
  injection Hb as ->. contradiction.
Qed.

Lemma merge_inv_nil : merge_inv [] [].
Proof. repeat split; [constructor | constructor | intros x k []]. Qed.

Lemma no_number_no_key (d : dict) :
  obj_get "invoice_number" d = None
  \/ obj_get "invoice_number" d = Some JNull
  \/ obj_get "invoice_number" d = Some (JStr "") ->
  invoice_key (JObj d) = None.
Proof.
  unfold invoice_key, get_invoice_number.
  intros [-> | [-> | ->]]; reflexivity.
Qed.

(** The merge on values: on records of the data model it returns a list
    in which no invoice number occurs twice and every entry has one; a
    record with a missing or empty invoice number has no key, is in no
    group and is not returned; every numbered record is represented; and
    every entry is the first record seen under its number, with all its
    other fields, whose products are those of all the records of that
    number laid end to end in encounter order. *)
Lemma merge_values (items : list json) :
  Forall well_formed_item items ->
  exists out,
    merge_items_by_invoice items = Ok out
    /\ NoDup (map invoice_key out)
    /\ (forall o, In o out -> invoice_key o <> None)
    /\ (forall d,
          obj_get "invoice_number" d = None
          \/ obj_get "invoice_number" d = Some JNull
          \/ obj_get "invoice_number" d = Some (JStr "") ->
          invoice_key (JObj d) = None)
    /\ (forall x, In x items -> invoice_key x = None ->
          ~ In x out /\ forall k, ~ In x (same_number k items))
    /\ (forall x k, In x items -> invoice_key x = Some k ->
          exists o, In o out /\ invoice_key o = Some k)
    /\ (forall o, In o out ->
          exists k first,
            invoice_key o = Some k
            /\ first_seen k items first
            /\ o = JObj (obj_set "products"
                           (JArr (merged_products k items)) first)
            /\ (forall field, field <> "products" ->
                  obj_get field (obj_set "products"
                                   (JArr (merged_products k items)) first)
                  = obj_get field first)
            /\ products_of o = merged_products k items
            /\ List.length (products_of o)
               = list_sum (map (fun x => List.length (products_of x))
                               (same_number k items))).
Proof.
  intros Hwf.
  destruct (merge_loop_inv items [] [] merge_inv_nil Hwf)
    as [acc [Hloop [Hnd [Hall Hcov]]]].
  cbn [app] in Hall, Hcov. rewrite Forall_forall in Hall.
  exists (map (fun kv => JObj (snd kv)) acc).
  assert (Hkeys : forall e, In e acc ->
                    invoice_key (JObj (snd e)) = Some (fst e)).
  { intros e He. apply (entry_key items). now apply Hall. }
  assert (Hout : forall o, In o (map (fun kv => JObj (snd kv)) acc) ->
                   exists e, In e acc /\ o = JObj (snd e)).
  { intros o Ho. apply in_map_iff in Ho. destruct Ho as [e [<- He]]. eauto. }
  split; [|split; [|split; [|split; [|split; [|split]]]]].
  - unfold merge_items_by_invoice. rewrite Hloop. reflexivity.
  - rewrite map_map.
    rewrite (map_ext_in _ (fun e => Some (fst e))) by exact Hkeys.
    rewrite <- (map_map fst Some).
    now apply NoDup_map_Some.
  - intros o Ho. destruct (Hout o Ho) as [e [He ->]].
    rewrite (Hkeys e He). discriminate.
  - exact no_number_no_key.
  - intros x Hx Hnone. split.
    + intros Ho. destruct (Hout x Ho) as [e [He ->]].
      rewrite (Hkeys e He) in Hnone. discriminate.
    + intros k Hk. unfold same_number in Hk. apply filter_In in Hk.
      destruct Hk as [_ Hk]. apply has_key_iff in Hk. congruence.
  - intros x k Hx Hk. specialize (Hcov x k Hx Hk).
    apply in_map_iff in Hcov. destruct Hcov as [e [<- He]].
    exists (JObj (snd e)). split; [|now apply Hkeys].
    apply in_map_iff. exists e. auto.
  - intros o Ho. destruct (Hout o Ho) as [e [He ->]].
    destruct (Hall e He) as [first [Hfirst Hsnd]].
    exists (fst e), first. split; [now apply Hkeys|].
    split; [exact Hfirst|]. split; [now rewrite Hsnd|].
    split; [intros field Hfield; now apply obj_get_set_other; auto|].
    assert (Hprod : products_of (JObj (snd e)) = merged_products (fst e) items).
    { cbn [products_of]. now rewrite Hsnd, obj_get_set_same. }
    split; [exact Hprod|].
    rewrite Hprod. unfold merged_products. apply length_flat_map.
Qed.

(** The two outputs for 123/2024 become one entry with the fields of the
    first and the three products; the unnumbered record is gone. *)
Example merge_chunk_outputs :
  merge_items_by_invoice Samples.chunk_outputs
  = Ok [JObj [("name", JStr "Mario Rossi"); ("id", JStr "42");
              ("invoice_number", JStr "123/2024");
              ("invoice_date", JStr "01/01/2024");
              ("products", JArr [JObj Samples.sofa; JObj Samples.armchair;
                                 JObj Samples.armchair])]].
Proof. reflexivity. Qed.

End Merge.

(** ** The merge on objects agrees with the merge on values *)

Module MergeObjectsFacts.
Import PyStr Py DataFormatter Spec PyFacts Merge MergeObjects.

Lemma load_store_set_same (s : store) (a : nat) (v : list json) :
  a < List.length s -> load (store_set s a v) a = v.
Proof.
  revert a. induction s as [|x s IH]; intros a Ha; [cbn in Ha; lia|].
  destruct a as [|a]; [reflexivity|].
  cbn in Ha. cbn [store_set]. unfold load in *. cbn [nth].
  apply IH. lia.
Qed.

Lemma load_store_set_other (s : store) (a b : nat) (v : list json) :
  a <> b -> load (store_set s a v) b = load s b.
Proof.
  revert a b. induction s as [|x s IH]; intros a b Hab; [reflexivity|].
  destruct a as [|a], b as [|b]; try reflexivity; try contradiction.
  cbn [store_set]. unfold load in *. cbn [nth]. apply IH. congruence.
Qed.

Lemma store_set_length (s : store) (a : nat) (v : list json) :
  List.length (store_set s a v) = List.length s.
Proof.
  revert a. induction s as [|x s IH]; intros a; [reflexivity|].
  destruct a; cbn [store_set List.length]; [reflexivity | now rewrite IH].
Qed.

Lemma view_store_set_other (s : store) (a : nat) (v : list json)
  (r : record_obj) :
  products_at r <> a -> view (store_set s a v) r = view s r.
Proof.
  intros H. unfold view. rewrite load_store_set_other by congruence.
  reflexivity.
Qed.

Lemma seen_get (s : store) (k : pykey) (d : filed) :
  dict_get k (seen s d) = option_map (view s) (filed_get k d).
Proof.
  induction d as [|[k' r] d IH]; [reflexivity|].
  cbn [seen map fst snd dict_get filed_get].
  destruct (pykey_eqb k' k); [reflexivity | exact IH].
Qed.

Lemma filed_get_In (k : pykey) (d : filed) (r : record_obj) :
  filed_get k d = Some r -> In (products_at r) (addresses (map snd d)).
Proof.
  induction d as [|[k' r'] d IH]; cbn [filed_get]; [discriminate|].
  destruct (pykey_eqb k' k).
  - intros H. injection H as ->. now left.
  - intros H. right. now apply IH.
Qed.

(** Growing the list of the filed record rewrites that record's view and
    no other, provided no two filed records share a list. *)
Lemma seen_store_set (s : store) (k : pykey) (d : filed)
  (stored : record_obj) (v : list json) :
  NoDup (addresses (map snd d)) ->
  filed_get k d = Some stored ->
  products_at stored < List.length s ->
  seen (store_set s (products_at stored) v) d
  = dict_set k (obj_set "products" (JArr v) (fields stored)) (seen s d).
Proof.
  intros Hnd Hget Ha. induction d as [|[k' r] d IH]; [discriminate|].
  cbn [map snd addresses] in Hnd. inversion Hnd as [|? ? Hnotin Hnd']; subst.
  cbn [filed_get] in Hget. cbn [seen map fst snd dict_set].
  destruct (pykey_eqb k' k) eqn:Hk.
  - injection Hget as ->. f_equal.
    + unfold view. now rewrite load_store_set_same.
    + apply map_ext_in. intros [k1 r1] Hin. cbn [fst snd]. f_equal.
      apply view_store_set_other. intros Heq. apply Hnotin.
      rewrite <- Heq. apply (in_map products_at).
      now apply (in_map snd) in Hin.
  - f_equal.
    + f_equal. apply view_store_set_other. intros Heq. apply Hnotin.
      rewrite Heq. now apply (filed_get_In k).
    + now apply IH.
Qed.

Lemma seen_app (s : store) (d d' : filed) :
  seen s (d ++ d')%list = (seen s d ++ seen s d')%list.
Proof. apply map_app. Qed.

Lemma view_key (s : store) (r : record_obj) :
  get_invoice_number (view s r) = get_invoice_number (fields r).
Proof.
  unfold get_invoice_number, view.
  now rewrite obj_get_set_other by discriminate.
Qed.

Lemma NoDup_app_apart {A : Type} (a b : list A) (x : A) :
  NoDup (a ++ b)%list -> In x a -> In x b -> False.
Proof.
  induction a as [|y a IH]; cbn [app]; intros Hnd Ha Hb; [contradiction|].
  inversion Hnd as [|? ? Hnotin Hnd']; subst. destruct Ha as [-> | Ha].
  - apply Hnotin. apply in_or_app. now right.
  - now apply IH.
Qed.

Lemma merge_step_view (acc : invoice_dict) (s : store) (r : record_obj) :
  merge_step acc (value_of s r) =
  if negb (truthy (get_invoice_number (fields r))) then Ok acc
  else
    k <- hash_key (get_invoice_number (fields r)) ;;
    match dict_get k acc with
    | Some stored =>
        merged <- extend_products stored (view s r) ;;
        Ok (dict_set k merged acc)
    | None => Ok (acc ++ [(k, view s r)])%list
    end.
Proof. unfold merge_step, value_of. now rewrite view_key. Qed.

(** The loop on objects and the loop on values run in step as long as
    the records still to come share no list with each other or with a
    filed record. *)
Lemma merge_loop_agree (s0 : store) (items : list record_obj) :
  forall (s : store) (d : filed),
    List.length s = List.length s0 ->
    NoDup (addresses (map snd d) ++ addresses items)%list ->
    (forall r, In r (map snd d) -> products_at r < List.length s) ->
    (forall r, In r items ->
               products_at r < List.length s
               /\ load s (products_at r) = load s0 (products_at r)) ->
    merge_loop (seen s d) (map (value_of s0) items)
    = match merge_loop_obj (s, d) items with
      | Ok st => Ok (seen (fst st) (snd st))
      | Raise e => Raise e
      end.
Proof.
  induction items as [|r items IH]; intros s d Hlen Hnd Hfiled Hrest.
  - reflexivity.
  - cbn [merge_loop_obj map merge_loop]. unfold merge_step_obj.
    rewrite merge_step_view.
    destruct (Hrest r (or_introl eq_refl)) as [Hr Hload].
    assert (Hnd' : NoDup (addresses (map snd d) ++ addresses items)%list)
      by (cbn [addresses map] in Hnd; now apply NoDup_remove_1 in Hnd).
    assert (Hfresh : ~ In (products_at r)
                       (addresses (map snd d) ++ addresses items)%list)
      by (cbn [addresses map] in Hnd; now apply NoDup_remove_2 in Hnd).
    assert (Hrest' : forall r', In r' items ->
              products_at r' < List.length s
              /\ load s (products_at r') = load s0 (products_at r'))
      by (intros r' Hr'; apply Hrest; now right).
    destruct (truthy (get_invoice_number (fields r))); cbn [negb bind].
    + destruct (hash_key (get_invoice_number (fields r))) as [k|e];
        cbn [bind]; [|reflexivity].
      rewrite seen_get.
      destruct (filed_get k d) as [stored|] eqn:Hget; cbn [option_map bind].
      * assert (Hst : products_at stored < List.length s).
        { apply Hfiled. clear - Hget.
          induction d as [|[k' r'] d IH]; cbn [filed_get] in Hget;
            [discriminate|].
          destruct (pykey_eqb k' k);
            [injection Hget as ->; now left | right; now apply IH]. }
        assert (Hne : products_at stored <> products_at r).
        { intros Heq. apply Hfresh. apply in_or_app. left.
          rewrite <- Heq. now apply (filed_get_In k). }
        unfold extend_products, view.
        rewrite !obj_get_set_same. cbn [py_iter bind].
        rewrite obj_set_twice, <- Hload.
        fold (view s stored).
        rewrite <- (seen_store_set s k d stored _
                      (NoDup_app_remove_r _ _ Hnd') Hget Hst).
        apply IH.
        -- now rewrite store_set_length.
        -- exact Hnd'.
        -- intros r' Hr'. rewrite store_set_length. now apply Hfiled.
        -- intros r' Hr'. rewrite store_set_length.
           destruct (Hrest' r' Hr') as [Hlt Hl]. split; [exact Hlt|].
           rewrite load_store_set_other; [exact Hl|].
           intros Heq. apply (NoDup_app_apart _ _ (products_at r') Hnd').
           ++ rewrite <- Heq. now apply (filed_get_In k).
           ++ now apply (in_map products_at).
      * assert (Hview : view s0 r = view s r)
          by (unfold view; now rewrite Hload).
        rewrite Hview.
        change [(k, view s r)] with (seen s [(k, r)]).
        rewrite <- (seen_app s d [(k, r)]).
        apply IH.
        -- exact Hlen.
        -- rewrite map_app. unfold addresses in *. rewrite map_app.
           cbn [map snd] in *. now rewrite <- app_assoc.
        -- intros r' Hr'. rewrite map_app in Hr'. apply in_app_or in Hr'.
           destruct Hr' as [Hr' | [<- | []]]; [now apply Hfiled | exact Hr].
        -- exact Hrest'.
    + apply IH; auto.
Qed.

(** When no two records share their list of products, as with the
    records [json.loads] builds, growing the lists in place returns what
    the merge on values returns. *)
Lemma merge_objects_agree (s : store) (items : list record_obj) :
  NoDup (addresses items) ->
  (forall r, In r items -> products_at r < List.length s) ->
  merge_objects s items
  = merge_items_by_invoice (map (value_of s) items).
Proof.
  intros Hnd Hin. unfold merge_objects, merge_items_by_invoice.
  assert (H : merge_loop [] (map (value_of s) items)
              = match merge_loop_obj (s, []) items with
                | Ok st => Ok (seen (fst st) (snd st))
                | Raise e => Raise e
                end).
  { apply (merge_loop_agree s items s [] eq_refl Hnd).
    - intros r [].
    - intros r Hr. split; [now apply Hin | reflexivity]. }
  rewrite H. clear H.
  destruct (merge_loop_obj (s, []) items) as [[s' d']|e]; cbn [bind fst snd];
    [|reflexivity].
  unfold seen, value_of. now rewrite map_map.
Qed.

(** A record object listed three times grows its own list twice: one
    product is returned four times, where the merge on values returns it
    three times. *)
Example shared_record_listed_thrice :
  option_map (fun out => map (fun o => List.length (products_of o)) out)
    (match merge_objects [[JObj Samples.sofa]] thrice with
     | Ok out => Some out
     | Raise _ => None
     end) = Some [4]
  /\ option_map (fun out => map (fun o => List.length (products_of o)) out)
       (match merge_items_by_invoice
                (map (value_of [[JObj Samples.sofa]]) thrice) with
        | Ok out => Some out
        | Raise _ => None
        end) = Some [3].
Proof. split; reflexivity. Qed.

Lemma value_of_well_formed (s : store) (r : record_obj) :
  (truthy (get_invoice_number (fields r)) = true ->
   exists k, hash_key (get_invoice_number (fields r)) = Ok k) ->
  well_formed_item (value_of s r).
Proof.
  intros H. exists (view s r), (load s (products_at r)).
  split; [reflexivity|]. split.
  - apply obj_get_set_same.
  - now rewrite view_key.
Qed.

(** C1: for record objects that share no list of products and whose
    invoice numbers, where present, are hashable, the merge, growing
    lists in place, returns what the merge on the records' values
    returns: a list in which no invoice number occurs twice and every
    entry has one; a record with a missing or empty invoice number has no
    key, is in no group and is not returned; every numbered record is
    represented; and every entry is the first record seen under its
    number, with all its other fields, whose products are those of all
    the records of that number laid end to end in encounter order,
    repetitions included, so that their number is the sum of the
    lengths. *)
Theorem merge_one_entry_per_invoice (s : store) (objects : list record_obj) :
  NoDup (addresses objects) ->
  (forall r, In r objects -> products_at r < List.length s) ->
  (forall r, In r objects ->
     truthy (get_invoice_number (fields r)) = true ->
     exists k, hash_key (get_invoice_number (fields r)) = Ok k) ->
  let items := map (value_of s) objects in
  exists out,
    merge_objects s objects = Ok out
    /\ merge_items_by_invoice items = Ok out
    /\ NoDup (map invoice_key out)
    /\ (forall o, In o out -> invoice_key o <> None)
    /\ (forall d,
          obj_get "invoice_number" d = None
          \/ obj_get "invoice_number" d = Some JNull
          \/ obj_get "invoice_number" d = Some (JStr "") ->
          invoice_key (JObj d) = None)
    /\ (forall x, In x items -> invoice_key x = None ->
          ~ In x out /\ forall k, ~ In x (same_number k items))
    /\ (forall x k, In x items -> invoice_key x = Some k ->
          exists o, In o out /\ invoice_key o = Some k)
    /\ (forall o, In o out ->
          exists k first,
            invoice_key o = Some k
            /\ first_seen k items first
            /\ o = JObj (obj_set "products"
                           (JArr (merged_products k items)) first)
            /\ (forall field, field <> "products" ->
                  obj_get field (obj_set "products"
                                   (JArr (merged_products k items)) first)
                  = obj_get field first)
            /\ products_of o = merged_products k items
            /\ List.length (products_of o)
               = list_sum (map (fun x => List.length (products_of x))
                               (same_number k items))).
Proof.
  intros Hnd Hin Hkeys items.
  assert (Hwf : Forall well_formed_item items).
  { apply Forall_forall. intros x Hx. apply in_map_iff in Hx.
    destruct Hx as [r [<- Hr]]. apply value_of_well_formed.
    now apply Hkeys. }
  destruct (merge_values items Hwf) as [out [Hout Hprops]].
  exists out. split; [|split; [exact Hout | exact Hprops]].
  rewrite (merge_objects_agree s objects Hnd Hin). exact Hout.
Qed.

Lemma merge_one_entry_per_invoice_witness :
  NoDup (addresses sample_objects)
  /\ (forall r, In r sample_objects ->
                products_at r < List.length sample_store)
  /\ (forall r, In r sample_objects ->
        truthy (get_invoice_number (fields r)) = true ->
        exists k, hash_key (get_invoice_number (fields r)) = Ok k)
  /\ map (value_of sample_store) sample_objects = Samples.chunk_outputs
  /\ exists out,
       merge_objects sample_store sample_objects = Ok out
       /\ NoDup (map invoice_key out).
Proof.
  assert (H1 : NoDup (addresses sample_objects)).
  { repeat constructor; cbn [In]; intros H;
      repeat (destruct H as [H | H]; [discriminate H|]); exact H. }
  assert (H2 : forall r, In r sample_objects ->
                         products_at r < List.length sample_store).
  { intros r Hr. cbn [In sample_objects] in Hr.
    destruct Hr as [<- | [<- | [<- | []]]]; cbn;
      repeat constructor. }
  assert (H3 : forall r, In r sample_objects ->
             truthy (get_invoice_number (fields r)) = true ->
             exists k, hash_key (get_invoice_number (fields r)) = Ok k).
  { intros r Hr. cbn [In sample_objects] in Hr.
    destruct Hr as [<- | [<- | [<- | []]]]; intros Ht;
      try discriminate Ht; eexists; reflexivity. }
  split; [exact H1|]. split; [exact H2|]. split; [exact H3|].
  split; [reflexivity|].
  destruct (merge_one_entry_per_invoice sample_store sample_objects H1 H2 H3)
    as [out [Hout [_ [Hnd _]]]].
  exists out. split; [exact Hout | exact Hnd].
Defined.

End MergeObjectsFacts.

(** ** Runs of the pipeline *)

Module RunFacts.
Import PyStr Py Llm DataFormatter DataExtracter RunSpec.

(** An answer is returned only after the prompt went to the provider. *)
Lemma call_llm_ok_log (E : env) (p t : string) (l : list string) :
  fst (call_llm E p l) = Ok t -> snd (call_llm E p l) = (l ++ [p])%list.
Proof.
  unfold call_llm. destruct (GOOGLE_API_KEY E) as [[|c key]|];
    try discriminate.
  intros _. unfold try_except, bindM, send.
  destruct (generate_content E l p) as [r|e]; [|reflexivity].
  destruct (block_reason r); [reflexivity|].
  unfold lift. destruct (text r); reflexivity.
Qed.

Lemma bindM_raise {A B : Type} (c : M A) (k : A -> M B)
  (l : list string) (e : exn) :
  fst (c l) = Raise e -> bindM c k l = (Raise e, snd (c l)).
Proof.
  unfold bindM. destruct (c l) as [[a|e'] l']; cbn [fst snd]; intros H;
    [discriminate | congruence].
Qed.

Lemma bindM_ok {A B : Type} (c : M A) (k : A -> M B)
  (l l' : list string) (a : A) :
  c l = (Ok a, l') -> bindM c k l = k a l'.
Proof. unfold bindM. now intros ->. Qed.

(** One turn of the chunk loop, by what [call_llm] answers. *)
Lemma extract_chunks_cons (E : env) (mp : string) (pages : list string)
  (i : nat) (rest : list nat) (chunks : list dict) (l : list string) :
  extract_chunks E mp pages (i :: rest) chunks l =
  let range := current_chunk_range pages i in
  let p := chunk_prompt mp pages i in
  match call_llm E p l with
  | (Raise e, l') => (Raise e, l')
  | (Ok EmptyString, l') => (Raise (no_result_error range), l')
  | (Ok t, l') =>
      match json_loads E t with
      | Ok v =>
          extract_chunks E mp pages rest
            (chunks ++ [[("pages", JStr range); ("data", v)]])%list l'
      | Raise e => (Raise (on_decode_error range e), l')
      end
  end.
Proof.
  cbn [extract_chunks]. unfold bindM. cbn zeta.
  destruct (call_llm E (chunk_prompt mp pages i) l) as [[t|e] l'];
    [|reflexivity].
  destruct t as [|c t]; [reflexivity|].
  destruct (json_loads E (String c t)); reflexivity.
Qed.

(** The loop stops at the first chunk whose answer is not accepted. *)
Lemma extract_chunks_first_bad (E : env) (mp : string) (pages : list string)
  (starts : list nat) :
  let prompts := map (chunk_prompt mp pages) starts in
  forall (k : nat) (chunks : list dict) (l : list string),
    k < List.length starts ->
    (forall j, j < k ->
       exists t v,
         fst (call_llm E (nth j prompts "") (l ++ firstn j prompts)%list) = Ok t
         /\ t <> "" /\ json_loads E t = Ok v) ->
    let answer :=
      fst (call_llm E (nth k prompts "") (l ++ firstn k prompts)%list) in
    let range := current_chunk_range pages (nth k starts 0) in
    (answer = Ok "" ->
     fst (extract_chunks E mp pages starts chunks l)
     = Raise (no_result_error range))
    /\ (forall t e,
          answer = Ok t -> t <> "" -> json_loads E t = Raise e ->
          fst (extract_chunks E mp pages starts chunks l)
          = Raise (on_decode_error range e)).
Proof.
  cbn zeta. induction starts as [|i rest IH]; intros k chunks l Hk Hprev.
  - cbn in Hk. lia.
  - rewrite extract_chunks_cons. cbn zeta. destruct k as [|k].
    + cbn [nth map firstn]. rewrite app_nil_r.
      destruct (call_llm E (chunk_prompt mp pages i) l) as [r l'].
      cbn [fst]. split.
      * intros ->. reflexivity.
      * intros t e -> Ht He. destruct t as [|c t]; [contradiction|].
        now rewrite He.
    + destruct (Hprev 0 ltac:(lia)) as [t [v [Ht [Hne Hv]]]].
      cbn [nth map firstn] in Ht. rewrite app_nil_r in Ht.
      pose proof (call_llm_ok_log E _ t l Ht) as Hlog.
      destruct (call_llm E (chunk_prompt mp pages i) l) as [r l'].
      cbn [fst snd] in Ht, Hlog. subst r l'.
      destruct t as [|c t]; [contradiction|]. rewrite Hv.
      cbn [nth map firstn List.length] in *.
      assert (Hshift : forall m,
                (l ++ chunk_prompt mp pages i
                   :: firstn m (map (chunk_prompt mp pages) rest))%list
                = ((l ++ [chunk_prompt mp pages i])
                   ++ firstn m (map (chunk_prompt mp pages) rest))%list)
        by (intros m; now rewrite <- app_assoc).
      rewrite Hshift. apply IH; [lia|].
      intros j Hj. destruct (Hprev (S j) ltac:(lia)) as [t' [v' H']].
      cbn [nth map firstn] in H'. rewrite Hshift in H'. eauto.
Qed.

(** A chunk loop that ran to its end sent one prompt per chunk, in
    order, and recorded one labelled entry per chunk. *)
Lemma extract_chunks_ok (E : env) (mp : string) (pages : list string)
  (starts : list nat) :
  forall (chunks raw : list dict) (l l' : list string),
    extract_chunks E mp pages starts chunks l = (Ok raw, l') ->
    l' = (l ++ map (chunk_prompt mp pages) starts)%list
    /\ exists entries,
         raw = (chunks ++ entries)%list
         /\ map (obj_get "pages") entries
            = map (fun i => Some (JStr (current_chunk_range pages i))) starts
         /\ Forall (fun c => exists v, obj_get "data" c = Some v) entries.
Proof.
  induction starts as [|i rest IH]; intros chunks raw l l' H.
  - cbn in H. injection H as <- <-. rewrite !app_nil_r.
    split; [reflexivity|]. exists []. rewrite app_nil_r. repeat split.
    constructor.
  - rewrite extract_chunks_cons in H. cbn zeta in H.
    destruct (call_llm E (chunk_prompt mp pages i) l) as [[t|e] l1] eqn:Hcall;
      [|discriminate].
    pose proof (call_llm_ok_log E (chunk_prompt mp pages i) t l) as Hlog.
    rewrite Hcall in Hlog. specialize (Hlog eq_refl).
    cbn [snd] in Hlog. subst l1.
    destruct t as [|c t]; [discriminate|].
    destruct (json_loads E (String c t)) as [v|e]; [|discriminate].
    destruct (IH _ _ _ _ H) as [-> [entries [-> [Hpages Hdata]]]].
    split; [cbn [map]; now rewrite <- app_assoc|].
    exists ([("pages", JStr (current_chunk_range pages i)); ("data", v)]
            :: entries).
    split; [now rewrite <- app_assoc|]. split.
    + cbn [map]. now rewrite Hpages.
    + constructor; [exists v; reflexivity | exact Hdata].
Qed.

End RunFacts.

(** ** Chunking *)

Module Chunking.
Import PyStr Py DataExtracter RunFacts.

Lemma range_from_lt (i n : nat) :
  i < n -> range_from i n = i :: range_from (i + PAGES_PER_CHUNK) n.
Proof.
  intros H. rewrite range_from_equation_1.
  destruct (lt_dec i n); [reflexivity | contradiction].
Qed.

Lemma range_from_ge (i n : nat) : n <= i -> range_from i n = [].
Proof.
  intros H. rewrite range_from_equation_1.
  destruct (lt_dec i n); [lia | reflexivity].
Qed.

(** Induction along the loop: from [i] to [i + PAGES_PER_CHUNK]. *)
Lemma range_from_ind (n : nat) (P : nat -> Prop) :
  (forall i, n <= i -> P i) ->
  (forall i, i < n -> P (i + PAGES_PER_CHUNK) -> P i) ->
  forall i, P i.
Proof.
  intros Hstop Hstep i.
  remember (n - i) as gap eqn:Hgap. revert i Hgap.
  induction gap as [gap IH] using lt_wf_ind. intros i Hgap.
  destruct (le_lt_dec n i) as [Hle | Hlt]; [now apply Hstop|].
  apply Hstep; [exact Hlt|].
  apply (IH (n - (i + PAGES_PER_CHUNK))); [|reflexivity].
  unfold PAGES_PER_CHUNK. lia.
Qed.

Lemma range_from_length (i n : nat) :
  List.length (range_from i n) = (n - i + 9) / 10.
Proof.
  revert i. apply (range_from_ind n).
  - intros i Hi. rewrite range_from_ge by exact Hi.
    replace (n - i + 9) with 9 by lia. reflexivity.
  - intros i Hi IH. rewrite range_from_lt by exact Hi. cbn [List.length].
    rewrite IH. unfold PAGES_PER_CHUNK.
    pose proof (Nat.div_mod_eq (n - (i + 10) + 9) 10) as H1.
    pose proof (Nat.div_mod_eq (n - i + 9) 10) as H2.
    pose proof (Nat.mod_upper_bound (n - (i + 10) + 9) 10) as H3.
    pose proof (Nat.mod_upper_bound (n - i + 9) 10) as H4.
    lia.
Qed.

Lemma range_from_nth (n k i : nat) :
  k < List.length (range_from i n) ->
  nth k (range_from i n) 0 = i + PAGES_PER_CHUNK * k.
Proof.
  revert k. revert i. apply (range_from_ind n
    (fun i => forall k, k < List.length (range_from i n) ->
                        nth k (range_from i n) 0 = i + PAGES_PER_CHUNK * k)).
  - intros i Hi k. rewrite range_from_ge by exact Hi. cbn. lia.
  - intros i Hi IH k. rewrite range_from_lt by exact Hi.
    destruct k as [|k]; cbn [nth List.length]; intros Hk.
    + lia.
    + rewrite IH by lia. unfold PAGES_PER_CHUNK. lia.
Qed.

(** Laid end to end, the chunks from page [i] on are the pages from [i]
    on. *)
Lemma chunks_from (pages_text : list string) (i : nat) :
  List.concat (map (chunk_pages pages_text)
              (range_from i (List.length pages_text)))
  = skipn i pages_text.
Proof.
  revert i. apply (range_from_ind (List.length pages_text)).
  - intros i Hi. rewrite range_from_ge by exact Hi.
    now rewrite skipn_all2.
  - intros i Hi IH. rewrite range_from_lt by exact Hi.
    cbn [map List.concat]. rewrite IH. unfold chunk_pages.
    rewrite Nat.add_comm, <- skipn_skipn. apply firstn_skipn.
Qed.

Lemma chunk_pages_length (pages_text : list string) (i : nat) :
  List.length (chunk_pages pages_text i)
  = Nat.min PAGES_PER_CHUNK (List.length pages_text - i).
Proof. unfold chunk_pages. now rewrite length_firstn, length_skipn. Qed.

(** C4: the chunk loop makes ceil(N / 10) chunks; chunk number [k] holds
    the pages [10 k + 1] to [min (10 k + 10) N] in their order, joined by
    line feeds, at least one and at most ten of them, under the label
    "first-last"; each chunk starts on the page after the last page of
    the chunk before it, the first on page 1 and the last ends on page
    N; the chunks laid end to end are the pages; fifteen pages give
    "1-10" and "11-15"; and a chunk loop that ran to its end sent one
    prompt per chunk and recorded the labels in this order. *)
Theorem chunking_is_a_partition (pages_text : list string) :
  let n := List.length pages_text in
  let starts := chunk_starts pages_text in
  List.length starts = (n + 9) / 10
  /\ (n <= 10 * List.length starts /\ 10 * List.length starts < n + 10)
  /\ (forall k, k < List.length starts ->
        let i := nth k starts 0 in
        i = 10 * k
        /\ chunk_pages pages_text i = firstn 10 (skipn (10 * k) pages_text)
        /\ chunk_text pages_text i = join newline (chunk_pages pages_text i)
        /\ (1 <= List.length (chunk_pages pages_text i)
            /\ List.length (chunk_pages pages_text i) <= 10)
        /\ current_chunk_range pages_text i
           = str_of_nat (10 * k + 1) ++ "-"
             ++ str_of_nat (Nat.min (10 * k + 10) n)
        /\ first_page i = 10 * k + 1
        /\ last_page pages_text i = Nat.min (10 * k + 10) n
        /\ List.length (chunk_pages pages_text i)
           = last_page pages_text i + 1 - first_page i
        /\ (k = 0 -> first_page i = 1)
        /\ (S k < List.length starts ->
            first_page (nth (S k) starts 0) = last_page pages_text i + 1)
        /\ (S k = List.length starts -> last_page pages_text i = n))
  /\ List.concat (map (chunk_pages pages_text) starts) = pages_text
  /\ (n = 15 ->
      map (current_chunk_range pages_text) starts = ["1-10"; "11-15"])
  /\ (forall E main_prompt raw l l',
        extract_chunks E main_prompt pages_text starts [] l = (Ok raw, l') ->
        map (obj_get "pages") raw
        = map (fun i => Some (JStr (current_chunk_range pages_text i))) starts
        /\ l' = (l ++ map (chunk_prompt main_prompt pages_text) starts)%list).
Proof.
  cbn zeta. unfold chunk_starts.
  pose proof (range_from_length 0 (List.length pages_text)) as Hlen.
  rewrite Nat.sub_0_r in Hlen.
  pose proof (Nat.div_mod_eq (List.length pages_text + 9) 10) as Hdiv.
  pose proof (Nat.mod_upper_bound (List.length pages_text + 9) 10) as Hmod.
  split; [exact Hlen|]. split; [lia|]. split; [|split; [|split]].
  - intros k Hk.
    pose proof (range_from_nth (List.length pages_text) k 0 Hk) as Hnth.
    unfold PAGES_PER_CHUNK in Hnth. cbn [Nat.add] in Hnth.
    rewrite Hnth.
    assert (Hlast : last_page pages_text (10 * k)
                    = Nat.min (10 * k + 10) (List.length pages_text))
      by reflexivity.
    assert (Hsize : List.length (chunk_pages pages_text (10 * k))
                    = Nat.min 10 (List.length pages_text - 10 * k))
      by apply chunk_pages_length.
    assert (Hinside : 10 * k < List.length pages_text) by lia.
    split; [reflexivity|]. split; [reflexivity|]. split; [reflexivity|].
    split; [lia|].
    split; [unfold current_chunk_range, first_page; now rewrite Hlast|].
    split; [unfold first_page; lia|]. split; [exact Hlast|].
    split; [unfold first_page; lia|].
    split; [intros ->; reflexivity|]. split.
    + intros Hnext.
      rewrite (range_from_nth (List.length pages_text) (S k) 0 Hnext).
      unfold first_page, PAGES_PER_CHUNK. lia.
    + intros Hend. lia.
  - rewrite chunks_from. reflexivity.
  - intros Hn. rewrite Hn. vm_compute range_from. cbn [map].
    unfold current_chunk_range, last_page, first_page, PAGES_PER_CHUNK.
    rewrite Hn. reflexivity.
  - intros E mp raw l l' Hrun.
    destruct (extract_chunks_ok E mp pages_text _ _ _ _ _ Hrun)
      as [Hl [entries [Hraw [Hpages _]]]].
    cbn [app] in Hraw. subst raw. split; [exact Hpages | exact Hl].
Qed.

Lemma chunking_is_a_partition_witness :
  List.length SampleRun.fifteen_pages = 15
  /\ map (current_chunk_range SampleRun.fifteen_pages)
         (chunk_starts SampleRun.fifteen_pages) = ["1-10"; "11-15"]
  /\ List.length (chunk_starts SampleRun.fifteen_pages) = 2.
Proof.
  assert (H : List.length SampleRun.fifteen_pages = 15) by reflexivity.
  destruct (chunking_is_a_partition SampleRun.fifteen_pages)
    as [Hcount [_ [_ [_ [Hlabels _]]]]].
  split; [exact H|]. split; [exact (Hlabels H) | exact Hcount].
Defined.

End Chunking.

Module ExtractionFailure.
Import PyStr Py Llm DataFormatter DataExtracter RunSpec RunFacts PyStrFacts.

(** C3: when the chunks before chunk [k] were accepted, an empty answer
    for chunk [k] ends the run with the no-result error for the page
    range of that chunk, and an answer on which [json.loads] raises
    JSONDecodeError ends it with the parse error for that page range; in
    both cases the run returns an exception whose detail contains the
    range, and no document; any other exception of [json.loads] ends the
    run as well. *)
Theorem bad_chunk_fails_run
  (E : env) (file_name companyId : string) (company_config : company)
  (clients_list : json) (pages_text : list string) (l0 : list string)
  (k : nat) :
  let main_prompt := MAIN_PROMPT company_config in
  let range := range_of_chunk pages_text k in
  let run := extract_invoice_data E file_name companyId company_config
                                  clients_list pages_text l0 in
  k < List.length (chunk_starts pages_text) ->
  (forall j, j < k -> chunk_accepted E main_prompt pages_text l0 j) ->
  (extraction_answer E main_prompt pages_text l0 k = Ok "" ->
   fst run
   = Raise (HTTPException 500
       ("Error: No result (raw invoice info) from Gemini API for pages "
        ++ range)))
  /\ (forall t msg,
        extraction_answer E main_prompt pages_text l0 k = Ok t ->
        t <> "" ->
        json_loads E t = Raise (JSONDecodeError msg) ->
        fst run
        = Raise (HTTPException 500
            ("Error parsing JSON response for pages " ++ range ++ ": " ++ msg)))
  /\ ((extraction_answer E main_prompt pages_text l0 k = Ok ""
       \/ exists t msg,
            extraction_answer E main_prompt pages_text l0 k = Ok t
            /\ t <> "" /\ json_loads E t = Raise (JSONDecodeError msg)) ->
      (forall document, fst run <> Ok document)
      /\ exists detail,
           fst run = Raise (HTTPException 500 detail)
           /\ substring_of range detail)
  /\ (forall t e,
        extraction_answer E main_prompt pages_text l0 k = Ok t ->
        t <> "" ->
        json_loads E t = Raise e ->
        forall document, fst run <> Ok document).
Proof.
  cbn zeta. intros Hk Hprev.
  pose proof (extract_chunks_first_bad E (MAIN_PROMPT company_config)
                pages_text (chunk_starts pages_text) k [] l0 Hk Hprev)
    as [Hempty Hparse].
  assert (Hrun : forall e,
    fst (extract_chunks E (MAIN_PROMPT company_config) pages_text
           (chunk_starts pages_text) [] l0) = Raise e ->
    fst (extract_invoice_data E file_name companyId company_config
           clients_list pages_text l0) = Raise e).
  { intros e He. unfold extract_invoice_data.
    now rewrite (bindM_raise _ _ _ e He). }
  assert (H1 : extraction_answer E (MAIN_PROMPT company_config) pages_text l0 k
               = Ok "" ->
               fst (extract_invoice_data E file_name companyId company_config
                      clients_list pages_text l0)
               = Raise (no_result_error (range_of_chunk pages_text k))).
  { intros Ha. apply Hrun. now apply Hempty. }
  assert (H2 : forall t msg,
             extraction_answer E (MAIN_PROMPT company_config) pages_text l0 k
             = Ok t -> t <> "" ->
             json_loads E t = Raise (JSONDecodeError msg) ->
             fst (extract_invoice_data E file_name companyId company_config
                    clients_list pages_text l0)
             = Raise (parse_error (range_of_chunk pages_text k) msg)).
  { intros t msg Ha Ht Hm. apply Hrun.
    now apply (Hparse t (JSONDecodeError msg)). }
  split; [exact H1|]. split; [exact H2|]. split.
  2: { intros t e Ha Ht He document.
       rewrite (Hrun _ (Hparse t e Ha Ht He)). discriminate. }
  intros [Ha | [t [msg [Ha [Ht Hm]]]]].
  - rewrite (H1 Ha). split; [discriminate|].
    eexists. split; [reflexivity|].
    eexists _, "". now rewrite append_nil_r.
  - rewrite (H2 t msg Ha Ht Hm). split; [discriminate|].
    eexists. split; [reflexivity|].
    eexists _, (": " ++ msg). reflexivity.
Qed.

(** Fifteen pages: the second chunk is pages 11-15, and an empty answer
    for it fails the run with the error that names them. *)
Lemma bad_chunk_fails_run_witness :
  1 < List.length (chunk_starts SampleRun.fifteen_pages)
  /\ (forall j, j < 1 ->
        chunk_accepted (SampleRun.env_of (SampleRun.answer "[]")
                                         (SampleRun.answer ""))
                       "MAIN PROMPT" SampleRun.fifteen_pages [] j)
  /\ extraction_answer (SampleRun.env_of (SampleRun.answer "[]")
                                         (SampleRun.answer ""))
                       "MAIN PROMPT" SampleRun.fifteen_pages [] 1 = Ok ""
  /\ fst (extract_invoice_data
            (SampleRun.env_of (SampleRun.answer "[]") (SampleRun.answer ""))
            "invoices.pdf" "86e676e3-4cc0-4725-b12c-358d3b4b3e43"
            SampleRun.le_comfort SampleRun.crm_clients
            SampleRun.fifteen_pages [])
     = Raise (HTTPException 500
         "Error: No result (raw invoice info) from Gemini API for pages 11-15").
Proof.
  assert (Hk : 1 < List.length (chunk_starts SampleRun.fifteen_pages))
    by (vm_compute; apply le_n).
  assert (Hprev : forall j, j < 1 ->
            chunk_accepted (SampleRun.env_of (SampleRun.answer "[]")
                                             (SampleRun.answer ""))
                           "MAIN PROMPT" SampleRun.fifteen_pages [] j).
  { intros j Hj. destruct j as [|j].
    - exists "[]", (JArr []). split; [reflexivity|].
      split; [discriminate | reflexivity].
    - exfalso. apply Nat.succ_lt_mono in Hj. inversion Hj. }
  assert (Hanswer : extraction_answer
                      (SampleRun.env_of (SampleRun.answer "[]")
                                        (SampleRun.answer ""))
                      "MAIN PROMPT" SampleRun.fifteen_pages [] 1 = Ok "")
    by reflexivity.
  split; [exact Hk|]. split; [exact Hprev|]. split; [exact Hanswer|].
  exact (proj1 (bad_chunk_fails_run
                  (SampleRun.env_of (SampleRun.answer "[]")
                                    (SampleRun.answer ""))
                  "invoices.pdf" "86e676e3-4cc0-4725-b12c-358d3b4b3e43"
                  SampleRun.le_comfort SampleRun.crm_clients
                  SampleRun.fifteen_pages [] 1 Hk Hprev) Hanswer).
Defined.

(** The same run with an answer that is not JSON for the second chunk. *)
Example not_json_fails_run :
  fst (extract_invoice_data
         (SampleRun.env_of (SampleRun.answer "[]")
                           (SampleRun.answer "not json"))
         "invoices.pdf" "86e676e3-4cc0-4725-b12c-358d3b4b3e43"
         SampleRun.le_comfort SampleRun.crm_clients
         SampleRun.fifteen_pages [])
  = Raise (HTTPException 500
      "Error parsing JSON response for pages 11-15: Expecting value: line 1 column 1 (char 0)").
Proof. vm_compute. reflexivity. Qed.

End ExtractionFailure.

(** ** The client-name normalisation call *)

Module ClientNormalisation.
Import PyStr Py Llm DataFormatter DataExtracter RunSpec RunFacts.

(** [process_chunk_data] on a chunk whose records are filtered to
    [survivors]. *)
Lemma process_chunk_data_filtered (E : env) (chunk : dict)
  (pl cl : list string) (clients_list : json) (data survivors : list json)
  (l : list string) :
  obj_get "data" chunk = Some (JArr data) ->
  filter_items pl cl data = Ok survivors ->
  process_chunk_data E chunk pl cl clients_list l =
  match survivors with
  | [] => (Ok (JArr []), l)
  | _ :: _ =>
      try_except (ask_json E (client_prompt E clients_list survivors))
                 client_error l
  end.
Proof.
  intros Hdata Hfilter. unfold process_chunk_data. rewrite Hdata.
  unfold bindM, lift. rewrite Hfilter. destruct survivors; reflexivity.
Qed.

(** A chunk without a list under [data] yields the empty list. *)
Lemma process_chunk_data_no_list (E : env) (chunk : dict)
  (pl cl : list string) (clients_list : json) (l : list string) :
  (forall data, obj_get "data" chunk <> Some (JArr data)) ->
  process_chunk_data E chunk pl cl clients_list l = (Ok (JArr []), l).
Proof.
  intros H. unfold process_chunk_data.
  destruct (obj_get "data" chunk) as [v|]; [|reflexivity].
  destruct v; try reflexivity. exfalso. now apply (H xs).
Qed.

(** The chunk loop of [normalize_results] stops at the first chunk that
    raises. *)
Lemma normalize_chunks_stop (E : env) (pl cl : list string)
  (clients_list : json) (chunk : dict) (after : list dict) (e : exn) :
  forall (before : list dict) (acc items : list json) (l l2 l3 : list string),
    normalize_chunks E before pl cl clients_list acc l = (Ok items, l2) ->
    process_chunk_data E chunk pl cl clients_list l2 = (Raise e, l3) ->
    normalize_chunks E (before ++ chunk :: after)%list pl cl clients_list acc l
    = (Raise e, l3).
Proof.
  induction before as [|c before IH]; intros acc items l l2 l3 Hbefore Hchunk.
  - cbn in Hbefore. injection Hbefore as <- <-.
    cbn [app normalize_chunks]. unfold bindM. now rewrite Hchunk.
  - cbn [app normalize_chunks] in *. unfold bindM in *.
    destruct (process_chunk_data E c pl cl clients_list l) as [[out|e0] l1];
      [|discriminate].
    unfold lift in *. destruct (py_iter out) as [more|e0]; [|discriminate].
    now apply (IH _ items _ l2).
Qed.

(** C9: when the chunks before a chunk went through, the chunk has
    surviving records and the client-name call for it fails, be it that
    [call_llm] raises or that its answer does not decode, then
    [process_chunk_data] raises the client-normalisation error, and so do
    [normalize_results] and the whole run: nothing is returned, in
    particular not the surviving records as they were. *)
Theorem client_call_failure_is_fatal
  (E : env) (file_name companyId : string) (company_config : company)
  (clients_list : json) (pages_text : list string)
  (l0 l1 l2 : list string) (raw before after : list dict) (chunk : dict)
  (items data survivors : list json) (cause : exn) :
  let pl := PRODUCTS_LIST company_config in
  let cl := COVERINGS_LIST company_config in
  extract_chunks E (MAIN_PROMPT company_config) pages_text
                 (chunk_starts pages_text) [] l0 = (Ok raw, l1) ->
  raw = (before ++ chunk :: after)%list ->
  normalize_chunks E before pl cl clients_list [] l1 = (Ok items, l2) ->
  obj_get "data" chunk = Some (JArr data) ->
  filter_items pl cl data = Ok survivors ->
  survivors <> [] ->
  second_call_fails E clients_list survivors l2 cause ->
  fst (process_chunk_data E chunk pl cl clients_list l2)
  = Raise (HTTPException 500
      ("Error during client names normalization in chunk: "
       ++ str_of_exn cause))
  /\ fst (normalize_results E raw pl cl clients_list l1)
     = Raise (client_error cause)
  /\ fst (extract_invoice_data E file_name companyId company_config
                               clients_list pages_text l0)
     = Raise (client_error cause)
  /\ fst (process_chunk_data E chunk pl cl clients_list l2)
     <> Ok (JArr survivors)
  /\ forall document,
       fst (extract_invoice_data E file_name companyId company_config
                                 clients_list pages_text l0) <> Ok document.
Proof.
  cbn zeta. intros Hextract Hraw Hbefore Hdata Hfilter Hne Hfail.
  set (pl := PRODUCTS_LIST company_config) in *.
  set (cl := COVERINGS_LIST company_config) in *.
  assert (Hchunk : exists l3,
             process_chunk_data E chunk pl cl clients_list l2
             = (Raise (client_error cause), l3)).
  { rewrite (process_chunk_data_filtered E chunk pl cl clients_list
               data survivors l2 Hdata Hfilter).
    destruct survivors as [|s survivors]; [contradiction|].
    unfold try_except, ask_json, bindM.
    destruct Hfail as [Hcall | [t [Hcall Hmsg]]].
    - destruct (call_llm E _ l2) as [r l3]. cbn [fst] in Hcall. subst r.
      eauto.
    - destruct (call_llm E _ l2) as [r l3]. cbn [fst] in Hcall. subst r.
      unfold lift. rewrite Hmsg. eauto. }
  destruct Hchunk as [l3 Hchunk].
  assert (Hnorm : normalize_results E raw pl cl clients_list l1
                  = (Raise (client_error cause), l3)).
  { unfold normalize_results. subst raw.
    rewrite (bindM_raise _ _ _ (client_error cause));
      rewrite (normalize_chunks_stop E pl cl clients_list chunk after _
                 before [] items l1 l2 l3 Hbefore Hchunk); reflexivity. }
  assert (Hrun : fst (extract_invoice_data E file_name companyId
                        company_config clients_list pages_text l0)
                 = Raise (client_error cause)).
  { unfold extract_invoice_data.
    rewrite (bindM_ok _ _ _ _ _ Hextract).
    destruct raw as [|c raw]; [destruct before; discriminate|].
    fold pl. fold cl.
    rewrite (bindM_raise _ _ _ (client_error cause));
      rewrite Hnorm; reflexivity. }
  rewrite Hchunk, Hnorm, Hrun. cbn [fst].
  repeat split; try reflexivity; discriminate.
Qed.

(** C10: when no record of a chunk survives the product filter,
    [process_chunk_data] returns the empty list and sends nothing to the
    provider, whatever the provider, the key and the decoder are; it
    cannot raise the client-normalisation error. *)
Theorem empty_chunk_makes_no_client_call
  (chunk : dict) (pl cl : list string) (clients_list : json) :
  (forall data, obj_get "data" chunk = Some (JArr data) ->
                filter_items pl cl data = Ok []) ->
  forall (E : env) (l : list string),
    process_chunk_data E chunk pl cl clients_list l = (Ok (JArr []), l)
    /\ (forall E' l',
          fst (process_chunk_data E' chunk pl cl clients_list l')
          = fst (process_chunk_data E chunk pl cl clients_list l))
    /\ (forall cause,
          fst (process_chunk_data E chunk pl cl clients_list l)
          <> Raise (client_error cause)).
Proof.
  intros Hempty.
  assert (H : forall E l,
             process_chunk_data E chunk pl cl clients_list l
             = (Ok (JArr []), l)).
  { intros E l. destruct (obj_get "data" chunk) as [v|] eqn:Hv.
    - destruct v as [| | | | |data|];
        try (apply process_chunk_data_no_list; intros d Hd; congruence).
      now rewrite (process_chunk_data_filtered E chunk pl cl clients_list
                     data [] l Hv (Hempty data eq_refl)).
    - apply process_chunk_data_no_list. intros d Hd. congruence. }
  intros E l. split; [apply H|]. split.
  - intros E' l'. now rewrite !H.
  - intros cause. rewrite H. discriminate.
Qed.

(** One page, one surviving record, and a provider that is down when the
    client-name call is made. *)
Lemma client_call_failure_is_fatal_witness :
  extract_chunks (SampleRun.env_of (SampleRun.answer "[armchair record]")
                                   SampleRun.outage)
                 "MAIN PROMPT" SampleRun.one_page
                 (chunk_starts SampleRun.one_page) [] []
  = (Ok [SampleRun.recorded_chunk],
     [chunk_prompt "MAIN PROMPT" SampleRun.one_page 0])
  /\ filter_items Samples.products_list Samples.coverings_list
                  [JObj SampleRun.armchair_record]
     = Ok [SampleRun.armchair_survivor]
  /\ second_call_fails
       (SampleRun.env_of (SampleRun.answer "[armchair record]")
                         SampleRun.outage)
       SampleRun.crm_clients [SampleRun.armchair_survivor]
       [chunk_prompt "MAIN PROMPT" SampleRun.one_page 0]
       (HTTPException 500
          "Error during Gemini API call: 503 Service Unavailable")
  /\ fst (extract_invoice_data
            (SampleRun.env_of (SampleRun.answer "[armchair record]")
                              SampleRun.outage)
            "invoices.pdf" "86e676e3-4cc0-4725-b12c-358d3b4b3e43"
            SampleRun.le_comfort SampleRun.crm_clients SampleRun.one_page [])
     = Raise (HTTPException 500
         "Error during client names normalization in chunk: 500: Error during Gemini API call: 503 Service Unavailable").
Proof.
  pose (E := SampleRun.env_of (SampleRun.answer "[armchair record]")
                              SampleRun.outage).
  pose (p := chunk_prompt "MAIN PROMPT" SampleRun.one_page 0).
  assert (H1 : extract_chunks E (MAIN_PROMPT SampleRun.le_comfort)
                 SampleRun.one_page (chunk_starts SampleRun.one_page) [] []
               = (Ok [SampleRun.recorded_chunk], [p]))
    by (vm_compute; reflexivity).
  assert (H2 : [SampleRun.recorded_chunk]
               = ([] ++ SampleRun.recorded_chunk :: [])%list) by reflexivity.
  assert (H3 : normalize_chunks E [] (PRODUCTS_LIST SampleRun.le_comfort)
                 (COVERINGS_LIST SampleRun.le_comfort)
                 SampleRun.crm_clients [] [p] = (Ok [], [p]))
    by reflexivity.
  assert (H4 : obj_get "data" SampleRun.recorded_chunk
               = Some (JArr [JObj SampleRun.armchair_record]))
    by reflexivity.
  assert (H5 : filter_items (PRODUCTS_LIST SampleRun.le_comfort)
                 (COVERINGS_LIST SampleRun.le_comfort)
                 [JObj SampleRun.armchair_record]
               = Ok [SampleRun.armchair_survivor])
    by (vm_compute; reflexivity).
  assert (H6 : [SampleRun.armchair_survivor] <> [])
    by (intros H; discriminate H).
  assert (H7 : second_call_fails E SampleRun.crm_clients
                 [SampleRun.armchair_survivor] [p]
                 (HTTPException 500
                    "Error during Gemini API call: 503 Service Unavailable"))
    by (left; reflexivity).
  split; [exact H1|]. split; [exact H5|]. split; [exact H7|].
  exact (proj1 (proj2 (proj2
    (client_call_failure_is_fatal E "invoices.pdf"
       "86e676e3-4cc0-4725-b12c-358d3b4b3e43" SampleRun.le_comfort
       SampleRun.crm_clients SampleRun.one_page [] [p] [p]
       [SampleRun.recorded_chunk] [] [] SampleRun.recorded_chunk []
       [JObj SampleRun.armchair_record] [SampleRun.armchair_survivor]
       _ H1 H2 H3 H4 H5 H6 H7)))).
Defined.

(** The same run with a provider that answers the client-name call with
    text that is not JSON. *)
Example client_answer_not_json :
  fst (extract_invoice_data
         (SampleRun.env_of (SampleRun.answer "[armchair record]")
                           (SampleRun.answer "not json"))
         "invoices.pdf" "86e676e3-4cc0-4725-b12c-358d3b4b3e43"
         SampleRun.le_comfort SampleRun.crm_clients SampleRun.one_page [])
  = Raise (HTTPException 500
      "Error during client names normalization in chunk: Expecting value: line 1 column 1 (char 0)").
Proof. vm_compute. reflexivity. Qed.

(** A chunk whose only product matches nothing, in an environment
    without key: the empty list comes back and nothing was sent. *)
Lemma empty_chunk_makes_no_client_call_witness :
  (forall data,
      obj_get "data" SampleRun.lamp_chunk = Some (JArr data) ->
      filter_items Samples.products_list Samples.coverings_list data = Ok [])
  /\ process_chunk_data SampleRun.env_without_key SampleRun.lamp_chunk
        Samples.products_list Samples.coverings_list SampleRun.crm_clients []
     = (Ok (JArr []), []).
Proof.
  assert (H : forall data,
             obj_get "data" SampleRun.lamp_chunk = Some (JArr data) ->
             filter_items Samples.products_list Samples.coverings_list data
             = Ok []).
  { intros data Hd. injection Hd as <-. reflexivity. }
  split; [exact H|].
  exact (proj1 (empty_chunk_makes_no_client_call SampleRun.lamp_chunk
                  Samples.products_list Samples.coverings_list
                  SampleRun.crm_clients H SampleRun.env_without_key [])).
Defined.

End ClientNormalisation.

(** ** The errors of the extraction client *)

Module ClientErrors.
Import PyStr Py Llm.

(** Without a key nothing is sent and the configuration error is
    raised. *)
Lemma call_llm_without_key (E : env) (prompt : string) (l : list string) :
  GOOGLE_API_KEY E = None \/ GOOGLE_API_KEY E = Some "" ->
  call_llm E prompt l
  = (Raise (HTTPException 500
       "GOOGLE_API_KEY not found in environment variables. Please set it in your .env file."),
     l).
Proof. intros [H | H]; unfold call_llm; rewrite H; reflexivity. Qed.

(** With a key, every failure leaves [call_llm] as the same exception
    class and status, its detail under the same heading. *)
Lemma call_llm_with_key (E : env) (prompt key : string) (l : list string)
  (e : exn) :
  GOOGLE_API_KEY E = Some key -> key <> "" ->
  fst (call_llm E prompt l) = Raise e ->
  exists inner,
    e = HTTPException 500
          ("Error during Gemini API call: " ++ str_of_exn inner).
Proof.
  intros Hkey Hne. unfold call_llm. rewrite Hkey.
  destruct key as [|c key]; [contradiction|].
  unfold try_except, bindM, send.
  destruct (generate_content E l prompt) as [r|e0]; cbn [fst].
  - destruct (block_reason r) as [reason|]; unfold raise, lift; cbn [fst].
    + intros H. injection H as <-.
      exists (HTTPException 500 ("Request was blocked: " ++ reason)).
      reflexivity.
    + destruct (text r) as [t|e0]; cbn [fst]; intros H;
        [discriminate | injection H as <-; exists e0; reflexivity].
  - intros H. injection H as <-. exists e0. reflexivity.
Qed.

(** What [call_llm] raises when the provider reports a block reason. *)
Lemma call_llm_blocked (E : env) (prompt key reason : string)
  (l : list string) (t : result string) :
  GOOGLE_API_KEY E = Some key -> key <> "" ->
  generate_content E l prompt = Ok (mkResponse (Some reason) t) ->
  call_llm E prompt l
  = (Raise (HTTPException 500
       ("Error during Gemini API call: 500: Request was blocked: " ++ reason)),
     (l ++ [prompt])%list).
Proof.
  intros Hkey Hne Hgen. unfold call_llm. rewrite Hkey.
  destruct key as [|c key]; [contradiction|].
  unfold try_except, bindM, send. rewrite Hgen. reflexivity.
Qed.

(** C8, at the blocked prompt: without a key [call_llm] raises the
    configuration error and sends nothing; but the exception that
    announces a blocked prompt is raised inside the [try] and caught by
    its own [except Exception], so that the caller gets the wrapper of a
    provider failure, and a provider failure whose message reads alike
    gives the very same outcome. *)
Theorem blocked_content_raises_provider_error :
  call_llm SampleRun.env_without_key "prompt" []
  = (Raise (HTTPException 500
       "GOOGLE_API_KEY not found in environment variables. Please set it in your .env file."),
     [])
  /\ call_llm (SampleRun.env_of SampleRun.blocked SampleRun.blocked)
              "prompt" []
     = (Raise (HTTPException 500
          "Error during Gemini API call: 500: Request was blocked: SAFETY"),
        ["prompt"])
  /\ call_llm (SampleRun.env_of SampleRun.blocked SampleRun.blocked)
              "prompt" []
     = call_llm (SampleRun.env_of SampleRun.transport_failure
                                  SampleRun.transport_failure)
                "prompt" [].
Proof. repeat split; reflexivity. Qed.

End ClientErrors.

(** ** More on merging: lists without repeated numbers, merging in
    stages, positions *)

Module MergeLaws.
Import PyStr Py DataFormatter Spec PyFacts Merge.

Lemma dict_get_fresh (k : pykey) (acc : invoice_dict) :
  ~ In k (map fst acc) -> dict_get k acc = None.
Proof.
  induction acc as [|[k' v] acc IH]; cbn [map fst dict_get In];
    [reflexivity|].
  intros H. destruct (pykey_eqb k' k) eqn:Hk.
  - apply pykey_eqb_eq in Hk. exfalso. apply H. now left.
  - apply IH. intros Hin. apply H. now right.
Qed.

Lemma merge_loop_app (acc : invoice_dict) (a b : list json) :
  merge_loop acc (a ++ b)%list
  = (acc' <- merge_loop acc a ;; merge_loop acc' b).
Proof.
  revert acc. induction a as [|x a IH]; intros acc; [reflexivity|].
  cbn [app merge_loop]. destruct (merge_step acc x) as [acc1|e];
    cbn [bind]; [apply IH | reflexivity].
Qed.

(** A keyed record that is not filed yet is filed as it is. *)
Lemma merge_step_fresh (acc : invoice_dict) (d : dict) (k : pykey) :
  invoice_key (JObj d) = Some k ->
  ~ In k (map fst acc) ->
  merge_step acc (JObj d) = Ok (acc ++ [(k, d)])%list.
Proof.
  unfold invoice_key, merge_step. cbn zeta.
  destruct (truthy (get_invoice_number d)); [|discriminate].
  destruct (hash_key (get_invoice_number d)) as [k'|e]; [|discriminate].
  intros H Hfresh. injection H as ->. cbn [negb bind].
  now rewrite (dict_get_fresh k acc Hfresh).
Qed.

(** Records under pairwise distinct keys, none of them filed yet, are
    filed one after the other. *)
Lemma merge_loop_distinct (entries acc : invoice_dict) :
  NoDup (map fst (acc ++ entries)%list) ->
  (forall e, In e entries -> invoice_key (JObj (snd e)) = Some (fst e)) ->
  merge_loop acc (map (fun e => JObj (snd e)) entries)
  = Ok (acc ++ entries)%list.
Proof.
  revert acc. induction entries as [|[k d] entries IH]; intros acc Hnd Hkey.
  - now rewrite app_nil_r.
  - cbn [map snd merge_loop].
    rewrite (merge_step_fresh acc d k).
    + cbn [bind]. rewrite IH.
      * now rewrite <- app_assoc.
      * now rewrite <- app_assoc.
      * intros e He. apply Hkey. now right.
    + apply (Hkey (k, d)). now left.
    + rewrite map_app in Hnd. cbn [map fst] in Hnd.
      apply NoDup_remove_2 in Hnd. intros Hin. apply Hnd.
      apply in_or_app. now left.
Qed.

(** Whatever the records are, a loop that ends keeps the filed keys
    distinct, each filed record under its own key, the keys filed before
    in their places, and adds new keys at the end. *)
Lemma merge_step_keys (acc acc' : invoice_dict) (x : json) :
  NoDup (map fst acc) ->
  (forall e, In e acc -> invoice_key (JObj (snd e)) = Some (fst e)) ->
  merge_step acc x = Ok acc' ->
  NoDup (map fst acc')
  /\ (forall e, In e acc' -> invoice_key (JObj (snd e)) = Some (fst e))
  /\ exists added, map fst acc' = (map fst acc ++ added)%list.
Proof.
  intros Hnd Hkey Hstep. destruct x as [| | | | | |d]; try discriminate.
  unfold merge_step in Hstep.
  destruct (truthy (get_invoice_number d)) eqn:Ht; cbn [negb] in Hstep.
  - destruct (hash_key (get_invoice_number d)) as [k|e] eqn:Hk;
      cbn [bind] in Hstep; [|discriminate].
    assert (Hd : invoice_key (JObj d) = Some k)
      by (unfold invoice_key; cbn zeta; now rewrite Ht, Hk).
    destruct (dict_get k acc) as [stored|] eqn:Hget.
    + destruct (extend_products stored d) as [merged|e] eqn:Hext;
        cbn [bind] in Hstep; [|discriminate].
      injection Hstep as <-.
      assert (Hmerged : invoice_key (JObj merged) = Some k).
      { pose proof (Hkey _ (dict_get_In _ _ _ Hget)) as Hs.
        cbn [fst snd] in Hs. unfold extend_products in Hext.
        destruct (obj_get "products" stored) as [[| | | | |ps|]|];
          try discriminate.
        destruct (obj_get "products" d) as [v|]; [|discriminate].
        destruct (py_iter v) as [more|e]; cbn [bind] in Hext;
          [|discriminate].
        injection Hext as <-. now apply invoice_key_first_products. }
      rewrite (dict_set_keys k merged stored acc Hget).
      split; [exact Hnd|]. split; [|exists []; now rewrite app_nil_r].
      apply Forall_forall.
      apply (Forall_dict_set
               (fun e => invoice_key (JObj (snd e)) = Some (fst e))); auto.
      now apply Forall_forall.
    + injection Hstep as <-. rewrite map_app. cbn [map fst].
      split; [|split; [|now exists [k]]].
      * apply NoDup_app; auto.
        -- repeat constructor. intros [].
        -- intros a Ha [<- | []]. now apply (dict_get_None _ _ Hget).
      * intros e He. apply in_app_or in He.
        destruct He as [He | [<- | []]]; [now apply Hkey | exact Hd].
  - injection Hstep as <-. split; [exact Hnd|]. split; [exact Hkey|].
    exists []. now rewrite app_nil_r.
Qed.

Lemma merge_loop_keys (items : list json) :
  forall acc acc',
    NoDup (map fst acc) ->
    (forall e, In e acc -> invoice_key (JObj (snd e)) = Some (fst e)) ->
    merge_loop acc items = Ok acc' ->
    NoDup (map fst acc')
    /\ (forall e, In e acc' -> invoice_key (JObj (snd e)) = Some (fst e))
    /\ exists added, map fst acc' = (map fst acc ++ added)%list.
Proof.
  induction items as [|x items IH]; intros acc acc' Hnd Hkey Hloop.
  - injection Hloop as <-. split; [exact Hnd|]. split; [exact Hkey|].
    exists []. now rewrite app_nil_r.
  - cbn [merge_loop] in Hloop.
    destruct (merge_step acc x) as [acc1|e] eqn:Hstep; cbn [bind] in Hloop;
      [|discriminate].
    destruct (merge_step_keys acc acc1 x Hnd Hkey Hstep)
      as [Hnd1 [Hkey1 [added1 Hadd1]]].
    destruct (IH acc1 acc' Hnd1 Hkey1 Hloop) as [Hnd' [Hkey' [added Hadd]]].
    split; [exact Hnd'|]. split; [exact Hkey'|].
    exists (added1 ++ added)%list. rewrite Hadd, app_assoc.
    f_equal. exact Hadd1.
Qed.

Lemma merge_unfold (items : list json) (out : list json) :
  merge_items_by_invoice items = Ok out ->
  exists acc, merge_loop [] items = Ok acc
              /\ out = map (fun e => JObj (snd e)) acc.
Proof.
  unfold merge_items_by_invoice.
  destruct (merge_loop [] items) as [acc|e]; cbn [bind]; [|discriminate].
  intros H. injection H as <-. eauto.
Qed.

Lemma filed_keys (acc : invoice_dict) :
  (forall e, In e acc -> invoice_key (JObj (snd e)) = Some (fst e)) ->
  map invoice_key (map (fun e => JObj (snd e)) acc) = map Some (map fst acc).
Proof.
  intros H. rewrite !map_map. apply map_ext_in. exact H.
Qed.

(** X1: whatever the items are (the answer of a provider, say), a merge that
    returns returns entries with pairwise distinct invoice numbers, none of
    them missing or empty. *)
Theorem merge_result_has_distinct_numbers (items out : list json) :
  merge_items_by_invoice items = Ok out ->
  NoDup (map invoice_key out)
  /\ (forall o, In o out ->
        exists d k, o = JObj d /\ invoice_key o = Some k
                    /\ truthy (get_invoice_number d) = true).
Proof.
  intros Hout. destruct (merge_unfold items out Hout) as [acc [Hloop ->]].
  destruct (merge_loop_keys items [] acc (NoDup_nil _)
              ltac:(intros e []) Hloop) as [Hnd [Hkey _]].
  split.
  - rewrite (filed_keys acc Hkey). now apply NoDup_map_Some.
  - intros o Ho. apply in_map_iff in Ho. destruct Ho as [[k d] [<- He]].
    specialize (Hkey (k, d) He). cbn [fst snd] in *.
    exists d, k. split; [reflexivity|]. split; [exact Hkey|].
    unfold invoice_key in Hkey. cbn zeta in Hkey.
    destruct (truthy (get_invoice_number d)); [reflexivity | discriminate Hkey].
Qed.

Lemma merge_result_has_distinct_numbers_witness :
  merge_items_by_invoice Samples.chunk_outputs
  = Ok [JObj [("name", JStr "Mario Rossi"); ("id", JStr "42");
              ("invoice_number", JStr "123/2024");
              ("invoice_date", JStr "01/01/2024");
              ("products", JArr [JObj Samples.sofa; JObj Samples.armchair;
                                 JObj Samples.armchair])]]
  /\ NoDup (map invoice_key
              [JObj [("name", JStr "Mario Rossi"); ("id", JStr "42");
                     ("invoice_number", JStr "123/2024");
                     ("invoice_date", JStr "01/01/2024");
                     ("products", JArr [JObj Samples.sofa;
                                        JObj Samples.armchair;
                                        JObj Samples.armchair])]]).
Proof.
  assert (H : merge_items_by_invoice Samples.chunk_outputs
              = Ok [JObj [("name", JStr "Mario Rossi"); ("id", JStr "42");
                          ("invoice_number", JStr "123/2024");
                          ("invoice_date", JStr "01/01/2024");
                          ("products", JArr [JObj Samples.sofa;
                                             JObj Samples.armchair;
                                             JObj Samples.armchair])]])
    by reflexivity.
  split; [exact H|].
  exact (proj1 (merge_result_has_distinct_numbers _ _ H)).
Defined.

(** Items that are dicts under pairwise distinct keys are filed as they
    are, whether or not they carry products. *)
Lemma merge_loop_identity (items : list json) :
  forall acc,
    (forall x, In x items -> exists d k, x = JObj d /\ invoice_key x = Some k) ->
    NoDup (map Some (map fst acc) ++ map invoice_key items)%list ->
    exists entries,
      merge_loop acc items = Ok (acc ++ entries)%list
      /\ map (fun e => JObj (snd e)) entries = items.
Proof.
  induction items as [|x items IH]; intros acc Hkeyed Hnd.
  - exists []. now rewrite app_nil_r.
  - destruct (Hkeyed x (or_introl eq_refl)) as [d [k [-> Hk]]].
    cbn [map] in Hnd. rewrite Hk in Hnd.
    assert (Hfresh : ~ In k (map fst acc)).
    { apply NoDup_remove_2 in Hnd. intros Hin. apply Hnd.
      apply in_or_app. left. now apply in_map. }
    cbn [merge_loop]. rewrite (merge_step_fresh acc d k Hk Hfresh).
    cbn [bind].
    destruct (IH (acc ++ [(k, d)])%list) as [entries [Hloop Hitems]].
    + intros y Hy. apply Hkeyed. now right.
    + rewrite !map_app. cbn [map fst]. now rewrite <- app_assoc.
    + exists ((k, d) :: entries). split.
      * etransitivity; [exact Hloop|]. now rewrite <- app_assoc.
      * cbn [map snd]. now rewrite Hitems.
Qed.

(** X2: merging a list of dicts whose invoice numbers are all present and
    pairwise distinct returns the list unchanged, in its order, whether or
    not the dicts carry products. *)
Theorem merge_distinct_is_identity (items : list json) :
  (forall x, In x items -> exists d k, x = JObj d /\ invoice_key x = Some k) ->
  NoDup (map invoice_key items) ->
  merge_items_by_invoice items = Ok items.
Proof.
  intros Hkeyed Hnd.
  destruct (merge_loop_identity items [] Hkeyed Hnd) as [entries [Hloop Hitems]].
  unfold merge_items_by_invoice. rewrite Hloop. cbn [app bind].
  now rewrite Hitems.
Qed.

Lemma merge_distinct_is_identity_witness :
  (forall x, In x [JObj Samples.invoice_first; JObj Samples.no_products] ->
     exists d k, x = JObj d /\ invoice_key x = Some k)
  /\ NoDup (map invoice_key
              [JObj Samples.invoice_first; JObj Samples.no_products])
  /\ merge_items_by_invoice
       [JObj Samples.invoice_first; JObj Samples.no_products]
     = Ok [JObj Samples.invoice_first; JObj Samples.no_products].
Proof.
  assert (H1 : forall x,
             In x [JObj Samples.invoice_first; JObj Samples.no_products] ->
             exists d k, x = JObj d /\ invoice_key x = Some k).
  { intros x [<- | [<- | []]]; eexists; eexists; split; reflexivity. }
  assert (H2 : NoDup (map invoice_key
                        [JObj Samples.invoice_first; JObj Samples.no_products])).
  { repeat constructor; cbn [In map]; intros H;
      repeat (destruct H as [H | H]; [discriminate H|]); exact H. }
  split; [exact H1|]. split; [exact H2|].
  exact (merge_distinct_is_identity _ H1 H2).
Defined.

(** X3: on values, that is for items no two of which share a list of
    products: merging what a merge returned returns it unchanged; and
    merging it together with further items returns what merging all the
    items at once returns. *)
Theorem merge_in_stages (a b out_a : list json) :
  merge_items_by_invoice a = Ok out_a ->
  merge_items_by_invoice out_a = Ok out_a
  /\ merge_items_by_invoice (out_a ++ b)%list
     = merge_items_by_invoice (a ++ b)%list.
Proof.
  intros Ha. destruct (merge_unfold a out_a Ha) as [acc [Hloop ->]].
  destruct (merge_loop_keys a [] acc (NoDup_nil _) ltac:(intros e []) Hloop)
    as [Hnd [Hkey _]].
  assert (Hagain : merge_loop [] (map (fun e => JObj (snd e)) acc) = Ok acc)
    by (apply (merge_loop_distinct acc []); assumption).
  split.
  - unfold merge_items_by_invoice. now rewrite Hagain.
  - unfold merge_items_by_invoice.
    now rewrite !merge_loop_app, Hagain, Hloop.
Qed.

Lemma merge_in_stages_witness :
  merge_items_by_invoice [JObj Samples.invoice_first; JObj Samples.unnumbered]
  = Ok [JObj Samples.invoice_first]
  /\ merge_items_by_invoice
       ([JObj Samples.invoice_first] ++ [JObj Samples.invoice_again])%list
     = merge_items_by_invoice
         ([JObj Samples.invoice_first; JObj Samples.unnumbered]
          ++ [JObj Samples.invoice_again])%list.
Proof.
  assert (H : merge_items_by_invoice
                [JObj Samples.invoice_first; JObj Samples.unnumbered]
              = Ok [JObj Samples.invoice_first]) by reflexivity.
  split; [exact H|].
  exact (proj2 (merge_in_stages _ [JObj Samples.invoice_again] _ H)).
Defined.

(** X4: further items never move or remove an entry: the invoice numbers
    returned for a list come first, in the same order, in what is returned
    for the list followed by more items. *)
Theorem merge_keeps_positions (a b out_a out : list json) :
  merge_items_by_invoice a = Ok out_a ->
  merge_items_by_invoice (a ++ b)%list = Ok out ->
  exists later,
    map invoice_key out = (map invoice_key out_a ++ later)%list
    /\ List.length out_a <= List.length out.
Proof.
  intros Ha Hab.
  destruct (merge_unfold a out_a Ha) as [acc [Hloop ->]].
  destruct (merge_unfold _ out Hab) as [acc' [Hloop' ->]].
  rewrite merge_loop_app, Hloop in Hloop'. cbn [bind] in Hloop'.
  destruct (merge_loop_keys a [] acc (NoDup_nil _) ltac:(intros e []) Hloop)
    as [Hnd [Hkey _]].
  destruct (merge_loop_keys b acc acc' Hnd Hkey Hloop')
    as [_ [Hkey' [added Hadded]]].
  exists (map Some added). split.
  - rewrite (filed_keys acc Hkey), (filed_keys acc' Hkey').
    assert (H : map fst acc' = (map fst acc ++ added)%list) by exact Hadded.
    now rewrite H, map_app.
  - rewrite !length_map.
    assert (H : List.length (map fst acc')
                = List.length (map fst acc ++ added)%list)
      by (f_equal; exact Hadded).
    rewrite length_app, !length_map in H.
    apply (Nat.le_trans _ (List.length acc + List.length added));
      [apply Nat.le_add_r | apply Nat.eq_le_incl; symmetry; exact H].
Qed.

Lemma merge_keeps_positions_witness :
  merge_items_by_invoice [JObj Samples.invoice_first]
  = Ok [JObj Samples.invoice_first]
  /\ exists out later,
       merge_items_by_invoice
         ([JObj Samples.invoice_first]
          ++ [JObj Samples.no_products; JObj Samples.invoice_again])%list
       = Ok out
       /\ map invoice_key out
          = (map invoice_key [JObj Samples.invoice_first] ++ later)%list.
Proof.
  assert (H1 : merge_items_by_invoice [JObj Samples.invoice_first]
               = Ok [JObj Samples.invoice_first]) by reflexivity.
  split; [exact H1|]. eexists.
  assert (H2 : merge_items_by_invoice
                 ([JObj Samples.invoice_first]
                  ++ [JObj Samples.no_products; JObj Samples.invoice_again])%list
               = Ok _) by reflexivity.
  destruct (merge_keeps_positions _ _ _ _ H1 H2) as [later [Hkeys _]].
  exists later. split; [exact H2 | exact Hkeys].
Defined.

Lemma dict_get_filed (k : pykey) (d : dict) (acc : invoice_dict) :
  NoDup (map fst acc) -> In (k, d) acc -> dict_get k acc = Some d.
Proof.
  induction acc as [|[k' v] acc IH]; cbn [map fst dict_get In]; [intros _ []|].
  intros Hnd Hin. inversion Hnd as [|? ? Hnotin Hnd']; subst.
  destruct Hin as [Heq | Hin].
  - injection Heq as -> ->.
    now rewrite (proj2 (pykey_eqb_eq k k) eq_refl).
  - destruct (pykey_eqb k' k) eqn:Hk; [|now apply IH].
    apply pykey_eqb_eq in Hk. subst k'. exfalso. apply Hnotin.
    apply in_map_iff. now exists (k, d).
Qed.

(** X22: the record that opens an invoice number is filed whatever it
    carries, but a later record of that number is merged into it: when the
    filed record has no products, or has a list of them and the later record
    has none, the merge raises KeyError, and when the products of the filed
    record are not a list it raises AttributeError, whatever follows. *)
Theorem merge_needs_products_of_duplicates
  (a b out_a : list json) (stored d : dict) (k : pykey) :
  merge_items_by_invoice a = Ok out_a ->
  In (JObj stored) out_a ->
  invoice_key (JObj stored) = Some k ->
  invoice_key (JObj d) = Some k ->
  ((obj_get "products" stored = None
    \/ ((exists ps, obj_get "products" stored = Some (JArr ps))
        /\ obj_get "products" d = None)) ->
   merge_items_by_invoice (a ++ JObj d :: b)%list
   = Raise (KeyError "'products'"))
  /\ (forall v,
        obj_get "products" stored = Some v -> (forall ps, v <> JArr ps) ->
        merge_items_by_invoice (a ++ JObj d :: b)%list
        = Raise (AttributeError ("'" ++ type_name v
                                 ++ "' object has no attribute 'extend'"))).
Proof.
  intros Ha Hin Hstored Hd.
  destruct (merge_unfold a out_a Ha) as [acc [Hloop ->]].
  destruct (merge_loop_keys a [] acc (NoDup_nil _) ltac:(intros e []) Hloop)
    as [Hnd [Hkey _]].
  assert (Hget : dict_get k acc = Some stored).
  { apply in_map_iff in Hin. destruct Hin as [[k' stored'] [Heq He]].
    cbn [snd] in Heq. injection Heq as ->.
    pose proof (Hkey _ He) as Hk'. cbn [fst snd] in Hk'.
    assert (k' = k) as -> by congruence.
    now apply dict_get_filed. }
  assert (Hstep : merge_step acc (JObj d)
                  = (merged <- extend_products stored d ;;
                     Ok (dict_set k merged acc))).
  { unfold invoice_key in Hd. unfold merge_step. cbn zeta in *.
    destruct (truthy (get_invoice_number d)); [|discriminate].
    destruct (hash_key (get_invoice_number d)) as [k'|e]; [|discriminate].
    injection Hd as ->. cbn [negb bind]. now rewrite Hget. }
  assert (Hall : forall e,
             extend_products stored d = Raise e ->
             merge_items_by_invoice (a ++ JObj d :: b)%list = Raise e).
  { intros e He. unfold merge_items_by_invoice.
    rewrite merge_loop_app, Hloop. cbn [bind merge_loop].
    rewrite Hstep, He. reflexivity. }
  split.
  - intros [Hnone | [[ps Hps] Hnone]]; apply Hall; unfold extend_products.
    + now rewrite Hnone.
    + now rewrite Hps, Hnone.
  - intros v Hv Hlist. apply Hall. unfold extend_products. rewrite Hv.
    destruct v; try reflexivity. now destruct (Hlist xs).
Qed.

Lemma merge_needs_products_of_duplicates_witness :
  merge_items_by_invoice [JObj Samples.no_products]
  = Ok [JObj Samples.no_products]
  /\ merge_items_by_invoice
       ([JObj Samples.no_products]
        ++ JObj [("invoice_number", JStr "9/2024");
                 ("products", JArr [JObj Samples.sofa])]
        :: [JObj Samples.invoice_first])%list
     = Raise (AttributeError "'str' object has no attribute 'extend'").
Proof.
  assert (H1 : merge_items_by_invoice [JObj Samples.no_products]
               = Ok [JObj Samples.no_products]) by reflexivity.
  assert (H2 : In (JObj Samples.no_products) [JObj Samples.no_products])
    by (now left).
  assert (H3 : invoice_key (JObj Samples.no_products)
               = Some (KStr "9/2024")) by reflexivity.
  assert (H4 : invoice_key (JObj [("invoice_number", JStr "9/2024");
                                  ("products", JArr [JObj Samples.sofa])])
               = Some (KStr "9/2024")) by reflexivity.
  split; [exact H1|].
  exact (proj2 (merge_needs_products_of_duplicates _ [JObj Samples.invoice_first]
                  _ _ _ _ H1 H2 H3 H4)
               (JStr "none") eq_refl ltac:(intros ps H; discriminate H)).
Defined.

End MergeLaws.

(** ** More on names: normalising twice, degenerate reference lists *)

Module NameLaws.
Import PyStr Py DataFormatter Spec PyStrFacts PyFacts MatchFacts.

Lemma substring_of_refl (s : string) : substring_of s s.
Proof. exists "", "". cbn [append]. now rewrite append_nil_r. Qed.

Lemma substring_of_trans (a b c : string) :
  substring_of a b -> substring_of b c -> substring_of a c.
Proof.
  intros [p1 [q1 ->]] [p2 [q2 ->]]. exists (p2 ++ p1), (q1 ++ q2).
  now rewrite !append_assoc.
Qed.

(** The first match of a name is its own first match. *)
Lemma find_hit_fixpoint (n c : string) (l : list string) :
  find (hit n) l = Some c -> find (hit c) l = Some c.
Proof.
  intros H. apply find_first_match in H.
  destruct H as [earlier [later [-> [Hc Hno]]]].
  apply find_first_match. exists earlier, later.
  split; [reflexivity|]. split; [apply substring_of_refl|].
  intros s Hs Hsc. apply (Hno s Hs).
  unfold matches in *. now apply (substring_of_trans _ (lower c)).
Qed.

(** X5: [normalize_product_name] on a string returns an entry of the list or
    the string itself, and returns its own result unchanged; on an empty
    list it returns any value as it is, and on a value that is not a string
    it raises as soon as the list has an entry. *)
Theorem normalize_product_name_is_idempotent :
  (forall (name : string) (standard_names : list string),
      exists c,
        normalize_product_name (JStr name) standard_names = Ok (JStr c)
        /\ (In c standard_names \/ c = name)
        /\ normalize_product_name (JStr c) standard_names = Ok (JStr c))
  /\ (forall v, normalize_product_name v [] = Ok v)
  /\ (forall v s rest,
        (forall name, v <> JStr name) ->
        exists msg,
          normalize_product_name v (s :: rest) = Raise (AttributeError msg)).
Proof.
  split; [|split].
  - intros name l. rewrite normalize_product_name_str.
    destruct (find (hit name) l) as [c|] eqn:Hc.
    + exists c. split; [reflexivity|]. split.
      * left. now apply find_some in Hc.
      * rewrite normalize_product_name_str.
        now rewrite (find_hit_fixpoint name c l Hc).
    + exists name. split; [reflexivity|]. split; [now right|].
      rewrite normalize_product_name_str. now rewrite Hc.
  - reflexivity.
  - intros v s rest Hv.
    destruct v; try (eexists; reflexivity). exfalso. now apply (Hv s0).
Qed.

Lemma any_match_true (get : result json) (l : list string) :
  any_match get l = Ok true ->
  exists n, get = Ok (JStr n) /\ existsb (hit n) l = true.
Proof.
  destruct l as [|s l]; [discriminate|].
  destruct get as [v|e]; [|discriminate].
  destruct v as [| | | |n| |]; try discriminate.
  intros H. exists n. split; [reflexivity|].
  rewrite (any_match_str (Ok (JStr n)) n (s :: l) eq_refl) in H.
  congruence.
Qed.

(** What [normalize_covering] keeps is a dict with a string name,
    renamed to its first match. *)
Lemma normalize_covering_kept (cl : list string) (x k : json) :
  normalize_covering cl x = Ok (Some k) ->
  exists d n c,
    x = JObj d
    /\ obj_get "name" d = Some (JStr n)
    /\ find (hit n) cl = Some c
    /\ k = JObj (obj_set "name" (JStr c) d).
Proof.
  intros H. pose proof H as H0. unfold normalize_covering in H.
  destruct (py_in "name" x) as [[|]|e] eqn:Hin; cbn [bind negb] in H;
    try discriminate.
  destruct (any_match (py_getitem "name" x) cl) as [[|]|e] eqn:Hany;
    cbn [bind negb] in H; try discriminate.
  destruct (any_match_true _ _ Hany) as [n [Hget Hex]].
  destruct x as [| | | | | |d]; try discriminate Hget.
  cbn [py_getitem] in Hget.
  destruct (obj_get "name" d) as [v|] eqn:Hv; [|discriminate].
  assert (v = JStr n) as -> by congruence.
  rewrite (normalize_covering_named cl d n Hv) in H0.
  destruct (find (hit n) cl) as [c|] eqn:Hc; [|discriminate].
  exists d, n, c. repeat split; congruence.
Qed.

(** A loop whose body keeps every element as it is returns its input. *)
Lemma collect_fixed {A : Type} (body : A -> result (option A)) (xs : list A) :
  (forall x, In x xs -> body x = Ok (Some x)) -> collect body xs = Ok xs.
Proof.
  induction xs as [|x xs IH]; intros H; simpl; [reflexivity|].
  rewrite (H x (or_introl eq_refl)). simpl.
  rewrite IH by (intros y Hy; apply H; now right). reflexivity.
Qed.

Lemma collect_length {A B : Type} (body : A -> result (option B))
  (xs : list A) (out : list B) :
  collect body xs = Ok out -> List.length out <= List.length xs.
Proof.
  revert out. induction xs as [|x xs IH]; simpl; intros out H.
  - injection H as <-. apply Nat.le_refl.
  - destruct (body x) as [r|e]; simpl in H; [|discriminate].
    destruct (collect body xs) as [rs|e]; simpl in H; [|discriminate].
    injection H as <-. specialize (IH rs eq_refl).
    destruct r; simpl; lia.
Qed.

Lemma normalize_coverings_kept (cl : list string) (coverings kept : list json) :
  normalize_coverings coverings cl = Ok kept ->
  forall k, In k kept ->
    exists d n c,
      In (JObj d) coverings
      /\ obj_get "name" d = Some (JStr n)
      /\ find (hit n) cl = Some c
      /\ k = JObj (obj_set "name" (JStr c) d).
Proof.
  intros H k Hk. apply (collect_In _ _ _ H) in Hk.
  destruct Hk as [x [Hx Hb]].
  destruct (normalize_covering_kept _ _ _ Hb) as [d [n [c [-> [? [? ?]]]]]].
  exists d, n, c. auto.
Qed.

(** X6: whatever the coverings are, when [normalize_coverings] returns: it
    kept no more coverings than it was given, each kept covering is a dict
    named by an entry of the reference list, and normalising its result
    again changes nothing. *)
Theorem normalize_coverings_is_idempotent
  (coverings : list json) (coverings_list : list string) (kept : list json) :
  normalize_coverings coverings coverings_list = Ok kept ->
  List.length kept <= List.length coverings
  /\ (forall k, In k kept ->
        exists d c, k = JObj d /\ obj_get "name" d = Some (JStr c)
                    /\ In c coverings_list)
  /\ normalize_coverings kept coverings_list = Ok kept.
Proof.
  intros H. pose proof (normalize_coverings_kept _ _ _ H) as Hkept.
  unfold normalize_coverings in *.
  split; [exact (collect_length _ _ _ H)|]. split.
  - intros k Hk. destruct (Hkept k Hk) as [d [n [c [_ [_ [Hc ->]]]]]].
    exists (obj_set "name" (JStr c) d), c.
    split; [reflexivity|]. split; [apply obj_get_set_same|].
    now apply find_some in Hc.
  - apply collect_fixed. intros k Hk.
    destruct (Hkept k Hk) as [d [n [c [_ [_ [Hc ->]]]]]].
    rewrite (normalize_covering_named coverings_list _ c
               (obj_get_set_same "name" (JStr c) d)).
    rewrite (find_hit_fixpoint n c coverings_list Hc).
    now rewrite obj_set_twice.
Qed.

Lemma normalize_coverings_is_idempotent_witness :
  normalize_coverings [JObj Samples.durian; JObj Samples.unknown_fabric]
    Samples.coverings_list
  = Ok [JObj [("name", JStr "DURIAN"); ("code", JStr "12");
                ("count", JStr "2")]]
  /\ normalize_coverings
       [JObj [("name", JStr "DURIAN"); ("code", JStr "12");
                ("count", JStr "2")]]
       Samples.coverings_list
     = Ok [JObj [("name", JStr "DURIAN"); ("code", JStr "12");
                ("count", JStr "2")]].
Proof.
  assert (H : normalize_coverings
                [JObj Samples.durian; JObj Samples.unknown_fabric]
                Samples.coverings_list
              = Ok [JObj [("name", JStr "DURIAN"); ("code", JStr "12");
                ("count", JStr "2")]])
    by reflexivity.
  split; [exact H|].
  exact (proj2 (proj2 (normalize_coverings_is_idempotent _ _ _ H))).
Defined.

End NameLaws.

(** ** The numeric fields of a product *)

Module ProductFields.
Import PyStr PyNum Py DataFormatter Spec PyStrFacts PyFacts MatchFacts.

Lemma obj_set_keys (k : string) (v w : json) (d : dict) :
  obj_get k d = Some w -> map fst (obj_set k v d) = map fst d.
Proof.
  induction d as [|[k' v'] d IH]; simpl; [discriminate|].
  destruct (String.eqb k' k); simpl; intros H; [reflexivity|].
  now rewrite IH.
Qed.

Lemma convert_field_keys (conv : json -> json) (k : string) (d : dict) :
  map fst (convert_field conv k d) = map fst d.
Proof.
  unfold convert_field. destruct (obj_get k d) as [w|] eqn:Hw; [|reflexivity].
  exact (obj_set_keys k (conv w) w d Hw).
Qed.

Lemma convert_field_get_same (conv : json -> json) (k : string) (d : dict) :
  obj_get k (convert_field conv k d) = option_map conv (obj_get k d).
Proof.
  unfold convert_field. destruct (obj_get k d) as [w|] eqn:Hw; simpl.
  - apply obj_get_set_same.
  - exact Hw.
Qed.

(** Neither converter reads anything but a string. *)
Lemma convert_price_not_str (v : json) :
  (forall s, v <> JStr s) -> convert_price_to_float v = JNull.
Proof. destruct v; try reflexivity. intros H. now destruct (H s). Qed.

Lemma convert_quantity_not_str (v : json) :
  (forall s, v <> JStr s) -> convert_quantity_to_int v = JNull.
Proof. destruct v; try reflexivity. intros H. now destruct (H s). Qed.

Lemma convert_price_twice (v : json) :
  convert_price_to_float (convert_price_to_float v) = JNull.
Proof.
  apply convert_price_not_str. intros s. destruct v; try discriminate.
  unfold convert_price_to_float. destruct s0; [discriminate|].
  destruct (py_float _); discriminate.
Qed.

Lemma convert_quantity_twice (v : json) :
  convert_quantity_to_int (convert_quantity_to_int v) = JNull.
Proof.
  apply convert_quantity_not_str. intros s. destruct v; try discriminate.
  unfold convert_quantity_to_int. destruct s0; [discriminate|].
  destruct (py_int _); discriminate.
Qed.

Lemma normalize_product_data_full_price (d : dict) :
  obj_get "full_price" (normalize_product_data d)
  = option_map convert_price_to_float (obj_get "full_price" d).
Proof.
  unfold normalize_product_data.
  rewrite !convert_field_get_other by discriminate.
  apply convert_field_get_same.
Qed.

Lemma normalize_product_data_discounted_price (d : dict) :
  obj_get "discounted_price" (normalize_product_data d)
  = option_map convert_price_to_float (obj_get "discounted_price" d).
Proof.
  unfold normalize_product_data.
  rewrite convert_field_get_other by discriminate.
  rewrite convert_field_get_same.
  now rewrite convert_field_get_other by discriminate.
Qed.

Lemma normalize_product_data_quantity (d : dict) :
  obj_get "quantity" (normalize_product_data d)
  = option_map convert_quantity_to_int (obj_get "quantity" d).
Proof.
  unfold normalize_product_data. rewrite convert_field_get_same.
  now rewrite !convert_field_get_other by discriminate.
Qed.

(** X7: [normalize_product_data] keeps the keys of a product and their
    order, converts [full_price] and [discounted_price] with
    [convert_price_to_float] and [quantity] with [convert_quantity_to_int]
    where the product has them, adds none of them where it has not, and
    leaves every other field as it is. It is not idempotent: the converters
    read strings only, so that on a product that went through it once, every
    one of the three fields becomes None. *)
Theorem normalize_product_data_fields (product : dict) :
  let normalized_product := normalize_product_data product in
  map fst normalized_product = map fst product
  /\ obj_get "full_price" normalized_product
     = option_map convert_price_to_float (obj_get "full_price" product)
  /\ obj_get "discounted_price" normalized_product
     = option_map convert_price_to_float (obj_get "discounted_price" product)
  /\ obj_get "quantity" normalized_product
     = option_map convert_quantity_to_int (obj_get "quantity" product)
  /\ (forall k,
        k <> "full_price" -> k <> "discounted_price" -> k <> "quantity" ->
        obj_get k normalized_product = obj_get k product)
  /\ (forall k,
        In k ["full_price"; "discounted_price"; "quantity"] ->
        obj_get k (normalize_product_data normalized_product)
        = option_map (fun _ => JNull) (obj_get k product)).
Proof.
  cbn zeta. split; [|split; [|split; [|split; [|split]]]].
  - unfold normalize_product_data. now rewrite !convert_field_keys.
  - apply normalize_product_data_full_price.
  - apply normalize_product_data_discounted_price.
  - apply normalize_product_data_quantity.
  - intros k H1 H2 H3. now apply normalize_product_data_get.
  - intros k [<- | [<- | [<- | []]]].
    + rewrite !normalize_product_data_full_price.
      destruct (obj_get "full_price" product); [|reflexivity].
      cbn [option_map]. now rewrite convert_price_twice.
    + rewrite !normalize_product_data_discounted_price.
      destruct (obj_get "discounted_price" product); [|reflexivity].
      cbn [option_map]. now rewrite convert_price_twice.
    + rewrite !normalize_product_data_quantity.
      destruct (obj_get "quantity" product); [|reflexivity].
      cbn [option_map]. now rewrite convert_quantity_twice.
Qed.

End ProductFields.

(** ** What the product filter hands on *)

Module FilterLaws.
Import PyStr Py DataFormatter Spec Laws PyStrFacts PyFacts MatchFacts NameLaws
       ProductFields.

(** What the product loop keeps is a dict with a string name that some
    entry of the product list occurs in; it is renamed to an entry of
    the list, and its coverings, when they are a list, are named by
    entries of the covering list. *)
Lemma normalize_product_kept (pl cl : list string) (x p : json) :
  normalize_product pl cl x = Ok (Some p) ->
  exists d n c d',
    x = JObj d
    /\ obj_get "name" d = Some (JStr n)
    /\ find (hit n) pl = Some c
    /\ p = JObj d'
    /\ obj_get "name" d' = Some (JStr c)
    /\ forall cs, obj_get "coverings" d' = Some (JArr cs) ->
                  forall k, In k cs -> named_in cl k.
Proof.
  intros H. pose proof H as H0. unfold normalize_product in H.
  destruct (py_in "name" x) as [[|]|e] eqn:Hin; cbn [bind negb] in H;
    try discriminate.
  destruct (any_match (py_getitem "name" x) pl) as [[|]|e] eqn:Hany;
    cbn [bind negb] in H; try discriminate.
  destruct (any_match_true _ _ Hany) as [n [Hget Hex]].
  destruct x as [| | | | | |d]; try discriminate Hget.
  cbn [py_getitem] in Hget.
  destruct (obj_get "name" d) as [v|] eqn:Hv; [|discriminate].
  assert (v = JStr n) as -> by congruence.
  rewrite (normalize_product_named pl cl d n Hv) in H0.
  destruct (find (hit n) pl) as [c|] eqn:Hc; [|discriminate].
  cbn zeta in H0.
  set (q := obj_set "name" (JStr c) (normalize_product_data d)) in *.
  assert (Hq : obj_get "name" q = Some (JStr c)) by apply obj_get_set_same.
  assert (Hcov : obj_get "coverings" q = obj_get "coverings" d).
  { unfold q. rewrite obj_get_set_other by discriminate.
    now rewrite normalize_product_data_get by discriminate. }
  assert (Hcore : exists d',
             p = JObj d'
             /\ obj_get "name" d' = Some (JStr c)
             /\ forall cs, obj_get "coverings" d' = Some (JArr cs) ->
                           forall k, In k cs -> named_in cl k).
  { assert (Hplain : (forall cs, obj_get "coverings" q <> Some (JArr cs)) ->
                     Some (JObj q) = Some p ->
                     exists d',
                       p = JObj d'
                       /\ obj_get "name" d' = Some (JStr c)
                       /\ forall cs, obj_get "coverings" d' = Some (JArr cs) ->
                                     forall k, In k cs -> named_in cl k).
    { intros Hno Hp. exists q. injection Hp as <-. repeat split; auto.
      intros cs Hcs. now destruct (Hno cs). }
    rewrite Hcov in Hplain.
    destruct (obj_get "coverings" d) as [w|] eqn:Hw.
    - destruct w as [| | | | |cs|];
        try (apply Hplain; [intros cs'; discriminate | congruence]).
      destruct (normalize_coverings cs cl) as [kept|e] eqn:Hk;
        cbn [bind] in H0; [|discriminate].
      injection H0 as <-. eexists. split; [reflexivity|]. split.
      + rewrite obj_get_set_other by discriminate. exact Hq.
      + intros cs' Hcs' k Hk'. rewrite obj_get_set_same in Hcs'.
        injection Hcs' as <-.
        destruct (normalize_coverings_kept cl cs kept Hk k Hk')
          as [dk [nk [ck [_ [_ [Hck ->]]]]]].
        exists (obj_set "name" (JStr ck) dk), ck.
        split; [reflexivity|]. split; [apply obj_get_set_same|].
        now apply find_some in Hck.
    - apply Hplain; [intros cs'; discriminate | congruence]. }
  destruct Hcore as [d' [Hp [Hn' Hcs]]].
  exists d, n, c, d'. repeat split; auto.
Qed.

(** X8: whatever a chunk holds, when the filter of [process_chunk_data] runs
    to its end: it hands on no more records than the chunk had, each one a
    dict with at least one product; every product handed on is named by an
    entry of the product list, and every covering of a list of coverings of
    such a product by an entry of the covering list. With an empty product
    list nothing is handed on. *)
Theorem filter_hands_on_listed_names
  (products_list coverings_list : list string) (data out : list json) :
  filter_items products_list coverings_list data = Ok out ->
  List.length out <= List.length data
  /\ (forall o, In o out ->
        exists d ps,
          o = JObj d
          /\ obj_get "products" d = Some (JArr ps)
          /\ ps <> []
          /\ forall p, In p ps ->
               named_in products_list p
               /\ forall k, In k (coverings_of_product p) ->
                             named_in coverings_list k)
  /\ (products_list = [] -> out = []).
Proof.
  intros H. unfold filter_items in H.
  assert (Hout : forall o, In o out ->
        exists d ps,
          o = JObj d
          /\ obj_get "products" d = Some (JArr ps)
          /\ ps <> []
          /\ forall p, In p ps ->
               named_in products_list p
               /\ forall k, In k (coverings_of_product p) ->
                             named_in coverings_list k).
  { intros o Ho. apply (collect_In _ _ _ H) in Ho.
    destruct Ho as [x [_ Hx]].
    destruct (Retention.process_item_kept _ _ _ _ Hx)
      as [d [ps [survivors [-> [Hp [Hs [Hne ->]]]]]]].
    exists (obj_set "products" (JArr survivors) d), survivors.
    split; [reflexivity|]. split; [apply obj_get_set_same|].
    split; [exact Hne|]. intros p Hin.
    apply (collect_In _ _ _ Hs) in Hin. destruct Hin as [x [_ Hx']].
    destruct (normalize_product_kept _ _ _ _ Hx')
      as [dx [n [c [d' [-> [Hn [Hc [-> [Hn' Hcov]]]]]]]]].
    split.
    - exists d', c. split; [reflexivity|]. split; [exact Hn'|].
      now apply find_some in Hc.
    - cbn [coverings_of_product]. unfold coverings_of.
      destruct (obj_get "coverings" d') as [w|] eqn:Hw; [|intros k []].
      destruct w; try (intros k []). exact (Hcov xs eq_refl). }
  split; [exact (collect_length _ _ _ H)|]. split; [exact Hout|].
  intros ->. destruct out as [|o out]; [reflexivity|].
  destruct (Hout o (or_introl eq_refl)) as [d [ps [_ [_ [Hne Hps]]]]].
  destruct ps as [|p ps]; [contradiction|].
  destruct (Hps p (or_introl eq_refl)) as [[dp [c [_ [_ []]]]] _].
Qed.

Lemma filter_hands_on_listed_names_witness :
  filter_items Samples.products_list Samples.coverings_list
    [JObj Samples.lamp_record; JObj SampleRun.armchair_record]
  = Ok [SampleRun.armchair_survivor]
  /\ List.length [SampleRun.armchair_survivor] <= 2.
Proof.
  assert (H : filter_items Samples.products_list Samples.coverings_list
                [JObj Samples.lamp_record; JObj SampleRun.armchair_record]
              = Ok [SampleRun.armchair_survivor])
    by (vm_compute; reflexivity).
  split; [exact H|].
  exact (proj1 (filter_hands_on_listed_names _ _ _ _ H)).
Defined.

Lemma normalize_product_data_keys (d : dict) :
  map fst (normalize_product_data d) = map fst d.
Proof.
  unfold normalize_product_data. now rewrite !convert_field_keys.
Qed.

(** X9: the filter of [process_chunk_data] neither drops nor adds a field: a
    covering, a product and a record that are kept keep their keys in their
    order; a covering keeps every field but its name, a product every field
    but its name, its prices, its quantity and its coverings, a record every
    field but its products. *)
Theorem filter_keeps_other_fields (products_list coverings_list : list string) :
  (forall covering kept,
      normalize_covering coverings_list covering = Ok (Some kept) ->
      exists d d',
        covering = JObj d /\ kept = JObj d'
        /\ map fst d' = map fst d
        /\ forall k, k <> "name" -> obj_get k d' = obj_get k d)
  /\ (forall product kept,
        normalize_product products_list coverings_list product
        = Ok (Some kept) ->
        exists d d',
          product = JObj d /\ kept = JObj d'
          /\ map fst d' = map fst d
          /\ forall k,
               ~ In k ["name"; "full_price"; "discounted_price"; "quantity";
                       "coverings"] ->
               obj_get k d' = obj_get k d)
  /\ (forall item kept,
        process_item products_list coverings_list item = Ok (Some kept) ->
        exists d d',
          item = JObj d /\ kept = JObj d'
          /\ map fst d' = map fst d
          /\ forall k, k <> "products" -> obj_get k d' = obj_get k d).
Proof.
  split; [|split].
  - intros covering kept H.
    destruct (normalize_covering_kept _ _ _ H) as [d [n [c [-> [Hn [_ ->]]]]]].
    exists d, (obj_set "name" (JStr c) d).
    split; [reflexivity|]. split; [reflexivity|]. split.
    + exact (obj_set_keys _ _ _ _ Hn).
    + intros k Hk. now apply obj_get_set_other.
  - intros product kept H.
    destruct (normalize_product_kept _ _ _ _ H)
      as [d [n [c [d' [-> [Hn [Hc [-> _]]]]]]]].
    rewrite (normalize_product_named _ coverings_list d n Hn), Hc in H.
    cbn zeta in H. exists d, d'.
    split; [reflexivity|]. split; [reflexivity|].
    set (q := obj_set "name" (JStr c) (normalize_product_data d)) in *.
    assert (Hkeys : map fst q = map fst d).
    { unfold q.
      assert (Hn' : obj_get "name" (normalize_product_data d) = Some (JStr n))
        by (rewrite normalize_product_data_get by discriminate; exact Hn).
      rewrite (obj_set_keys _ _ _ _ Hn').
      apply normalize_product_data_keys. }
    assert (Hother : forall k,
               ~ In k ["name"; "full_price"; "discounted_price"; "quantity";
                       "coverings"] ->
               obj_get k q = obj_get k d).
    { intros k Hk. unfold q. cbn [In] in Hk.
      rewrite obj_get_set_other by (intros <-; apply Hk; auto).
      apply normalize_product_data_get; intros ->; apply Hk; auto 6. }
    assert (Hcov : obj_get "coverings" q = obj_get "coverings" d).
    { unfold q. rewrite obj_get_set_other by discriminate.
      now rewrite normalize_product_data_get by discriminate. }
    assert (Hplain : Some (JObj q) = Some (JObj d') ->
                     map fst d' = map fst d
                     /\ forall k,
                          ~ In k ["name"; "full_price"; "discounted_price";
                                  "quantity"; "coverings"] ->
                          obj_get k d' = obj_get k d).
    { intros E. injection E as <-. now split. }
    destruct (obj_get "coverings" d) as [w|] eqn:Hw; [|apply Hplain; congruence].
    destruct w as [| | | | |cs|]; try (apply Hplain; congruence).
    destruct (normalize_coverings cs coverings_list) as [ks|e];
      cbn [bind] in H; [|discriminate].
    injection H as <-. split.
    + rewrite (obj_set_keys _ _ _ _ Hcov). exact Hkeys.
    + intros k Hk. rewrite obj_get_set_other; [now apply Hother|].
      intros <-. apply Hk. cbn [In]. auto 6.
  - intros item kept H.
    destruct (Retention.process_item_kept _ _ _ _ H)
      as [d [ps [survivors [-> [Hp [_ [_ ->]]]]]]].
    exists d, (obj_set "products" (JArr survivors) d).
    split; [reflexivity|]. split; [reflexivity|]. split.
    + exact (obj_set_keys _ _ _ _ Hp).
    + intros k Hk. now apply obj_get_set_other.
Qed.

Lemma find_app_some {A : Type} (f : A -> bool) (l more : list A) (x : A) :
  find f l = Some x -> find f (l ++ more)%list = Some x.
Proof.
  induction l as [|y l IH]; cbn [find app]; [discriminate|].
  destruct (f y); [trivial | exact IH].
Qed.

(** X23: names appended to a reference list change nothing for what already
    matched: a product that is kept under a product list is kept and comes
    out the same under the list with further names at its end, and so does a
    covering under a covering list. *)
Theorem appended_names_keep_matches
  (products_list coverings_list more : list string) :
  (forall product kept,
      normalize_product products_list coverings_list product = Ok (Some kept) ->
      normalize_product (products_list ++ more)%list coverings_list product
      = Ok (Some kept))
  /\ (forall covering kept,
        normalize_covering coverings_list covering = Ok (Some kept) ->
        normalize_covering (coverings_list ++ more)%list covering
        = Ok (Some kept)).
Proof.
  split.
  - intros product kept H.
    destruct (normalize_product_kept _ _ _ _ H)
      as [d [n [c [d' [-> [Hn [Hc _]]]]]]].
    rewrite (normalize_product_named products_list coverings_list d n Hn),
      Hc in H.
    rewrite (normalize_product_named (products_list ++ more) coverings_list
               d n Hn).
    now rewrite (find_app_some _ _ more _ Hc).
  - intros covering kept H.
    destruct (normalize_covering_kept _ _ _ H) as [d [n [c [-> [Hn [Hc ->]]]]]].
    rewrite (normalize_covering_named _ d n Hn).
    now rewrite (find_app_some _ _ more _ Hc).
Qed.

(** A loop stops at the first element on which its body raises. *)
Lemma collect_raise {A B : Type} (body : A -> result (option B))
  (xs ys : list A) (x : A) (kept : list B) (e : exn) :
  collect body xs = Ok kept -> body x = Raise e ->
  collect body (xs ++ x :: ys)%list = Raise e.
Proof.
  intros Hxs Hx. rewrite collect_app, Hxs. cbn [bind collect].
  now rewrite Hx.
Qed.

Lemma normalize_product_misnamed (pl cl : list string) (p : dict) (v : json) :
  pl <> [] ->
  obj_get "name" p = Some v -> (forall s, v <> JStr s) ->
  normalize_product pl cl (JObj p)
  = Raise (AttributeError ("'" ++ type_name v
                           ++ "' object has no attribute 'lower'")).
Proof.
  intros Hpl Hn Hv. unfold normalize_product. cbn [py_in bind].
  unfold obj_has. rewrite Hn. cbn [negb py_getitem]. rewrite Hn.
  destruct pl as [|s pl]; [contradiction|]. cbn [any_match bind].
  destruct v; try reflexivity. now destruct (Hv s0).
Qed.

(** X25: a product whose name is there but is not a string (null, a number)
    is not passed over: as soon as the product list has an entry, the test
    of its name raises AttributeError, which ends the filter and
    [process_chunk_data] for the whole chunk, before anything is sent for
    it; the records and products before it do not matter once they went
    through. *)
Theorem misnamed_product_fails_the_chunk
  (E : env) (chunk : dict) (products_list coverings_list : list string)
  (clients_list : json) (l : list string)
  (before after : list json) (record : dict)
  (earlier later : list json) (product : dict) (v : json) :
  products_list <> [] ->
  obj_get "data" chunk = Some (JArr (before ++ JObj record :: after)%list) ->
  (exists kept, filter_items products_list coverings_list before = Ok kept) ->
  obj_get "products" record
  = Some (JArr (earlier ++ JObj product :: later)%list) ->
  (exists kept,
     collect (normalize_product products_list coverings_list) earlier
     = Ok kept) ->
  obj_get "name" product = Some v ->
  (forall s, v <> JStr s) ->
  let e := AttributeError ("'" ++ type_name v
                           ++ "' object has no attribute 'lower'") in
  filter_items products_list coverings_list (before ++ JObj record :: after)%list
  = Raise e
  /\ process_chunk_data E chunk products_list coverings_list clients_list l
     = (Raise e, l).
Proof.
  intros Hpl Hdata [kept Hbefore] Hproducts [kept' Hearlier] Hname Hv.
  cbn zeta.
  assert (Hfilter : filter_items products_list coverings_list
                      (before ++ JObj record :: after)%list
                    = Raise (AttributeError
                               ("'" ++ type_name v
                                ++ "' object has no attribute 'lower'"))).
  { unfold filter_items in *. apply (collect_raise _ _ _ _ kept); [exact Hbefore|].
    rewrite (Retention.process_item_list _ _ _ _ Hproducts).
    rewrite (collect_raise _ _ _ _ kept' _ Hearlier
               (normalize_product_misnamed _ coverings_list _ _ Hpl Hname Hv)).
    reflexivity. }
  split; [exact Hfilter|].
  unfold process_chunk_data. rewrite Hdata. unfold bindM, lift.
  now rewrite Hfilter.
Qed.

Lemma misnamed_product_fails_the_chunk_witness :
  Samples.products_list <> []
  /\ process_chunk_data SampleRequest.steady SampleRequest.misnamed_chunk
       Samples.products_list Samples.coverings_list SampleRun.crm_clients []
     = (Raise (AttributeError "'NoneType' object has no attribute 'lower'"),
        []).
Proof.
  assert (H1 : Samples.products_list <> []) by (intros H; discriminate H).
  assert (H2 : exists kept,
             filter_items Samples.products_list Samples.coverings_list
                          [JObj SampleRun.armchair_record] = Ok kept)
    by (eexists; vm_compute; reflexivity).
  assert (H3 : exists kept,
             collect (normalize_product Samples.products_list
                                        Samples.coverings_list)
                     [JObj Samples.lamp] = Ok kept)
    by (eexists; vm_compute; reflexivity).
  assert (H4 : forall s, JNull <> JStr s) by (intros s H; discriminate H).
  split; [exact H1|].
  exact (proj2 (misnamed_product_fails_the_chunk SampleRequest.steady
                  SampleRequest.misnamed_chunk
                  Samples.products_list Samples.coverings_list
                  SampleRun.crm_clients [] [JObj SampleRun.armchair_record] []
                  SampleRequest.misnamed_record
                  [JObj Samples.lamp] [] SampleRequest.unnamed_product JNull
                  H1 eq_refl H2 eq_refl H3 eq_refl H4)).
Defined.

End FilterLaws.

(** ** The outcomes of the extraction client *)

Module ClientOutcomes.
Import PyStr Py Llm.

(** [call_llm] sends the prompt or nothing. *)
Lemma call_llm_log (E : env) (p : string) (l : list string) :
  snd (call_llm E p l) = l \/ snd (call_llm E p l) = (l ++ [p])%list.
Proof.
  unfold call_llm. destruct (GOOGLE_API_KEY E) as [[|c key]|];
    try (left; reflexivity).
  right. unfold try_except, bindM, send.
  destruct (generate_content E l p) as [r|e]; [|reflexivity].
  destruct (block_reason r); [reflexivity|].
  unfold lift. destruct (text r); reflexivity.
Qed.

(** X10: whatever the key, the provider and the prompt are: [call_llm] sends
    the prompt exactly when a non-empty key is set, and sends nothing else;
    it returns a text exactly when, with such a key, the provider answers
    without a block reason and its answer has a text, and then returns that
    text as it is; every other outcome is an HTTPException of status 500. *)
Theorem call_llm_outcomes (E : env) (prompt : string) (l : list string) :
  let has_key := exists key, GOOGLE_API_KEY E = Some key /\ key <> "" in
  (has_key -> snd (call_llm E prompt l) = (l ++ [prompt])%list)
  /\ (~ has_key -> snd (call_llm E prompt l) = l)
  /\ (snd (call_llm E prompt l) <> l -> has_key)
  /\ (forall t,
        fst (call_llm E prompt l) = Ok t
        <-> has_key
            /\ exists r, generate_content E l prompt = Ok r
                         /\ block_reason r = None
                         /\ text r = Ok t)
  /\ (forall e,
        fst (call_llm E prompt l) = Raise e ->
        exists detail, e = HTTPException 500 detail).
Proof.
  cbn zeta. unfold call_llm.
  destruct (GOOGLE_API_KEY E) as [[|c key]|] eqn:Hkey.
  - split; [|split; [|split; [|split]]].
    + intros [k [Hk Hne]]. injection Hk as <-. contradiction.
    + reflexivity.
    + intros H. now destruct H.
    + intros t. split; [discriminate|].
      intros [[k [Hk Hne]] _]. injection Hk as <-. contradiction.
    + intros e H. injection H as <-. eauto.
  - assert (Hhas : exists k, Some (String c key) = Some k /\ k <> "")
      by (eexists; split; [reflexivity | discriminate]).
    unfold try_except, bindM, send, raise, lift.
    destruct (generate_content E l prompt) as [r|e0]; cbn [fst snd].
    + destruct (block_reason r) as [reason|] eqn:Hblock; cbn [fst snd].
      * split; [reflexivity|]. split; [intros H; contradiction|].
        split; [intros _; exact Hhas|]. split.
        -- intros t. split; [discriminate|].
           intros [_ [r' [Hr [Hb _]]]]. injection Hr as <-. congruence.
        -- intros e H. injection H as <-. eauto.
      * destruct (text r) as [t0|e0] eqn:Ht; cbn [fst snd].
        -- split; [reflexivity|]. split; [intros H; contradiction|].
           split; [intros _; exact Hhas|]. split.
           ++ intros t. split.
              ** intros H. injection H as <-. split; [exact Hhas|].
                 exists r. repeat split; auto.
              ** intros [_ [r' [Hr [_ Ht']]]]. injection Hr as <-. congruence.
           ++ discriminate.
        -- split; [reflexivity|]. split; [intros H; contradiction|].
           split; [intros _; exact Hhas|]. split.
           ++ intros t. split; [discriminate|].
              intros [_ [r' [Hr [_ Ht']]]]. injection Hr as <-. congruence.
           ++ intros e H. injection H as <-. eauto.
    + split; [reflexivity|]. split; [intros H; contradiction|].
      split; [intros _; exact Hhas|]. split.
      * intros t. split; [discriminate|].
        intros [_ [r' [Hr _]]]. discriminate.
      * intros e H. injection H as <-. eauto.
  - split; [|split; [|split; [|split]]].
    + intros [k [Hk _]]. discriminate.
    + reflexivity.
    + intros H. now destruct H.
    + intros t. split; [discriminate|].
      intros [[k [Hk _]] _]. discriminate.
    + intros e H. injection H as <-. eauto.
Qed.

End ClientOutcomes.

(** ** The prompts of a run *)

Module RunLaws.
Import PyStr Py Llm DataFormatter DataExtracter Spec RunSpec RunFacts
       PyFacts ClientOutcomes Chunking Merge MergeLaws.

Lemma ask_json_log (E : env) (p : string) (l : list string) :
  snd (ask_json E p l) = l \/ snd (ask_json E p l) = (l ++ [p])%list.
Proof.
  unfold ask_json, bindM, lift. pose proof (call_llm_log E p l) as H.
  destruct (call_llm E p l) as [[t|e] l1]; cbn [snd] in *; exact H.
Qed.

(** A chunk costs at most one client-name prompt. *)
Lemma process_chunk_data_log (E : env) (chunk : dict) (pl cl : list string)
  (clients_list : json) (l : list string) :
  exists sent,
    snd (process_chunk_data E chunk pl cl clients_list l) = (l ++ sent)%list
    /\ List.length sent <= 1.
Proof.
  assert (Hnone : exists sent : list string,
             l = (l ++ sent)%list /\ List.length sent <= 1)
    by (exists []; rewrite app_nil_r; split; [reflexivity | apply Nat.le_0_l]).
  unfold process_chunk_data.
  destruct (obj_get "data" chunk) as [v|]; [|exact Hnone].
  destruct v; try exact Hnone.
  unfold bindM, lift.
  destruct (filter_items pl cl xs) as [[|s survivors]|e]; try exact Hnone.
  unfold try_except.
  pose proof (ask_json_log E (client_prompt E clients_list (s :: survivors)) l)
    as H.
  destruct (ask_json E (client_prompt E clients_list (s :: survivors)) l)
    as [[a|e] l1]; cbn [snd] in *;
    (destruct H as [-> | ->];
     [exact Hnone | eexists; split; [reflexivity | apply Nat.le_refl]]).
Qed.

Lemma normalize_chunks_log (E : env) (pl cl : list string)
  (clients_list : json) (chunks : list dict) :
  forall (acc : list json) (l : list string),
  exists sent,
    snd (normalize_chunks E chunks pl cl clients_list acc l) = (l ++ sent)%list
    /\ List.length sent <= List.length chunks.
Proof.
  induction chunks as [|chunk chunks IH]; intros acc l.
  - exists []. cbn. rewrite app_nil_r. split; [reflexivity | apply Nat.le_refl].
  - cbn [normalize_chunks]. unfold bindM, lift.
    destruct (process_chunk_data_log E chunk pl cl clients_list l)
      as [s1 [H1 Hlen1]].
    destruct (process_chunk_data E chunk pl cl clients_list l) as [[out|e] l1];
      cbn [snd] in H1; subst l1.
    + destruct (py_iter out) as [more|e]; cbn [snd].
      * destruct (IH (acc ++ more)%list (l ++ s1)%list) as [s2 [H2 Hlen2]].
        exists (s1 ++ s2)%list. rewrite H2, app_assoc. split; [reflexivity|].
        rewrite length_app. cbn [List.length]. lia.
      * exists s1. split; [reflexivity|]. cbn [List.length]. lia.
    + exists s1. split; [reflexivity|]. cbn [List.length]. lia.
Qed.

(** The chunk loop sends the extraction prompts in order, as far as it
    gets. *)
Lemma extract_chunks_log (E : env) (mp : string) (pages : list string)
  (starts : list nat) :
  forall (chunks : list dict) (l : list string),
  exists k,
    k <= List.length starts
    /\ snd (extract_chunks E mp pages starts chunks l)
       = (l ++ firstn k (map (chunk_prompt mp pages) starts))%list
    /\ ((exists raw, fst (extract_chunks E mp pages starts chunks l) = Ok raw) ->
        k = List.length starts).
Proof.
  induction starts as [|i rest IH]; intros chunks l.
  - exists 0. cbn. rewrite app_nil_r. repeat split. apply Nat.le_refl.
  - rewrite extract_chunks_cons. cbn zeta.
    set (p := chunk_prompt mp pages i).
    assert (Hzero : exists k, k <= List.length (i :: rest)
               /\ l = (l ++ firstn k (map (chunk_prompt mp pages) (i :: rest)))%list
               /\ k = 0).
    { exists 0. cbn [firstn]. rewrite app_nil_r. repeat split.
      apply Nat.le_0_l. }
    assert (Hone : exists k, k <= List.length (i :: rest)
               /\ (l ++ [p])%list
                  = (l ++ firstn k (map (chunk_prompt mp pages) (i :: rest)))%list
               /\ k = 1).
    { exists 1. cbn [firstn map List.length]. repeat split. lia. }
    pose proof (call_llm_log E p l) as Hlog.
    pose proof (call_llm_ok_log E p) as Hok.
    destruct (call_llm E p l) as [[t|e] l1] eqn:Hcall; cbn [snd] in Hlog.
    + specialize (Hok t l). rewrite Hcall in Hok. cbn [fst snd] in Hok.
      specialize (Hok eq_refl). subst l1.
      destruct t as [|c t].
      * destruct Hone as [k [Hk [Hp _]]]. exists k. cbn [fst snd].
        repeat split; auto. intros [raw Hraw]. discriminate.
      * destruct (json_loads E (String c t)) as [v|e].
        -- destruct (IH (chunks ++ [[("pages", JStr (current_chunk_range pages i));
                                     ("data", v)]])%list (l ++ [p])%list)
             as [k [Hk [Hsnd Hfull]]].
           exists (S k). split; [cbn [List.length]; lia|]. split.
           ++ rewrite Hsnd. cbn [map firstn]. now rewrite <- app_assoc.
           ++ intros Hraw. cbn [List.length]. f_equal. now apply Hfull.
        -- destruct Hone as [k [Hk [Hp _]]]. exists k. cbn [fst snd].
           repeat split; auto. intros [raw Hraw]. discriminate.
    + destruct Hlog as [-> | ->].
      * destruct Hzero as [k [Hk [Hp _]]]. exists k. cbn [fst snd].
        repeat split; auto. intros [raw Hraw]. discriminate.
      * destruct Hone as [k [Hk [Hp _]]]. exists k. cbn [fst snd].
        repeat split; auto. intros [raw Hraw]. discriminate.
Qed.

Lemma chunk_count (pages_text : list string) :
  List.length (chunk_starts pages_text) = (List.length pages_text + 9) / 10.
Proof.
  unfold chunk_starts. rewrite range_from_length. now rewrite Nat.sub_0_r.
Qed.

(** X11: whatever the provider, the decoder and the pages are, and however
    the run ends: what a run of [extract_invoice_data] sends to the provider
    is a beginning of the extraction prompts, in chunk order, followed by at
    most one client-name prompt per chunk; a client-name prompt is sent only
    after all the extraction prompts, and a run that returns a document has
    sent them all. With N pages that is at most twice ceil(N / 10) prompts. *)
Theorem prompts_of_a_run
  (E : env) (file_name companyId : string) (company_config : company)
  (clients_list : json) (pages_text : list string) (l : list string) :
  let run := extract_invoice_data E file_name companyId company_config
                                  clients_list pages_text l in
  let prompts := extraction_prompts (MAIN_PROMPT company_config) pages_text in
  List.length prompts = (List.length pages_text + 9) / 10
  /\ exists k client_prompts,
       snd run = (l ++ firstn k prompts ++ client_prompts)%list
       /\ k <= List.length prompts
       /\ List.length client_prompts <= List.length prompts
       /\ (client_prompts <> [] -> k = List.length prompts)
       /\ ((exists document, fst run = Ok document) -> k = List.length prompts)
       /\ List.length (snd run)
          <= List.length l + 2 * ((List.length pages_text + 9) / 10).
Proof.
  cbn zeta. unfold extraction_prompts.
  assert (Hcount : List.length (map (chunk_prompt (MAIN_PROMPT company_config)
                                                  pages_text)
                                    (chunk_starts pages_text))
                   = (List.length pages_text + 9) / 10)
    by (rewrite length_map; apply chunk_count).
  split; [exact Hcount|].
  unfold extract_invoice_data, bindM.
  destruct (extract_chunks_log E (MAIN_PROMPT company_config) pages_text
              (chunk_starts pages_text) [] l) as [k [Hk [Hsnd Hfull]]].
  pose proof (extract_chunks_ok E (MAIN_PROMPT company_config) pages_text
                (chunk_starts pages_text) [] ) as Hok.
  set (prompts := map (chunk_prompt (MAIN_PROMPT company_config) pages_text)
                      (chunk_starts pages_text)) in *.
  assert (Hkp : k <= List.length prompts)
    by (unfold prompts; now rewrite length_map).
  assert (Hfirst : List.length (firstn k prompts) <= List.length prompts)
    by (rewrite length_firstn; apply Nat.le_min_r).
  assert (Heq : List.length (chunk_starts pages_text) = List.length prompts)
    by (unfold prompts; now rewrite length_map).
  destruct (extract_chunks E (MAIN_PROMPT company_config) pages_text
              (chunk_starts pages_text) [] l) as [[raw|e] l1] eqn:Hrun;
    cbn [fst snd] in Hsnd, Hfull; subst l1.
  - specialize (Hfull (ex_intro _ raw eq_refl)). subst k.
    destruct (Hok raw l _ Hrun) as [_ [entries [Hraw [Hpages _]]]].
    cbn [app] in Hraw. subst entries.
    assert (Hlen : List.length raw = List.length prompts).
    { apply (f_equal (@List.length _)) in Hpages.
      rewrite !length_map in Hpages. unfold prompts. now rewrite length_map. }
    destruct raw as [|c raw].
    + exists (List.length (chunk_starts pages_text)), []. cbn [fst snd raise].
      rewrite app_nil_r. split; [reflexivity|].
      split; [exact Hkp|]. split; [apply Nat.le_0_l|].
      split; [intros _; exact Heq|]. split; [intros _; exact Heq|].
      rewrite length_app. lia.
    + unfold normalize_results, bindM, lift.
      destruct (normalize_chunks_log E (PRODUCTS_LIST company_config)
                  (COVERINGS_LIST company_config) clients_list (c :: raw) []
                  (l ++ firstn (List.length (chunk_starts pages_text)) prompts)%list)
        as [sent [Hsent Hlsent]].
      assert (Hall : forall (r : result invoice_result) (l2 : list string),
                 l2 = ((l ++ firstn (List.length (chunk_starts pages_text))
                                    prompts) ++ sent)%list ->
                 exists k client_prompts,
                   snd (r, l2) = (l ++ firstn k prompts ++ client_prompts)%list
                   /\ k <= List.length prompts
                   /\ List.length client_prompts <= List.length prompts
                   /\ (client_prompts <> [] -> k = List.length prompts)
                   /\ ((exists document, fst (r, l2) = Ok document) ->
                       k = List.length prompts)
                   /\ List.length (snd (r, l2))
                      <= List.length l + 2 * ((List.length pages_text + 9) / 10)).
      { intros r l2 ->. exists (List.length (chunk_starts pages_text)), sent.
        cbn [fst snd]. rewrite <- app_assoc. split; [reflexivity|].
        split; [exact Hkp|]. split; [lia|].
        split; [intros _; exact Heq|]. split; [intros _; exact Heq|].
        rewrite !length_app. lia. }
      destruct (normalize_chunks E (c :: raw) (PRODUCTS_LIST company_config)
                  (COVERINGS_LIST company_config) clients_list []
                  (l ++ firstn (List.length (chunk_starts pages_text)) prompts)%list)
        as [[items|e] l2]; cbn [snd] in Hsent.
      * destruct (merge_items_by_invoice items) as [merged|e];
          apply Hall; exact Hsent.
      * apply Hall; exact Hsent.
  - exists k, []. cbn [fst snd]. rewrite app_nil_r. split; [reflexivity|].
    split; [exact Hkp|]. split; [apply Nat.le_0_l|].
    split; [intros H; now destruct H|].
    split; [intros [document H]; discriminate|].
    rewrite length_app. lia.
Qed.

(** The labels of a returned document. *)
Lemma document_fields
  (E : env) (file_name companyId : string) (company_config : company)
  (clients_list : json) (pages_text : list string) (l l' : list string)
  (document : invoice_result) :
  extract_invoice_data E file_name companyId company_config clients_list
                       pages_text l = (Ok document, l') ->
  filename document = file_name
  /\ company_id document = companyId
  /\ company_name document = NAME company_config
  /\ total_pages document = List.length pages_text
  /\ total_chunks document = (List.length pages_text + 9) / 10.
Proof.
  unfold extract_invoice_data, bindM. intros H.
  destruct (extract_chunks E (MAIN_PROMPT company_config) pages_text
              (chunk_starts pages_text) [] l) as [[raw|e] l1] eqn:Hrun;
    [|discriminate].
  destruct (extract_chunks_ok _ _ _ _ _ _ _ _ Hrun)
    as [_ [entries [Hraw [Hpages _]]]].
  cbn [app] in Hraw. subst entries.
  destruct raw as [|c raw]; [discriminate|].
  destruct (normalize_results E (c :: raw) (PRODUCTS_LIST company_config)
              (COVERINGS_LIST company_config) clients_list l1)
    as [[merged|e] l2]; [|discriminate].
  cbn [ret] in H. injection H as <- <-.
  cbn [filename company_id company_name total_pages total_chunks].
  do 4 (split; [reflexivity|]).
  apply (f_equal (@List.length _)) in Hpages.
  rewrite !length_map in Hpages.
  etransitivity; [exact Hpages | apply chunk_count].
Qed.

(** Without a key a run sends nothing. *)
Lemma run_without_key
  (E : env) (file_name companyId : string) (company_config : company)
  (clients_list : json) (pages_text : list string) (l : list string) :
  GOOGLE_API_KEY E = None \/ GOOGLE_API_KEY E = Some "" ->
  snd (extract_invoice_data E file_name companyId company_config clients_list
                            pages_text l) = l.
Proof.
  intros Hkey. unfold extract_invoice_data, bindM.
  destruct (chunk_starts pages_text) as [|i rest]; [reflexivity|].
  rewrite extract_chunks_cons. cbn zeta.
  now rewrite (ClientErrors.call_llm_without_key E _ l Hkey).
Qed.

(** X12: a run of [extract_invoice_data] that returns a document had at
    least one page; the document carries the file name, the company id and
    the company name it was given, the number of pages, one chunk per ten
    pages begun, each with its page label and the decoded answer under
    [data], [total_chunks] being their number; and its normalized data are
    dicts with pairwise distinct, non-empty invoice numbers. *)
Theorem returned_document
  (E : env) (file_name companyId : string) (company_config : company)
  (clients_list : json) (pages_text : list string) (l l' : list string)
  (document : invoice_result) :
  extract_invoice_data E file_name companyId company_config clients_list
                       pages_text l = (Ok document, l') ->
  pages_text <> []
  /\ filename document = file_name
  /\ company_id document = companyId
  /\ company_name document = NAME company_config
  /\ total_pages document = List.length pages_text
  /\ total_chunks document = List.length (chunks document)
  /\ total_chunks document = (List.length pages_text + 9) / 10
  /\ map (obj_get "pages") (chunks document)
     = map (fun i => Some (JStr (current_chunk_range pages_text i)))
           (chunk_starts pages_text)
  /\ Forall (fun c => exists v, obj_get "data" c = Some v) (chunks document)
  /\ NoDup (map invoice_key (normalized_data document))
  /\ forall o, In o (normalized_data document) ->
       exists d k, o = JObj d /\ invoice_key o = Some k.
Proof.
  unfold extract_invoice_data, bindM. intros H.
  destruct (extract_chunks E (MAIN_PROMPT company_config) pages_text
              (chunk_starts pages_text) [] l) as [[raw|e] l1] eqn:Hrun;
    [|discriminate].
  destruct (extract_chunks_ok _ _ _ _ _ _ _ _ Hrun)
    as [_ [entries [Hraw [Hpages Hdata]]]].
  cbn [app] in Hraw. subst entries.
  destruct raw as [|c raw]; [discriminate|].
  unfold normalize_results, bindM, lift in H.
  destruct (normalize_chunks E (c :: raw) (PRODUCTS_LIST company_config)
              (COVERINGS_LIST company_config) clients_list [] l1)
    as [[items|e] l2]; [|discriminate].
  destruct (merge_items_by_invoice items) as [merged|e] eqn:Hmerge;
    [|discriminate].
  cbn [ret] in H. injection H as <- <-.
  cbn [filename company_id company_name total_pages total_chunks chunks
       normalized_data].
  assert (Hlen : List.length (c :: raw) = List.length (chunk_starts pages_text)).
  { apply (f_equal (@List.length _)) in Hpages.
    now rewrite !length_map in Hpages. }
  destruct (merge_unfold items merged Hmerge) as [acc [Hloop ->]].
  destruct (merge_loop_keys items [] acc (NoDup_nil _)
              ltac:(intros e []) Hloop) as [Hnd [Hkey _]].
  split.
  { intros ->. discriminate Hlen. }
  do 5 (split; [reflexivity|]).
  split; [etransitivity; [exact Hlen | apply chunk_count]|].
  split; [exact Hpages|]. split; [exact Hdata|]. split.
  - rewrite (filed_keys acc Hkey). now apply NoDup_map_Some.
  - intros o Ho. apply in_map_iff in Ho. destruct Ho as [[k d] [<- He]].
    exists d, k. split; [reflexivity|]. exact (Hkey (k, d) He).
Qed.

Lemma returned_document_witness :
  extract_invoice_data SampleRequest.steady "invoices.pdf"
    "86e676e3-4cc0-4725-b12c-358d3b4b3e43" SampleRun.le_comfort
    SampleRun.crm_clients SampleRun.one_page []
  = (Ok SampleRequest.document,
     [chunk_prompt "MAIN PROMPT" SampleRun.one_page 0;
      client_prompt SampleRequest.steady SampleRun.crm_clients
                    [SampleRun.armchair_survivor]])
  /\ SampleRun.one_page <> []
  /\ total_chunks SampleRequest.document = (1 + 9) / 10.
Proof.
  assert (H : extract_invoice_data SampleRequest.steady "invoices.pdf"
                "86e676e3-4cc0-4725-b12c-358d3b4b3e43" SampleRun.le_comfort
                SampleRun.crm_clients SampleRun.one_page []
              = (Ok SampleRequest.document,
                 [chunk_prompt "MAIN PROMPT" SampleRun.one_page 0;
                  client_prompt SampleRequest.steady SampleRun.crm_clients
                                [SampleRun.armchair_survivor]]))
    by (vm_compute; reflexivity).
  split; [exact H|].
  pose proof (returned_document _ _ _ _ _ _ _ _ _ H) as R.
  split; [exact (proj1 R)|].
  exact (proj1 (proj2 (proj2 (proj2 (proj2 (proj2 (proj2 R))))))).
Defined.

Lemma firstn_snoc {A : Type} (l : list A) (d : A) :
  forall k, k < List.length l ->
            (firstn k l ++ [nth k l d])%list = firstn (S k) l.
Proof.
  induction l as [|x l IH]; intros k Hk; [cbn in Hk; lia|].
  destruct k as [|k]; [reflexivity|].
  cbn [List.length] in Hk. cbn [firstn nth app]. f_equal.
  apply IH. lia.
Qed.

(** The loop stops at the first chunk for which [call_llm] raises. *)
Lemma extract_chunks_raise (E : env) (mp : string) (pages : list string)
  (starts : list nat) :
  let prompts := map (chunk_prompt mp pages) starts in
  forall (k : nat) (chunks : list dict) (l : list string),
    k < List.length starts ->
    (forall j, j < k ->
       exists t v,
         fst (call_llm E (nth j prompts "") (l ++ firstn j prompts)%list) = Ok t
         /\ t <> "" /\ json_loads E t = Ok v) ->
    forall e,
      fst (call_llm E (nth k prompts "") (l ++ firstn k prompts)%list)
      = Raise e ->
      extract_chunks E mp pages starts chunks l
      = (Raise e,
         snd (call_llm E (nth k prompts "") (l ++ firstn k prompts)%list)).
Proof.
  cbn zeta. induction starts as [|i rest IH]; intros k chunks l Hk Hprev e He.
  - cbn in Hk. lia.
  - rewrite extract_chunks_cons. cbn zeta. destruct k as [|k].
    + cbn [nth map firstn] in *. rewrite app_nil_r in *.
      destruct (call_llm E (chunk_prompt mp pages i) l) as [r l'].
      cbn [fst snd] in *. now subst r.
    + destruct (Hprev 0 ltac:(lia)) as [t [v [Ht [Hne Hv]]]].
      cbn [nth map firstn] in Ht. rewrite app_nil_r in Ht.
      pose proof (call_llm_ok_log E _ t l Ht) as Hlog.
      destruct (call_llm E (chunk_prompt mp pages i) l) as [r l'].
      cbn [fst snd] in Ht, Hlog. subst r l'.
      destruct t as [|c t]; [contradiction|]. rewrite Hv.
      cbn [nth map firstn List.length] in *.
      assert (Hshift : forall m,
                (l ++ chunk_prompt mp pages i
                   :: firstn m (map (chunk_prompt mp pages) rest))%list
                = ((l ++ [chunk_prompt mp pages i])
                   ++ firstn m (map (chunk_prompt mp pages) rest))%list)
        by (intros m; now rewrite <- app_assoc).
      rewrite Hshift in *. apply IH; [lia| |exact He].
      intros j Hj. destruct (Hprev (S j) ltac:(lia)) as [t' [v' H']].
      cbn [nth map firstn] in H'. rewrite Hshift in H'. eauto.
Qed.

(** X28: when the chunks before chunk [k] were accepted and [call_llm]
    raises for chunk [k], be it for a missing key, a failure of the
    provider, a blocked prompt or an answer without text, the run ends with
    that exception, an HTTPException of status 500 under the heading of the
    provider call or with the missing-key message; no later chunk is sent
    and no client-name call is made. *)
Theorem provider_failure_ends_the_run
  (E : env) (file_name companyId : string) (company_config : company)
  (clients_list : json) (pages_text : list string) (l0 : list string)
  (k : nat) (e : exn) :
  let main_prompt := MAIN_PROMPT company_config in
  let prompts := extraction_prompts main_prompt pages_text in
  let run := extract_invoice_data E file_name companyId company_config
                                  clients_list pages_text l0 in
  k < List.length (chunk_starts pages_text) ->
  (forall j, j < k -> chunk_accepted E main_prompt pages_text l0 j) ->
  extraction_answer E main_prompt pages_text l0 k = Raise e ->
  fst run = Raise e
  /\ (exists detail, e = HTTPException 500 detail /\ Laws.client_failure detail)
  /\ (snd run = (l0 ++ firstn k prompts)%list
      \/ snd run = (l0 ++ firstn (S k) prompts)%list).
Proof.
  cbn zeta. intros Hk Hprev He.
  unfold extraction_answer, extraction_prompts in *.
  pose proof (extract_chunks_raise E (MAIN_PROMPT company_config) pages_text
                (chunk_starts pages_text) k [] l0 Hk Hprev e He) as Hx.
  set (prompts := map (chunk_prompt (MAIN_PROMPT company_config) pages_text)
                      (chunk_starts pages_text)) in *.
  assert (Hrun : extract_invoice_data E file_name companyId company_config
                   clients_list pages_text l0
                 = (Raise e,
                    snd (call_llm E (nth k prompts "")
                           (l0 ++ firstn k prompts)%list))).
  { unfold extract_invoice_data, bindM. now rewrite Hx. }
  rewrite Hrun. cbn [fst snd]. split; [reflexivity|]. split.
  - destruct (GOOGLE_API_KEY E) as [[|c key]|] eqn:Hkey.
    + rewrite (ClientErrors.call_llm_without_key E _ _ (or_intror Hkey)) in He.
      injection He as <-. eexists. split; [reflexivity | now left].
    + destruct (ClientErrors.call_llm_with_key E _ (String c key) _ e Hkey
                  ltac:(discriminate) He) as [inner ->].
      eexists. split; [reflexivity|]. right. now exists (str_of_exn inner).
    + rewrite (ClientErrors.call_llm_without_key E _ _ (or_introl Hkey)) in He.
      injection He as <-. eexists. split; [reflexivity | now left].
  - destruct (call_llm_log E (nth k prompts "") (l0 ++ firstn k prompts)%list)
      as [-> | ->]; [now left | right].
    rewrite <- app_assoc. f_equal.
    assert (Hkp : k < List.length prompts)
      by (unfold prompts; now rewrite length_map).
    now apply firstn_snoc.
Qed.

Lemma provider_failure_ends_the_run_witness :
  0 < List.length (chunk_starts SampleRun.one_page)
  /\ fst (extract_invoice_data
            (SampleRun.env_of SampleRun.outage SampleRun.outage)
            "invoices.pdf" "86e676e3-4cc0-4725-b12c-358d3b4b3e43"
            SampleRun.le_comfort SampleRun.crm_clients SampleRun.one_page [])
     = Raise (HTTPException 500
         "Error during Gemini API call: 503 Service Unavailable").
Proof.
  pose (E := SampleRun.env_of SampleRun.outage SampleRun.outage).
  assert (H1 : 0 < List.length (chunk_starts SampleRun.one_page))
    by (vm_compute; lia).
  assert (H2 : forall j, j < 0 ->
             chunk_accepted E (MAIN_PROMPT SampleRun.le_comfort)
                            SampleRun.one_page [] j)
    by (intros j Hj; lia).
  assert (H3 : extraction_answer E (MAIN_PROMPT SampleRun.le_comfort)
                 SampleRun.one_page [] 0
               = Raise (HTTPException 500
                   "Error during Gemini API call: 503 Service Unavailable"))
    by reflexivity.
  split; [exact H1|].
  exact (proj1 (provider_failure_ends_the_run E "invoices.pdf"
                  "86e676e3-4cc0-4725-b12c-358d3b4b3e43" SampleRun.le_comfort
                  SampleRun.crm_clients SampleRun.one_page [] 0 _ H1 H2 H3)).
Defined.

End RunLaws.

(** ** Requests *)

Module RequestLaws.
Import PyStr Py Llm DataFormatter DataExtracter Spec RunSpec Request Laws
       PyStrFacts RunFacts RunLaws.

Lemma endswith_iff (s suffix : string) :
  endswith s suffix = true <-> exists stem, s = stem ++ suffix.
Proof.
  induction s as [|c s IH]; cbn [endswith].
  - rewrite orb_false_r. split.
    + intros H. apply String.eqb_eq in H. now exists "".
    + intros [stem H]. destruct stem; cbn [append] in H; [|discriminate].
      subst suffix. reflexivity.
  - rewrite orb_true_iff, IH, String.eqb_eq. split.
    + intros [<- | [stem ->]]; [now exists "" | now exists (String c stem)].
    + intros [stem H]. destruct stem as [|c' stem]; cbn [append] in H.
      * now left.
      * right. injection H as _ ->. now exists stem.
Qed.

(** The page loop read every page, in order. *)
Lemma read_pages_ok (file : upload) (n : nat) :
  forall (a : nat) (pages : list string),
    read_pages file (seq a n) = Ok pages ->
    List.length pages = n
    /\ forall i, i < n -> pdf_page_text file (a + i) = Ok (nth i pages "").
Proof.
  induction n as [|n IH]; intros a pages H; cbn [seq read_pages] in H.
  - injection H as <-. split; [reflexivity | intros i Hi; lia].
  - destruct (pdf_page_text file a) as [t|e] eqn:Ht; cbn [bind] in H;
      [|discriminate].
    destruct (read_pages file (seq (S a) n)) as [rest|e] eqn:Hrest;
      cbn [bind] in H; [|discriminate].
    injection H as <-. destruct (IH (S a) rest Hrest) as [Hlen Hnth].
    split; [cbn [List.length]; now rewrite Hlen|].
    intros i Hi. destruct i as [|i]; cbn [nth].
    + now rewrite Nat.add_0_r.
    + rewrite <- Nat.add_succ_comm. apply Hnth. lia.
Qed.

Lemma read_pages_blank (file : upload) (n : nat) :
  forall a,
    (forall i, i < n ->
       exists t, pdf_page_text file (a + i) = Ok t /\ is_blank t = true) ->
    exists pages,
      read_pages file (seq a n) = Ok pages
      /\ List.length pages = n
      /\ forallb is_blank pages = true.
Proof.
  induction n as [|n IH]; intros a H; cbn [seq read_pages].
  - exists []. repeat split.
  - destruct (H 0 ltac:(lia)) as [t [Ht Hb]]. rewrite Nat.add_0_r in Ht.
    rewrite Ht. cbn [bind].
    destruct (IH (S a)) as [rest [Hrest [Hlen Hall]]].
    { intros i Hi. rewrite Nat.add_succ_comm. apply H. lia. }
    rewrite Hrest. cbn [bind]. exists (t :: rest).
    split; [reflexivity|]. split; [cbn [List.length]; now rewrite Hlen|].
    cbn [forallb]. now rewrite Hb, Hall.
Qed.

Lemma not_all_blank (pages : list string) :
  forallb is_blank pages = false ->
  exists p, In p pages /\ strip p <> "".
Proof.
  induction pages as [|p pages IH]; cbn [forallb]; [discriminate|].
  destruct (is_blank p) eqn:Hp; cbn [andb].
  - intros H. destruct (IH H) as [q [Hq Hne]]. exists q. split; [now right|].
    exact Hne.
  - intros _. exists p. split; [now left|]. unfold is_blank in Hp.
    destruct (strip p); [discriminate | discriminate].
Qed.

Lemma read_pdf_ok (file : upload) (pages : list string) :
  read_pdf file = Ok pages ->
  pdf_page_count file = Ok (List.length pages)
  /\ (forall i, i < List.length pages ->
        pdf_page_text file i = Ok (nth i pages ""))
  /\ pages <> []
  /\ exists p, In p pages /\ strip p <> "".
Proof.
  unfold read_pdf. destruct (pdf_page_count file) as [n|e]; cbn [bind];
    [|discriminate].
  destruct (read_pages file (seq 0 n)) as [ps|e] eqn:Hps; cbn [bind];
    [|discriminate].
  destruct (read_pages_ok file n 0 ps Hps) as [Hlen Hnth].
  destruct ps as [|p ps]; [discriminate|].
  destruct (forallb is_blank (p :: ps)) eqn:Hall; [discriminate|].
  intros H. injection H as <-. rewrite Hlen.
  split; [reflexivity|]. split; [exact Hnth|].
  split; [discriminate|]. now apply not_all_blank.
Qed.

Lemma get_pdf_text_named (file : upload) (name : string) :
  pdf_name file name ->
  get_pdf_text file
  = match read_pdf file with
    | Ok pages_text => Ok pages_text
    | Raise e =>
        Raise (HTTPException 500
                 ("Error during text extraction: " ++ str_of_exn e))
    end.
Proof.
  intros [Hname Hpdf]. apply endswith_iff in Hpdf.
  unfold get_pdf_text. rewrite Hname.
  destruct name as [|c name]; [discriminate Hpdf|]. now rewrite Hpdf.
Qed.

Lemma get_pdf_text_unnamed (file : upload) :
  (forall name, ~ pdf_name file name) ->
  get_pdf_text file
  = Raise (HTTPException 400 "Error: A valid PDF file is required").
Proof.
  intros H. unfold get_pdf_text.
  destruct (upload_filename file) as [[|c name]|] eqn:Hname; try reflexivity.
  destruct (endswith (String c name) ".pdf") eqn:Hpdf; [|reflexivity].
  exfalso. apply (H (String c name)). split; [exact Hname|].
  now apply endswith_iff.
Qed.

(** What [get_pdf_text] returns are the texts of all the pages of a
    file named [*.pdf], in page order, at least one page and at least
    one of them with something else than white space on it. *)
Lemma get_pdf_text_ok (file : upload) (pages : list string) :
  get_pdf_text file = Ok pages ->
  (exists name, pdf_name file name)
  /\ pdf_page_count file = Ok (List.length pages)
  /\ (forall i, i < List.length pages ->
        pdf_page_text file i = Ok (nth i pages ""))
  /\ pages <> []
  /\ exists p, In p pages /\ strip p <> "".
Proof.
  intros H.
  assert (Hname : exists name, pdf_name file name).
  { unfold get_pdf_text in H.
    destruct (upload_filename file) as [[|c name]|] eqn:Hname;
      try discriminate.
    destruct (endswith (String c name) ".pdf") eqn:Hpdf; [|discriminate].
    exists (String c name). split; [exact Hname|]. now apply endswith_iff. }
  split; [exact Hname|]. destruct Hname as [name Hname].
  rewrite (get_pdf_text_named file name Hname) in H.
  destruct (read_pdf file) as [ps|e] eqn:Hread; [|discriminate].
  injection H as <-. now apply read_pdf_ok.
Qed.

(** X13: [get_pdf_text]: a file that is not named [*.pdf] is refused with
    status 400 whatever it holds; every other failure is an HTTPException of
    status 500 under the heading of the text extraction, also the refusal of
    a PDF without text, which is raised inside the [try] and comes out
    wrapped, its own status printed in the detail; what is returned are the
    texts of all the pages in page order, at least one of them not blank. *)
Theorem get_pdf_text_outcomes (file : upload) :
  ((forall name, ~ pdf_name file name) ->
   get_pdf_text file
   = Raise (HTTPException 400 "Error: A valid PDF file is required"))
  /\ (forall e,
        get_pdf_text file = Raise e ->
        e = HTTPException 400 "Error: A valid PDF file is required"
        \/ exists cause,
             e = HTTPException 500
                   ("Error during text extraction: " ++ str_of_exn cause))
  /\ (forall name n,
        pdf_name file name ->
        pdf_page_count file = Ok n ->
        (forall i, i < n ->
           exists t, pdf_page_text file i = Ok t /\ strip t = "") ->
        get_pdf_text file
        = Raise (HTTPException 500
            "Error during text extraction: 500: Error extracting text"))
  /\ (forall pages,
        get_pdf_text file = Ok pages ->
        (exists name, pdf_name file name)
        /\ pdf_page_count file = Ok (List.length pages)
        /\ (forall i, i < List.length pages ->
              pdf_page_text file i = Ok (nth i pages ""))
        /\ pages <> []
        /\ exists p, In p pages /\ strip p <> "").
Proof.
  split; [|split; [|split]].
  - apply get_pdf_text_unnamed.
  - intros e H. unfold get_pdf_text in H.
    destruct (upload_filename file) as [[|c name]|];
      try (left; congruence).
    destruct (endswith (String c name) ".pdf"); cbn [negb] in H;
      [|left; congruence].
    destruct (read_pdf file) as [ps|e0]; [discriminate|].
    right. exists e0. congruence.
  - intros name n Hname Hn Hblank.
    rewrite (get_pdf_text_named file name Hname).
    unfold read_pdf. rewrite Hn. cbn [bind].
    destruct (read_pages_blank file n 0) as [ps [Hps [_ Hall]]].
    { intros i Hi. destruct (Hblank i Hi) as [t [Ht Hs]].
      exists t. split; [exact Ht|]. unfold is_blank. now rewrite Hs. }
    rewrite Hps. cbn [bind]. destruct ps as [|p ps]; [reflexivity|].
    now rewrite Hall.
  - apply get_pdf_text_ok.
Qed.

Lemma key_differs_iff (a b : option string) :
  key_differs a b = false <-> a = b.
Proof.
  destruct a as [x|], b as [y|]; cbn [key_differs]; split; intros H;
    try discriminate; try reflexivity.
  - apply negb_false_iff, String.eqb_eq in H. now subst.
  - injection H as ->. now rewrite String.eqb_refl.
Qed.

Lemma unknown_company_refused (W : world) (E : env) (file : upload)
  (companyId : option string) (l : list string) :
  (forall id company_config, ~ known_company W companyId id company_config) ->
  extract_invoice_data_of_upload W E file companyId l
  = (Raise invalid_company, l).
Proof.
  intros H. unfold extract_invoice_data_of_upload.
  destruct companyId as [[|c id]|]; try reflexivity.
  destruct (find_company (String c id) (COMPANIES_INFO W)) as [cfg|] eqn:Hcfg;
    [|reflexivity].
  exfalso. apply (H (String c id) cfg).
  split; [reflexivity|]. split; [discriminate | exact Hcfg].
Qed.

Lemma known_company_served (W : world) (E : env) (file : upload)
  (companyId : option string) (id : string) (company_config : company)
  (l : list string) :
  known_company W companyId id company_config ->
  extract_invoice_data_of_upload W E file companyId l
  = match fetch_clients_from_crm W with
    | Raise e => (Raise e, l)
    | Ok clients_list =>
        match get_pdf_text file with
        | Raise e => (Raise e, l)
        | Ok pages_text =>
            extract_invoice_data E
              (match upload_filename file with
               | Some name => name
               | None => EmptyString
               end)
              id company_config clients_list pages_text l
        end
    end.
Proof.
  intros [-> [Hne Hcfg]]. unfold extract_invoice_data_of_upload.
  destruct id as [|c id]; [contradiction|]. rewrite Hcfg.
  unfold bindM, lift. destruct (fetch_clients_from_crm W); [|reflexivity].
  destruct (get_pdf_text file); reflexivity.
Qed.

(** X14: the order of the checks of [extract_invoice_data]: an unknown
    company id is refused with status 400 whatever the file and the CRM are;
    for a known company a failure of the CRM ends the request with that
    failure, a refusal of the CRM with the status code of the CRM, whatever
    the file is; then comes the failure of the text extraction. None of
    these sends anything to the provider: when a request has sent a prompt,
    the company was known, the CRM had answered, the file was a PDF with
    text and the provider key was set. *)
Theorem checks_come_before_prompts (W : world) (E : env) (file : upload)
  (companyId : option string) (l : list string) :
  let request := extract_invoice_data_of_upload W E file companyId l in
  ((forall id company_config,
       ~ known_company W companyId id company_config) ->
   request = (Raise invalid_company, l))
  /\ (forall id company_config e,
        known_company W companyId id company_config ->
        fetch_clients_from_crm W = Raise e ->
        request = (Raise e, l))
  /\ (forall id company_config response,
        known_company W companyId id company_config ->
        crm_get W = Ok response ->
        crm_status response <> 200%Z ->
        request = (Raise (HTTPException (crm_status response)
                            "Error: Failed to fetch clients data"), l))
  /\ (forall id company_config clients_list e,
        known_company W companyId id company_config ->
        fetch_clients_from_crm W = Ok clients_list ->
        get_pdf_text file = Raise e ->
        request = (Raise e, l))
  /\ (snd request <> l ->
      exists id company_config clients_list name pages_text key,
        known_company W companyId id company_config
        /\ fetch_clients_from_crm W = Ok clients_list
        /\ pdf_name file name
        /\ get_pdf_text file = Ok pages_text
        /\ GOOGLE_API_KEY E = Some key /\ key <> ""
        /\ request = extract_invoice_data E name id company_config
                                          clients_list pages_text l).
Proof.
  cbn zeta. split; [|split; [|split; [|split]]].
  - apply unknown_company_refused.
  - intros id cfg e Hknown Hcrm.
    rewrite (known_company_served W E file companyId id cfg l Hknown).
    now rewrite Hcrm.
  - intros id cfg r Hknown Hget Hstatus.
    rewrite (known_company_served W E file companyId id cfg l Hknown).
    unfold fetch_clients_from_crm. rewrite Hget. cbn [bind].
    apply Z.eqb_neq in Hstatus. now rewrite Hstatus.
  - intros id cfg clients e Hknown Hcrm Hpdf.
    rewrite (known_company_served W E file companyId id cfg l Hknown).
    now rewrite Hcrm, Hpdf.
  - intros Hsent.
    assert (Hknown : exists id cfg, known_company W companyId id cfg).
    { unfold extract_invoice_data_of_upload in Hsent.
      destruct companyId as [[|c id]|]; try (now destruct Hsent).
      destruct (find_company (String c id) (COMPANIES_INFO W)) as [cfg|]
        eqn:Hcfg; [|now destruct Hsent].
      exists (String c id), cfg.
      split; [reflexivity|]. split; [discriminate | exact Hcfg]. }
    destruct Hknown as [id [cfg Hknown]].
    rewrite (known_company_served W E file companyId id cfg l Hknown) in *.
    destruct (fetch_clients_from_crm W) as [clients|e];
      [|now destruct Hsent].
    destruct (get_pdf_text file) as [pages|e] eqn:Hpdf;
      [|now destruct Hsent].
    destruct (get_pdf_text_ok file pages Hpdf) as [[name Hname] _].
    pose proof Hname as [Hfile _]. rewrite Hfile in *.
    exists id, cfg, clients, name, pages.
    destruct (GOOGLE_API_KEY E) as [[|c key]|] eqn:Hkey.
    + exfalso. apply Hsent. apply run_without_key. now right.
    + exists (String c key).
      split; [exact Hknown|]. split; [reflexivity|].
      split; [exact Hname|]. split; [reflexivity|].
      split; [reflexivity|]. split; [discriminate | reflexivity].
    + exfalso. apply Hsent. apply run_without_key. now left.
Qed.

(** X15: [verify_api_key] and [upload_invoice]: a request whose key header
    differs from the configured key, be it missing where a key is configured
    or present where none is, is refused with status 403 before anything
    else is looked at, and nothing is sent; a request with the configured
    key is served as [extract_invoice_data] serves it; with no key
    configured, a request without the header is served. *)
Theorem api_key_guard (W : world) (E : env) (file : upload)
  (companyId x_api_key : option string) (l : list string) :
  (x_api_key <> API_KEY W ->
   verify_api_key W x_api_key = Raise (HTTPException 403 "API key not valid")
   /\ upload_invoice W E file companyId x_api_key l
      = (Raise (HTTPException 403 "API key not valid"), l))
  /\ (x_api_key = API_KEY W ->
      verify_api_key W x_api_key = Ok x_api_key
      /\ upload_invoice W E file companyId x_api_key l
         = extract_invoice_data_of_upload W E file companyId l)
  /\ (API_KEY W = None ->
      upload_invoice W E file companyId None l
      = extract_invoice_data_of_upload W E file companyId l)
  /\ (snd (upload_invoice W E file companyId x_api_key l) <> l ->
      x_api_key = API_KEY W).
Proof.
  assert (Hno : x_api_key <> API_KEY W ->
                verify_api_key W x_api_key
                = Raise (HTTPException 403 "API key not valid")
                /\ upload_invoice W E file companyId x_api_key l
                   = (Raise (HTTPException 403 "API key not valid"), l)).
  { intros Hne. unfold upload_invoice, verify_api_key, bindM, lift.
    destruct (key_differs x_api_key (API_KEY W)) eqn:Hk; [now split|].
    apply key_differs_iff in Hk. contradiction. }
  assert (Hyes : forall x, x = API_KEY W ->
                 verify_api_key W x = Ok x
                 /\ upload_invoice W E file companyId x l
                    = extract_invoice_data_of_upload W E file companyId l).
  { intros x Heq. apply key_differs_iff in Heq.
    unfold upload_invoice, verify_api_key, bindM, lift. now rewrite Heq. }
  split; [exact Hno|]. split; [exact (Hyes x_api_key)|]. split.
  - intros Hunset. apply (Hyes None). now rewrite Hunset.
  - intros Hsent. destruct (key_differs x_api_key (API_KEY W)) eqn:Hk.
    + exfalso. apply Hsent.
      unfold upload_invoice, verify_api_key, bindM, lift. now rewrite Hk.
    + now apply key_differs_iff.
Qed.

(** X16: a request that is answered with a document came with the configured
    key, for a company of the registry and with a PDF file: the document
    carries the name of the file, the id and the name of that company and
    the number of pages of the file, which is at least one; one chunk was
    made per ten pages begun. *)
Theorem answered_request (W : world) (E : env) (file : upload)
  (companyId x_api_key : option string) (l l' : list string)
  (document : invoice_result) :
  upload_invoice W E file companyId x_api_key l = (Ok document, l') ->
  x_api_key = API_KEY W
  /\ pdf_name file (filename document)
  /\ (exists company_config,
        known_company W companyId (company_id document) company_config
        /\ company_name document = NAME company_config)
  /\ pdf_page_count file = Ok (total_pages document)
  /\ 1 <= total_pages document
  /\ total_chunks document = (total_pages document + 9) / 10.
Proof.
  intros H.
  assert (Hkey : x_api_key = API_KEY W).
  { destruct (key_differs x_api_key (API_KEY W)) eqn:Hk.
    - unfold upload_invoice, verify_api_key, bindM, lift in H.
      rewrite Hk in H. discriminate.
    - now apply key_differs_iff. }
  split; [exact Hkey|].
  assert (H' : extract_invoice_data_of_upload W E file companyId l
               = (Ok document, l')).
  { apply key_differs_iff in Hkey.
    unfold upload_invoice, verify_api_key, bindM, lift in H.
    now rewrite Hkey in H. }
  clear H.
  assert (Hknown : exists id cfg, known_company W companyId id cfg).
  { unfold extract_invoice_data_of_upload in H'.
    destruct companyId as [[|c id]|]; try discriminate.
    destruct (find_company (String c id) (COMPANIES_INFO W)) as [cfg|]
      eqn:Hcfg; [|discriminate].
    exists (String c id), cfg.
    split; [reflexivity|]. split; [discriminate | exact Hcfg]. }
  destruct Hknown as [id [cfg Hknown]].
  rewrite (known_company_served W E file companyId id cfg l Hknown) in H'.
  destruct (fetch_clients_from_crm W) as [clients|e]; [|discriminate].
  destruct (get_pdf_text file) as [pages|e] eqn:Hpdf; [|discriminate].
  destruct (get_pdf_text_ok file pages Hpdf)
    as [[name Hname] [Hcount [_ [Hne _]]]].
  pose proof Hname as [Hfile _]. rewrite Hfile in H'.
  destruct (document_fields _ _ _ _ _ _ _ _ _ H')
    as [-> [-> [-> [-> ->]]]].
  split; [exact Hname|]. split; [exists cfg; now split|].
  split; [exact Hcount|]. split; [|reflexivity].
  destruct pages; [contradiction | cbn [List.length]; lia].
Qed.

Lemma answered_request_witness :
  upload_invoice SampleRequest.office SampleRequest.steady
    SampleRequest.invoice_pdf
    (Some "86e676e3-4cc0-4725-b12c-358d3b4b3e43") (Some "k3y") []
  = (Ok SampleRequest.document,
     [chunk_prompt "MAIN PROMPT" SampleRun.one_page 0;
      client_prompt SampleRequest.steady SampleRun.crm_clients
                    [SampleRun.armchair_survivor]])
  /\ pdf_name SampleRequest.invoice_pdf "invoices.pdf"
  /\ pdf_page_count SampleRequest.invoice_pdf = Ok 1.
Proof.
  assert (H : upload_invoice SampleRequest.office SampleRequest.steady
                SampleRequest.invoice_pdf
                (Some "86e676e3-4cc0-4725-b12c-358d3b4b3e43") (Some "k3y") []
              = (Ok SampleRequest.document,
                 [chunk_prompt "MAIN PROMPT" SampleRun.one_page 0;
                  client_prompt SampleRequest.steady SampleRun.crm_clients
                                [SampleRun.armchair_survivor]]))
    by (vm_compute; reflexivity).
  split; [exact H|].
  pose proof (answered_request _ _ _ _ _ _ _ _ H) as R.
  split; [exact (proj1 (proj2 R))|].
  exact (proj1 (proj2 (proj2 (proj2 R)))).
Defined.

(** A text file, a scan without text and a CRM that refuses its key,
    with a provider that would answer: status 400, 500 and 401, and no
    prompt sent. *)
Example refused_requests :
  upload_invoice SampleRequest.office SampleRequest.steady
    SampleRequest.notes_txt
    (Some "86e676e3-4cc0-4725-b12c-358d3b4b3e43") (Some "k3y") []
  = (Raise (HTTPException 400 "Error: A valid PDF file is required"), [])
  /\ upload_invoice SampleRequest.office SampleRequest.steady
       SampleRequest.blank_scan
       (Some "86e676e3-4cc0-4725-b12c-358d3b4b3e43") (Some "k3y") []
     = (Raise (HTTPException 500
          "Error during text extraction: 500: Error extracting text"), [])
  /\ upload_invoice SampleRequest.locked_out SampleRequest.steady
       SampleRequest.notes_txt
       (Some "86e676e3-4cc0-4725-b12c-358d3b4b3e43") (Some "k3y") []
     = (Raise (HTTPException 401 "Error: Failed to fetch clients data"), [])
  /\ upload_invoice SampleRequest.locked_out SampleRequest.steady
       SampleRequest.notes_txt (Some "le-comfort") None []
     = (Raise (HTTPException 403 "API key not valid"), []).
Proof. repeat split; vm_compute; reflexivity. Qed.

(** X26: the check for an empty list of chunks after the chunk loop: it
    fires for an empty list of pages, without anything sent; but
    [get_pdf_text] returns at least one page, and then a chunk loop that ran
    to its end has recorded at least one chunk, so that in a request the
    check never fires. *)
Theorem no_results_check_is_dead
  (E : env) (file_name companyId : string) (company_config : company)
  (clients_list : json) (l : list string) :
  extract_invoice_data E file_name companyId company_config clients_list [] l
  = (Raise (HTTPException 500
       "Error: No valid results from any chunk processing"), l)
  /\ (forall file pages_text raw l',
        get_pdf_text file = Ok pages_text ->
        extract_chunks E (MAIN_PROMPT company_config) pages_text
                       (chunk_starts pages_text) [] l = (Ok raw, l') ->
        1 <= List.length raw
        /\ List.length raw = (List.length pages_text + 9) / 10).
Proof.
  split.
  - unfold extract_invoice_data, bindM, chunk_starts.
    rewrite Chunking.range_from_ge by apply Nat.le_refl. reflexivity.
  - intros file pages raw l' Hpdf Hrun.
    destruct (get_pdf_text_ok file pages Hpdf) as [_ [_ [_ [Hne _]]]].
    destruct (extract_chunks_ok _ _ _ _ _ _ _ _ Hrun)
      as [_ [entries [Hraw [Hpages _]]]].
    cbn [app] in Hraw. subst entries.
    apply (f_equal (@List.length _)) in Hpages. rewrite !length_map in Hpages.
    assert (Hlen : List.length raw = (List.length pages + 9) / 10)
      by (etransitivity; [exact Hpages | apply chunk_count]).
    split; [|exact Hlen].
    destruct pages as [|p pages]; [contradiction|].
    cbn [List.length] in Hlen.
    pose proof (Nat.div_mod_eq (S (List.length pages) + 9) 10) as H1.
    pose proof (Nat.mod_upper_bound (S (List.length pages) + 9) 10) as H2.
    assert (H3 : 1 <= (S (List.length pages) + 9) / 10) by lia.
    apply (Nat.le_trans _ _ _ H3). apply Nat.eq_le_incl. symmetry. exact Hlen.
Qed.

End RequestLaws.

(** ** What becomes of a page, and of the answer of the client call *)

Module PromptLaws.
Import PyStr Py Llm DataFormatter DataExtracter Spec RunSpec RunFacts
       PyStrFacts PyFacts Chunking.

Lemma substring_of_app_r (s a b : string) :
  substring_of s b -> substring_of s (a ++ b).
Proof.
  intros [pre [post ->]]. exists (a ++ pre), post. now rewrite append_assoc.
Qed.

Lemma substring_of_app_l (s a b : string) :
  substring_of s a -> substring_of s (a ++ b).
Proof.
  intros [pre [post ->]]. exists pre, (post ++ b).
  now rewrite !append_assoc.
Qed.

(** A part of a joined string is in it as it is. *)
Lemma join_In (sep p : string) (parts : list string) :
  In p parts -> substring_of p (join sep parts).
Proof.
  induction parts as [|q parts IH]; [intros []|].
  intros [-> | Hin].
  - destruct parts as [|r parts]; cbn [join].
    + exists "", "". cbn [append]. now rewrite append_nil_r.
    + now exists "", (sep ++ join sep (r :: parts)).
  - destruct parts as [|r parts]; [destruct Hin|].
    change (join sep (q :: r :: parts))
      with (q ++ sep ++ join sep (r :: parts)).
    apply substring_of_app_r, substring_of_app_r. now apply IH.
Qed.

Lemma chunk_start_of_page (pages_text : list string) (j : nat) :
  j < List.length pages_text ->
  In (10 * (j / 10)) (chunk_starts pages_text).
Proof.
  intros Hj. unfold chunk_starts.
  pose proof (range_from_length 0 (List.length pages_text)) as Hlen.
  rewrite Nat.sub_0_r in Hlen.
  assert (Hk : j / 10 < List.length (range_from 0 (List.length pages_text))).
  { rewrite Hlen.
    pose proof (Nat.div_mod_eq j 10) as H1.
    pose proof (Nat.mod_upper_bound j 10) as H2.
    pose proof (Nat.div_mod_eq (List.length pages_text + 9) 10) as H3.
    pose proof (Nat.mod_upper_bound (List.length pages_text + 9) 10) as H4.
    lia. }
  pose proof (range_from_nth (List.length pages_text) (j / 10) 0 Hk) as Hnth.
  unfold PAGES_PER_CHUNK in Hnth. cbn [Nat.add] in Hnth.
  rewrite <- Hnth. now apply nth_In.
Qed.

(** X17: no page is lost on the way to the provider: page [j + 1] of N is
    the page number [j mod 10] of the chunk that starts after page
    [10 * (j / 10)]; this is a chunk of the loop, its label covers the
    number of the page, and its prompt begins with the main prompt of the
    company and holds the label and the whole text of the page. *)
Theorem page_text_reaches_provider
  (main_prompt : string) (pages_text : list string) (j : nat) :
  j < List.length pages_text ->
  let i := 10 * (j / 10) in
  In i (chunk_starts pages_text)
  /\ nth (j mod 10) (chunk_pages pages_text i) "" = nth j pages_text ""
  /\ (first_page i <= j + 1 /\ j + 1 <= last_page pages_text i)
  /\ (exists rest, chunk_prompt main_prompt pages_text i = main_prompt ++ rest)
  /\ substring_of (current_chunk_range pages_text i)
                  (chunk_prompt main_prompt pages_text i)
  /\ substring_of (nth j pages_text "")
                  (chunk_prompt main_prompt pages_text i).
Proof.
  intros Hj. cbn zeta.
  pose proof (Nat.div_mod_eq j 10) as Hdiv.
  pose proof (Nat.mod_upper_bound j 10 ltac:(lia)) as Hmod.
  assert (Hnth : nth (j mod 10) (chunk_pages pages_text (10 * (j / 10))) ""
                 = nth j pages_text "").
  { unfold chunk_pages, PAGES_PER_CHUNK. rewrite nth_firstn.
    destruct (Nat.ltb_spec (j mod 10) 10) as [_ | Hge]; [|lia].
    rewrite nth_skipn. f_equal. lia. }
  assert (Hin : In (nth j pages_text "")
                   (chunk_pages pages_text (10 * (j / 10)))).
  { rewrite <- Hnth. apply nth_In. rewrite chunk_pages_length.
    unfold PAGES_PER_CHUNK. lia. }
  split; [now apply chunk_start_of_page|]. split; [exact Hnth|]. split.
  { unfold first_page, last_page, PAGES_PER_CHUNK. lia. }
  unfold chunk_prompt. split; [eexists; reflexivity|]. split.
  - apply substring_of_app_r, substring_of_app_r. apply substring_of_app_l.
    exists "", "". cbn [append]. now rewrite append_nil_r.
  - do 4 apply substring_of_app_r. apply substring_of_app_l.
    unfold chunk_text. now apply join_In.
Qed.

Lemma page_text_reaches_provider_witness :
  12 < List.length SampleRun.fifteen_pages
  /\ In (10 * (12 / 10)) (chunk_starts SampleRun.fifteen_pages)
  /\ nth (12 mod 10) (chunk_pages SampleRun.fifteen_pages (10 * (12 / 10))) ""
     = nth 12 SampleRun.fifteen_pages "".
Proof.
  assert (H : 12 < List.length SampleRun.fifteen_pages)
    by (vm_compute; lia).
  pose proof (page_text_reaches_provider "MAIN PROMPT" _ 12 H) as R.
  split; [exact H|]. split; [exact (proj1 R)|].
  exact (proj1 (proj2 R)).
Defined.

End PromptLaws.

Module AnswerLaws.
Import PyStr Py Llm DataFormatter DataExtracter Spec RunSpec RunFacts
       PyStrFacts PyFacts ClientNormalisation.

(** [normalize_results] over one chunk. *)
Lemma normalize_results_one (E : env) (chunk : dict) (pl cl : list string)
  (clients_list : json) (l l' : list string) (out : json) :
  process_chunk_data E chunk pl cl clients_list l = (Ok out, l') ->
  normalize_results E [chunk] pl cl clients_list l
  = ((items <- py_iter out ;; merge_items_by_invoice items), l').
Proof.
  intros H. unfold normalize_results. cbn [normalize_chunks].
  unfold bindM, lift. rewrite H.
  destruct (py_iter out) as [more|e]; cbn [bind]; [|reflexivity].
  cbn [ret app]. reflexivity.
Qed.

(** X18: when the client-name call for a chunk goes through, what
    [process_chunk_data] returns is the decoded answer of the provider,
    whatever it is, and not the records it filtered, which went into the
    prompt: an answer that is a list is merged as it stands, an answer that
    is a non-empty object makes the merge raise AttributeError on its first
    key, and a number, a boolean or null makes [normalize_results] raise
    TypeError, none of them an HTTPException. *)
Theorem client_answer_is_taken_as_it_is
  (E : env) (chunk : dict) (pl cl : list string) (clients_list : json)
  (data survivors : list json) (l : list string) (t : string) (v : json) :
  obj_get "data" chunk = Some (JArr data) ->
  filter_items pl cl data = Ok survivors ->
  survivors <> [] ->
  fst (call_llm E (client_prompt E clients_list survivors) l) = Ok t ->
  json_loads E t = Ok v ->
  let l' := (l ++ [client_prompt E clients_list survivors])%list in
  process_chunk_data E chunk pl cl clients_list l = (Ok v, l')
  /\ normalize_results E [chunk] pl cl clients_list l
     = ((items <- py_iter v ;; merge_items_by_invoice items), l')
  /\ (forall items,
        v = JArr items ->
        normalize_results E [chunk] pl cl clients_list l
        = (merge_items_by_invoice items, l'))
  /\ (forall k x d,
        v = JObj ((k, x) :: d) ->
        normalize_results E [chunk] pl cl clients_list l
        = (Raise (AttributeError "'str' object has no attribute 'get'"), l'))
  /\ ((forall xs, v <> JArr xs) -> (forall s, v <> JStr s) ->
      (forall d, v <> JObj d) ->
      normalize_results E [chunk] pl cl clients_list l
      = (Raise (TypeError ("'" ++ type_name v ++ "' object is not iterable")),
         l')).
Proof.
  intros Hdata Hfilter Hne Hcall Hjson. cbn zeta.
  assert (Hchunk : process_chunk_data E chunk pl cl clients_list l
                   = (Ok v, (l ++ [client_prompt E clients_list survivors])%list)).
  { rewrite (process_chunk_data_filtered E chunk pl cl clients_list data
               survivors l Hdata Hfilter).
    destruct survivors as [|s survivors]; [contradiction|].
    unfold try_except, ask_json, bindM, lift.
    pose proof (call_llm_ok_log E _ t l Hcall) as Hlog.
    destruct (call_llm E (client_prompt E clients_list (s :: survivors)) l)
      as [r l1]. cbn [fst snd] in Hcall, Hlog. subst r l1.
    now rewrite Hjson. }
  pose proof (normalize_results_one E chunk pl cl clients_list l _ v Hchunk)
    as Hone.
  split; [exact Hchunk|]. split; [exact Hone|]. split; [|split].
  - intros items ->. rewrite Hone. reflexivity.
  - intros k x d ->. rewrite Hone. reflexivity.
  - intros Harr Hstr Hobj. rewrite Hone.
    destruct v; try reflexivity.
    + now destruct (Hstr s).
    + now destruct (Harr xs).
    + now destruct (Hobj kvs).
Qed.

Lemma client_answer_is_taken_as_it_is_witness :
  obj_get "data" SampleRun.recorded_chunk
  = Some (JArr [JObj SampleRun.armchair_record])
  /\ filter_items Samples.products_list Samples.coverings_list
       [JObj SampleRun.armchair_record]
     = Ok [SampleRun.armchair_survivor]
  /\ process_chunk_data SampleRequest.steady SampleRun.recorded_chunk
       Samples.products_list Samples.coverings_list SampleRun.crm_clients
       ["extraction prompt"]
     = (Ok (JArr [JObj SampleRun.armchair_record]),
        ["extraction prompt";
         client_prompt SampleRequest.steady SampleRun.crm_clients
                       [SampleRun.armchair_survivor]]).
Proof.
  assert (H1 : obj_get "data" SampleRun.recorded_chunk
               = Some (JArr [JObj SampleRun.armchair_record]))
    by reflexivity.
  assert (H2 : filter_items Samples.products_list Samples.coverings_list
                 [JObj SampleRun.armchair_record]
               = Ok [SampleRun.armchair_survivor])
    by (vm_compute; reflexivity).
  assert (H3 : [SampleRun.armchair_survivor] <> [])
    by (intros H; discriminate H).
  assert (H4 : fst (call_llm SampleRequest.steady
                      (client_prompt SampleRequest.steady SampleRun.crm_clients
                                     [SampleRun.armchair_survivor])
                      ["extraction prompt"])
               = Ok "[armchair record]")
    by reflexivity.
  assert (H5 : json_loads SampleRequest.steady "[armchair record]"
               = Ok (JArr [JObj SampleRun.armchair_record]))
    by reflexivity.
  split; [exact H1|]. split; [exact H2|].
  exact (proj1 (client_answer_is_taken_as_it_is SampleRequest.steady
                  SampleRun.recorded_chunk Samples.products_list
                  Samples.coverings_list SampleRun.crm_clients
                  [JObj SampleRun.armchair_record]
                  [SampleRun.armchair_survivor] ["extraction prompt"]
                  "[armchair record]" (JArr [JObj SampleRun.armchair_record])
                  H1 H2 H3 H4 H5)).
Defined.

Lemma chunk_without_survivors (E : env) (chunk : dict) (pl cl : list string)
  (clients_list : json) (l : list string) :
  (forall data, obj_get "data" chunk = Some (JArr data) ->
                filter_items pl cl data = Ok []) ->
  process_chunk_data E chunk pl cl clients_list l = (Ok (JArr []), l).
Proof.
  intros Hempty. destruct (obj_get "data" chunk) as [v|] eqn:Hv.
  - destruct v as [| | | | |data|];
      try (apply process_chunk_data_no_list; intros d Hd; congruence).
    now rewrite (process_chunk_data_filtered E chunk pl cl clients_list
                   data [] l Hv (Hempty data eq_refl)).
  - apply process_chunk_data_no_list. intros d Hd. congruence.
Qed.

Lemma normalize_chunks_without_survivors (E : env) (pl cl : list string)
  (clients_list : json) (chunks : list dict) :
  (forall chunk data,
      In chunk chunks -> obj_get "data" chunk = Some (JArr data) ->
      filter_items pl cl data = Ok []) ->
  forall (acc : list json) (l : list string),
    normalize_chunks E chunks pl cl clients_list acc l = (Ok acc, l).
Proof.
  induction chunks as [|chunk chunks IH]; intros Hempty acc l; [reflexivity|].
  cbn [normalize_chunks]. unfold bindM, lift.
  rewrite (chunk_without_survivors E chunk pl cl clients_list l)
    by (intros data; apply Hempty; now left).
  cbn [py_iter]. rewrite app_nil_r. apply IH.
  intros c data Hc. apply Hempty. now right.
Qed.

(** X19: when no chunk of a run has a record that survives the filter, be it
    that a chunk has no list of records or that none of its records has a
    listed product, [normalize_results] returns the empty list and sends
    nothing, whatever the provider would have answered, and the run returns
    a document whose normalized data are empty, having sent the extraction
    prompts only. *)
Theorem run_without_survivors
  (E : env) (file_name companyId : string) (company_config : company)
  (clients_list : json) (pages_text : list string) (l l1 : list string)
  (raw : list dict) :
  extract_chunks E (MAIN_PROMPT company_config) pages_text
                 (chunk_starts pages_text) [] l = (Ok raw, l1) ->
  raw <> [] ->
  (forall chunk data,
      In chunk raw -> obj_get "data" chunk = Some (JArr data) ->
      filter_items (PRODUCTS_LIST company_config)
                   (COVERINGS_LIST company_config) data = Ok []) ->
  normalize_results E raw (PRODUCTS_LIST company_config)
                    (COVERINGS_LIST company_config) clients_list l1
  = (Ok [], l1)
  /\ extract_invoice_data E file_name companyId company_config clients_list
                          pages_text l
     = (Ok (mkResult file_name companyId (NAME company_config) raw
                     (List.length raw) (List.length pages_text) []),
        l1)
  /\ l1 = (l ++ extraction_prompts (MAIN_PROMPT company_config) pages_text)%list.
Proof.
  intros Hrun Hne Hempty.
  assert (Hnorm : normalize_results E raw (PRODUCTS_LIST company_config)
                    (COVERINGS_LIST company_config) clients_list l1
                  = (Ok [], l1)).
  { unfold normalize_results, bindM, lift.
    now rewrite (normalize_chunks_without_survivors E _ _ clients_list raw
                   Hempty [] l1). }
  split; [exact Hnorm|]. split.
  - unfold extract_invoice_data, bindM. rewrite Hrun.
    destruct raw as [|c raw]; [contradiction|]. now rewrite Hnorm.
  - now destruct (extract_chunks_ok _ _ _ _ _ _ _ _ Hrun) as [-> _].
Qed.

Lemma run_without_survivors_witness :
  extract_chunks (SampleRun.env_of (SampleRun.answer "[]") SampleRun.outage)
                 "MAIN PROMPT" SampleRun.one_page
                 (chunk_starts SampleRun.one_page) [] []
  = (Ok [[("pages", JStr "1-1"); ("data", JArr [])]],
     [chunk_prompt "MAIN PROMPT" SampleRun.one_page 0])
  /\ extract_invoice_data
       (SampleRun.env_of (SampleRun.answer "[]") SampleRun.outage)
       "invoices.pdf" "86e676e3-4cc0-4725-b12c-358d3b4b3e43"
       SampleRun.le_comfort SampleRun.crm_clients SampleRun.one_page []
     = (Ok (mkResult "invoices.pdf" "86e676e3-4cc0-4725-b12c-358d3b4b3e43"
                     "Le Comfort" [[("pages", JStr "1-1"); ("data", JArr [])]]
                     1 1 []),
        [chunk_prompt "MAIN PROMPT" SampleRun.one_page 0]).
Proof.
  pose (E := SampleRun.env_of (SampleRun.answer "[]") SampleRun.outage).
  assert (H1 : extract_chunks E (MAIN_PROMPT SampleRun.le_comfort)
                 SampleRun.one_page (chunk_starts SampleRun.one_page) [] []
               = (Ok [[("pages", JStr "1-1"); ("data", JArr [])]],
                  [chunk_prompt "MAIN PROMPT" SampleRun.one_page 0]))
    by (vm_compute; reflexivity).
  assert (H2 : [[("pages", JStr "1-1"); ("data", JArr [])]]
               <> ([] : list dict))
    by (intros H; discriminate H).
  assert (H3 : forall chunk data,
             In chunk [[("pages", JStr "1-1"); ("data", JArr [])]] ->
             obj_get "data" chunk = Some (JArr data) ->
             filter_items (PRODUCTS_LIST SampleRun.le_comfort)
                          (COVERINGS_LIST SampleRun.le_comfort) data = Ok []).
  { intros chunk data [<- | []] Hd. injection Hd as <-. reflexivity. }
  split; [exact H1|].
  exact (proj1 (proj2 (run_without_survivors E "invoices.pdf"
                         "86e676e3-4cc0-4725-b12c-358d3b4b3e43"
                         SampleRun.le_comfort SampleRun.crm_clients
                         SampleRun.one_page [] _ _ H1 H2 H3))).
Defined.

End AnswerLaws.

(** ** The status codes of a run *)

Module ErrorLaws.
Import PyStr Py Llm DataFormatter DataExtracter Spec RunSpec Laws RunFacts
       PyFacts ClientOutcomes.

Lemma plain_Ok {A : Type} (a : A) : plain_failure (Ok a).
Proof. intros e H. discriminate. Qed.

Lemma plain_Raise {A : Type} (e : exn) :
  is_http e = false -> plain_failure (@Raise A e).
Proof. intros He e' H. now injection H as <-. Qed.

Lemma plain_bind {A B : Type} (r : result A) (k : A -> result B) :
  plain_failure r -> (forall a, plain_failure (k a)) ->
  plain_failure (bind r k).
Proof.
  intros Hr Hk. destruct r as [a|e]; cbn [bind]; [apply Hk|].
  apply plain_Raise. now apply Hr.
Qed.

Ltac plain_step :=
  match goal with
  | |- plain_failure (Ok _) => apply plain_Ok
  | |- plain_failure (Raise _) => apply plain_Raise; reflexivity
  | |- plain_failure (bind _ _) => apply plain_bind; [|intros ?]
  | |- plain_failure (if ?b then _ else _) => destruct b
  | |- plain_failure (match ?x with _ => _ end) => destruct x
  end.

Lemma plain_py_in (k : string) (v : json) : plain_failure (py_in k v).
Proof. unfold py_in. repeat plain_step. Qed.

Lemma plain_py_getitem (k : string) (v : json) : plain_failure (py_getitem k v).
Proof. unfold py_getitem. repeat plain_step. Qed.

Lemma plain_py_lower (v : json) : plain_failure (py_lower v).
Proof. unfold py_lower. repeat plain_step. Qed.

Lemma plain_py_iter (v : json) : plain_failure (py_iter v).
Proof. unfold py_iter. repeat plain_step. Qed.

Lemma plain_copy_with (k : string) (v x : json) : plain_failure (copy_with k v x).
Proof. unfold copy_with. repeat plain_step. Qed.

Lemma plain_hash_key (v : json) : plain_failure (hash_key v).
Proof. unfold hash_key. repeat plain_step. Qed.

Lemma plain_collect {A B : Type} (body : A -> result (option B))
  (xs : list A) :
  (forall x, plain_failure (body x)) -> plain_failure (collect body xs).
Proof.
  intros Hbody. induction xs as [|x xs IH]; cbn [collect].
  - apply plain_Ok.
  - apply plain_bind; [apply Hbody|]. intros r.
    apply plain_bind; [exact IH|]. intros rs. apply plain_Ok.
Qed.

Lemma plain_any_match (get : result json) (l : list string) :
  plain_failure get -> plain_failure (any_match get l).
Proof.
  intros Hget. induction l as [|s l IH]; cbn [any_match].
  - apply plain_Ok.
  - apply plain_bind; [exact Hget|]. intros v.
    apply plain_bind; [apply plain_py_lower|]. intros n.
    destruct (contains (lower s) n); [apply plain_Ok | exact IH].
Qed.

Lemma plain_normalize_product_name (v : json) (l : list string) :
  plain_failure (normalize_product_name v l).
Proof.
  induction l as [|s l IH]; cbn [normalize_product_name].
  - apply plain_Ok.
  - apply plain_bind; [apply plain_py_lower|]. intros n.
    destruct (contains (lower s) n); [apply plain_Ok | exact IH].
Qed.

Lemma plain_normalize_covering (cl : list string) (x : json) :
  plain_failure (normalize_covering cl x).
Proof.
  unfold normalize_covering.
  apply plain_bind; [apply plain_py_in|]. intros b.
  destruct (negb b); [apply plain_Ok|].
  apply plain_bind; [apply plain_any_match, plain_py_getitem|]. intros m.
  destruct (negb m); [apply plain_Ok|].
  apply plain_bind; [apply plain_py_getitem|]. intros n.
  apply plain_bind; [apply plain_normalize_product_name|]. intros c.
  apply plain_bind; [apply plain_copy_with|]. intros k. apply plain_Ok.
Qed.

Lemma plain_normalize_product (pl cl : list string) (x : json) :
  plain_failure (normalize_product pl cl x).
Proof.
  unfold normalize_product.
  apply plain_bind; [apply plain_py_in|]. intros b.
  destruct (negb b); [apply plain_Ok|].
  apply plain_bind; [apply plain_any_match, plain_py_getitem|]. intros m.
  destruct (negb m); [apply plain_Ok|].
  destruct x; try (apply plain_Raise; reflexivity).
  apply plain_bind; [apply plain_py_getitem|]. intros n.
  apply plain_bind; [apply plain_normalize_product_name|]. intros c.
  cbn zeta.
  destruct (obj_get "coverings" _) as [w|]; [|apply plain_Ok].
  destruct w; try apply plain_Ok.
  apply plain_bind; [|intros ks; apply plain_Ok].
  apply plain_collect. intros y. apply plain_normalize_covering.
Qed.

Lemma plain_filter_items (pl cl : list string) (data : list json) :
  plain_failure (filter_items pl cl data).
Proof.
  apply plain_collect. intros x. unfold process_item.
  apply plain_bind; [apply plain_py_in|]. intros b.
  destruct (negb b); [apply plain_Ok|].
  apply plain_bind; [apply plain_py_getitem|]. intros ps.
  destruct ps; try apply plain_Ok.
  apply plain_bind; [apply plain_collect; intros y;
                     apply plain_normalize_product|].
  intros survivors. destruct survivors; [apply plain_Ok|].
  apply plain_bind; [apply plain_copy_with|]. intros o. apply plain_Ok.
Qed.

Lemma plain_merge_loop (items : list json) :
  forall acc, plain_failure (merge_loop acc items).
Proof.
  induction items as [|x items IH]; intros acc; cbn [merge_loop].
  - apply plain_Ok.
  - apply plain_bind; [|intros acc'; apply IH].
    unfold merge_step. destruct x; try (apply plain_Raise; reflexivity).
    cbn zeta. destruct (negb _); [apply plain_Ok|].
    apply plain_bind; [apply plain_hash_key|]. intros k.
    destruct (dict_get k acc) as [stored|]; [|apply plain_Ok].
    apply plain_bind; [|intros m; apply plain_Ok].
    unfold extend_products.
    destruct (obj_get "products" stored) as [v|];
      [|apply plain_Raise; reflexivity].
    destruct v; try (apply plain_Raise; reflexivity).
    destruct (obj_get "products" kvs) as [w|];
      [|apply plain_Raise; reflexivity].
    apply plain_bind; [apply plain_py_iter|]. intros more. apply plain_Ok.
Qed.

Lemma plain_merge (items : list json) :
  plain_failure (merge_items_by_invoice items).
Proof.
  unfold merge_items_by_invoice.
  apply plain_bind; [apply plain_merge_loop|]. intros acc. apply plain_Ok.
Qed.

Lemma call_llm_failure (E : env) (p : string) (l : list string) (e : exn) :
  fst (call_llm E p l) = Raise e ->
  exists detail, e = HTTPException 500 detail /\ client_failure detail.
Proof.
  intros H. destruct (GOOGLE_API_KEY E) as [[|c key]|] eqn:Hkey.
  - rewrite (ClientErrors.call_llm_without_key E p l (or_intror Hkey)) in H.
    injection H as <-. eexists. split; [reflexivity | now left].
  - destruct (ClientErrors.call_llm_with_key E p (String c key) l e Hkey
                ltac:(discriminate) H) as [inner ->].
    eexists. split; [reflexivity|]. right. now exists (str_of_exn inner).
  - rewrite (ClientErrors.call_llm_without_key E p l (or_introl Hkey)) in H.
    injection H as <-. eexists. split; [reflexivity | now left].
Qed.

(** What the chunk loop raises. *)
Lemma extract_chunks_failure (E : env) (mp : string) (pages : list string)
  (starts : list nat) :
  (forall t e, json_loads E t = Raise e -> is_http e = false) ->
  forall (chunks : list dict) (l : list string) (e : exn),
    fst (extract_chunks E mp pages starts chunks l) = Raise e ->
    is_http e = false
    \/ exists detail, e = HTTPException 500 detail /\ run_failure detail.
Proof.
  intros Hjson. induction starts as [|i rest IH]; intros chunks l e.
  - discriminate.
  - rewrite extract_chunks_cons. cbn zeta.
    pose proof (call_llm_failure E (chunk_prompt mp pages i) l) as Hcall.
    destruct (call_llm E (chunk_prompt mp pages i) l) as [[t|e0] l1];
      cbn [fst] in Hcall.
    + destruct t as [|c t].
      * cbn [fst]. intros H. injection H as <-. right. eexists.
        split; [reflexivity|]. right. left. eexists. reflexivity.
      * destruct (json_loads E (String c t)) as [v|e0] eqn:Hv.
        -- apply IH.
        -- cbn [fst]. intros H. injection H as <-.
           pose proof (Hjson _ _ Hv) as Hplain.
           destruct e0; cbn [on_decode_error]; try (left; exact Hplain).
           right. eexists. split; [reflexivity|]. right. right. left.
           eexists. eexists. reflexivity.
    + cbn [fst]. intros H. injection H as <-.
      destruct (Hcall e0 eq_refl) as [detail [-> Hd]].
      right. exists detail. split; [reflexivity | now left].
Qed.

Lemma process_chunk_data_failure (E : env) (chunk : dict)
  (pl cl : list string) (clients_list : json) (l : list string) (e : exn) :
  fst (process_chunk_data E chunk pl cl clients_list l) = Raise e ->
  is_http e = false
  \/ exists detail, e = HTTPException 500 detail /\ run_failure detail.
Proof.
  unfold process_chunk_data.
  destruct (obj_get "data" chunk) as [v|]; [|discriminate].
  destruct v; try discriminate.
  unfold bindM, lift.
  pose proof (plain_filter_items pl cl xs) as Hplain.
  destruct (filter_items pl cl xs) as [[|s survivors]|e0]; cbn [fst].
  - discriminate.
  - unfold try_except.
    destruct (ask_json E (client_prompt E clients_list (s :: survivors)) l)
      as [[a|e0] l1]; cbn [fst]; [discriminate|].
    intros H. injection H as <-. right. eexists. split; [reflexivity|].
    do 4 right. eexists. reflexivity.
  - intros H. injection H as <-. left. now apply Hplain.
Qed.

Lemma normalize_chunks_failure (E : env) (pl cl : list string)
  (clients_list : json) (chunks : list dict) :
  forall (acc : list json) (l : list string) (e : exn),
    fst (normalize_chunks E chunks pl cl clients_list acc l) = Raise e ->
    is_http e = false
    \/ exists detail, e = HTTPException 500 detail /\ run_failure detail.
Proof.
  induction chunks as [|chunk chunks IH]; intros acc l e; [discriminate|].
  cbn [normalize_chunks]. unfold bindM, lift.
  pose proof (process_chunk_data_failure E chunk pl cl clients_list l) as Hc.
  destruct (process_chunk_data E chunk pl cl clients_list l) as [[out|e0] l1];
    cbn [fst] in Hc.
  - pose proof (plain_py_iter out) as Hiter.
    destruct (py_iter out) as [more|e0]; [apply IH|].
    cbn [fst]. intros H. injection H as <-. left. now apply Hiter.
  - cbn [fst]. intros H. injection H as <-. now apply Hc.
Qed.

(** X20: provided the decoder raises exceptions of its own only, as
    [json.loads] does: a run of [extract_invoice_data] that fails with an
    HTTPException fails with status 500, never with a status of the 4xx
    class, and the detail is the missing-key message, or stands under one of
    the headings of the provider call, of the empty answer, of the JSON
    parsing and of the client-name normalisation, or is the no-results
    message; any other failure is an exception of Python itself, raised by
    the decoder, the filter or the merge on data of the wrong shape. *)
Theorem run_fails_with_status_500
  (E : env) (file_name companyId : string) (company_config : company)
  (clients_list : json) (pages_text : list string) (l : list string)
  (e : exn) :
  (forall t e', json_loads E t = Raise e' -> is_http e' = false) ->
  fst (extract_invoice_data E file_name companyId company_config clients_list
                            pages_text l) = Raise e ->
  is_http e = false
  \/ exists detail, e = HTTPException 500 detail /\ run_failure detail.
Proof.
  intros Hjson. unfold extract_invoice_data, bindM.
  pose proof (extract_chunks_failure E (MAIN_PROMPT company_config) pages_text
                (chunk_starts pages_text) Hjson [] l) as Hx.
  destruct (extract_chunks E (MAIN_PROMPT company_config) pages_text
              (chunk_starts pages_text) [] l) as [[raw|e0] l1];
    cbn [fst] in Hx.
  - destruct raw as [|c raw].
    + cbn [fst raise]. intros H. injection H as <-. right. eexists.
      split; [reflexivity|]. do 3 right. now left.
    + unfold normalize_results, bindM, lift.
      pose proof (normalize_chunks_failure E (PRODUCTS_LIST company_config)
                    (COVERINGS_LIST company_config) clients_list (c :: raw)
                    [] l1) as Hn.
      destruct (normalize_chunks E (c :: raw) (PRODUCTS_LIST company_config)
                  (COVERINGS_LIST company_config) clients_list [] l1)
        as [[items|e0] l2]; cbn [fst] in Hn.
      * pose proof (plain_merge items) as Hm.
        destruct (merge_items_by_invoice items) as [merged|e0];
          cbn [fst ret]; [discriminate|].
        intros H. injection H as <-. left. now apply Hm.
      * cbn [fst]. intros H. injection H as <-. now apply Hn.
  - cbn [fst]. intros H. injection H as <-. now apply Hx.
Qed.

Lemma run_fails_with_status_500_witness :
  (forall t e', json_loads (SampleRun.env_of (SampleRun.answer "[armchair record]")
                                             SampleRun.outage) t = Raise e' ->
                is_http e' = false)
  /\ (is_http (HTTPException 500
         "Error during client names normalization in chunk: 500: Error during Gemini API call: 503 Service Unavailable")
      = false
      \/ exists detail,
           HTTPException 500
             "Error during client names normalization in chunk: 500: Error during Gemini API call: 503 Service Unavailable"
           = HTTPException 500 detail /\ run_failure detail).
Proof.
  pose (E := SampleRun.env_of (SampleRun.answer "[armchair record]")
                              SampleRun.outage).
  assert (H1 : forall t e', json_loads E t = Raise e' -> is_http e' = false).
  { intros t e'. cbn [json_loads E SampleRun.env_of]. unfold SampleRun.decode.
    destruct (String.eqb t "[]"); [discriminate|].
    destruct (String.eqb t "[armchair record]"); [discriminate|].
    intros H. injection H as <-. reflexivity. }
  assert (H2 : fst (extract_invoice_data E "invoices.pdf"
                      "86e676e3-4cc0-4725-b12c-358d3b4b3e43"
                      SampleRun.le_comfort SampleRun.crm_clients
                      SampleRun.one_page [])
               = Raise (HTTPException 500
                   "Error during client names normalization in chunk: 500: Error during Gemini API call: 503 Service Unavailable"))
    by (vm_compute; reflexivity).
  split; [exact H1|].
  exact (run_fails_with_status_500 E _ _ _ _ _ _ _ H1 H2).
Defined.

End ErrorLaws.

(** ** What the merge does to its arguments *)

Module MergeEffects.
Import PyStr Py DataFormatter Spec MergeObjects MergeObjectsFacts.

Lemma store_set_out (s : store) (a : nat) (v : list json) :
  List.length s <= a -> store_set s a v = s.
Proof.
  revert a. induction s as [|x s IH]; intros a Ha; [reflexivity|].
  destruct a as [|a]; cbn [List.length] in Ha; [lia|].
  cbn [store_set]. rewrite IH by lia. reflexivity.
Qed.

(** A write to the store appends to one list and leaves the others. *)
Lemma store_set_appends (s : store) (a : nat) (more : list json) (b : nat) :
  exists added,
    load (store_set s a (load s a ++ more)%list) b = (load s b ++ added)%list
    /\ (b <> a -> added = []).
Proof.
  destruct (Nat.eq_dec b a) as [-> | Hne].
  - destruct (le_lt_dec (List.length s) a) as [Hout | Hin].
    + rewrite store_set_out by exact Hout. exists [].
      split; [now rewrite app_nil_r | reflexivity].
    + rewrite load_store_set_same by exact Hin. exists more.
      split; [reflexivity | intros H; now destruct H].
  - rewrite load_store_set_other by congruence. exists [].
    split; [now rewrite app_nil_r | reflexivity].
Qed.

(** One turn of the loop files the item or appends to the list of a
    filed record. *)
Lemma merge_step_obj_effect (s1 s2 : store) (d1 d2 : filed) (item : record_obj) :
  merge_step_obj (s1, d1) item = Ok (s2, d2) ->
  List.length s2 = List.length s1
  /\ (forall a, exists added, load s2 a = (load s1 a ++ added)%list)
  /\ (forall a, ~ In a (addresses (map snd d1)) -> load s2 a = load s1 a)
  /\ (d2 = d1 \/ exists k, d2 = (d1 ++ [(k, item)])%list).
Proof.
  unfold merge_step_obj.
  assert (Hsame : forall s d, Ok (s1, d1) = Ok (s, d) :> result (store * filed) ->
            List.length s = List.length s1
            /\ (forall a, exists added, load s a = (load s1 a ++ added)%list)
            /\ (forall a, ~ In a (addresses (map snd d1)) ->
                          load s a = load s1 a)
            /\ d = d1).
  { intros s d H. injection H as <- <-. split; [reflexivity|]. split.
    - intros a. exists []. now rewrite app_nil_r.
    - split; [reflexivity | reflexivity]. }
  destruct (negb (truthy (get_invoice_number (fields item)))).
  - intros H. destruct (Hsame _ _ H) as [H1 [H2 [H3 H4]]]. auto.
  - destruct (hash_key (get_invoice_number (fields item))) as [k|e];
      cbn [bind]; [|discriminate].
    destruct (filed_get k d1) as [stored|] eqn:Hget.
    + intros H. injection H as <- <-.
      split; [apply store_set_length|]. split; [|split; [|now left]].
      * intros a.
        destruct (store_set_appends s1 (products_at stored)
                    (load s1 (products_at item)) a) as [added [Ha _]].
        now exists added.
      * intros a Ha. apply load_store_set_other. intros <-. apply Ha.
        now apply (filed_get_In k).
    + intros H. injection H as <- <-. split; [reflexivity|]. split.
      * intros a. exists []. now rewrite app_nil_r.
      * split; [reflexivity|]. right. now exists k.
Qed.

Lemma merge_loop_obj_effect (items : list record_obj) :
  forall (s1 s2 : store) (d1 d2 : filed),
    merge_loop_obj (s1, d1) items = Ok (s2, d2) ->
    List.length s2 = List.length s1
    /\ (forall a, exists added, load s2 a = (load s1 a ++ added)%list)
    /\ (forall a, ~ In a (addresses (map snd d2)) -> load s2 a = load s1 a)
    /\ exists later,
         d2 = (d1 ++ later)%list
         /\ forall e, In e later -> In (snd e) items.
Proof.
  induction items as [|item items IH]; intros s1 s2 d1 d2 H.
  - cbn in H. injection H as <- <-. split; [reflexivity|]. split.
    + intros a. exists []. now rewrite app_nil_r.
    + split; [reflexivity|]. exists []. split; [now rewrite app_nil_r|].
      intros e [].
  - cbn [merge_loop_obj] in H.
    destruct (merge_step_obj (s1, d1) item) as [[s d]|e] eqn:Hstep;
      cbn [bind] in H; [|discriminate].
    destruct (merge_step_obj_effect _ _ _ _ _ Hstep) as [Hl1 [Happ1 [Hkeep1 Hd]]].
    destruct (IH _ _ _ _ H) as [Hl2 [Happ2 [Hkeep2 [later [-> Hlater]]]]].
    split; [congruence|]. split; [|split].
    + intros a. destruct (Happ1 a) as [x Hx]. destruct (Happ2 a) as [y Hy].
      exists (x ++ y)%list. now rewrite Hy, Hx, app_assoc.
    + intros a Ha. rewrite Hkeep2 by exact Ha. apply Hkeep1.
      intros Hin. apply Ha. unfold addresses in *.
      rewrite !map_app. apply in_or_app. left.
      destruct Hd as [-> | [k ->]]; [exact Hin|].
      rewrite !map_app. apply in_or_app. now left.
    + destruct Hd as [-> | [k ->]].
      * exists later. split; [reflexivity|].
        intros e He. right. now apply Hlater.
      * exists ((k, item) :: later). split; [now rewrite <- app_assoc|].
        intros e [<- | He]; [now left | right; now apply Hlater].
Qed.

(** X21: [merge_items_by_invoice] changes its arguments. Every entry it
    returns is an input record, read after the call: the entry and the
    record share one list of products, so that the caller's first record of
    an invoice number lists the merged products too. The call only ever
    appends to such lists: no list shrinks or is reordered, and the list of
    a record that is not returned is as it was. *)
Theorem merge_grows_the_lists_of_its_arguments
  (s : store) (items : list record_obj) (out : list json) :
  merge_objects s items = Ok out ->
  exists (s' : store) (returned : list record_obj),
    out = map (value_of s') returned
    /\ (forall r, In r returned -> In r items)
    /\ List.length s' = List.length s
    /\ (forall a, exists added, load s' a = (load s a ++ added)%list)
    /\ (forall a, ~ In a (addresses returned) -> load s' a = load s a).
Proof.
  unfold merge_objects. intros H.
  destruct (merge_loop_obj (s, []) items) as [[s' d']|e] eqn:Hloop;
    cbn [bind] in H; [|discriminate].
  injection H as <-. cbn [fst snd].
  destruct (merge_loop_obj_effect _ _ _ _ _ Hloop)
    as [Hlen [Happ [Hkeep [later [Hd Hlater]]]]].
  cbn [app] in Hd. subst later.
  exists s', (map snd d'). split; [now rewrite map_map|].
  split; [|split; [exact Hlen|split; [exact Happ | exact Hkeep]]].
  intros r Hr. apply in_map_iff in Hr. destruct Hr as [e [<- He]].
  now apply Hlater.
Qed.

Lemma merge_grows_the_lists_of_its_arguments_witness :
  merge_objects sample_store sample_objects
  = Ok [JObj [("name", JStr "Mario Rossi"); ("id", JStr "42");
              ("invoice_number", JStr "123/2024");
              ("invoice_date", JStr "01/01/2024");
              ("products", JArr [JObj Samples.sofa; JObj Samples.armchair;
                                 JObj Samples.armchair])]]
  /\ exists (s' : store) (returned : list record_obj),
       [JObj [("name", JStr "Mario Rossi"); ("id", JStr "42");
              ("invoice_number", JStr "123/2024");
              ("invoice_date", JStr "01/01/2024");
              ("products", JArr [JObj Samples.sofa; JObj Samples.armchair;
                                 JObj Samples.armchair])]]
       = map (value_of s') returned
       /\ (forall r, In r returned -> In r sample_objects)
       /\ List.length s' = List.length sample_store
       /\ (forall a, exists added,
             load s' a = (load sample_store a ++ added)%list)
       /\ (forall a, ~ In a (addresses returned) ->
             load s' a = load sample_store a).
Proof.
  assert (H : merge_objects sample_store sample_objects
              = Ok [JObj [("name", JStr "Mario Rossi"); ("id", JStr "42");
                          ("invoice_number", JStr "123/2024");
                          ("invoice_date", JStr "01/01/2024");
                          ("products", JArr [JObj Samples.sofa;
                                             JObj Samples.armchair;
                                             JObj Samples.armchair])]])
    by reflexivity.
  split; [exact H|].
  exact (merge_grows_the_lists_of_its_arguments _ _ _ H).
Defined.

(** The caller's first record before and after the call. *)
Example first_record_after_the_merge :
  load sample_store 0 = [JObj Samples.sofa; JObj Samples.armchair]
  /\ match merge_loop_obj (sample_store, []) sample_objects with
     | Ok st => load (fst st) 0
     | Raise _ => []
     end = [JObj Samples.sofa; JObj Samples.armchair; JObj Samples.armchair].
Proof. split; reflexivity. Qed.

End MergeEffects.

(** ** Signed numerals *)

Module CoercionLaws.
Import PyStr PyNum Py DataFormatter Spec PyStrFacts PyNumFacts Coercion.

Lemma sign_solid (neg : bool) (s : string) :
  solid s = true -> solid ((if neg then "-" else "+") ++ s) = true.
Proof. intros H. destruct neg; cbn [append solid]; now rewrite H. Qed.

Lemma split_sign_signed (neg : bool) (s : string) :
  split_sign ((if neg then "-" else "+") ++ s) = (neg, s).
Proof. destruct neg; reflexivity. Qed.

Lemma drop_underscores_signed (neg : bool) (s : string) :
  grouped s = true ->
  drop_underscores false ((if neg then "-" else "+") ++ s)
  = Some ((if neg then "-" else "+") ++ s).
Proof.
  intros H. destruct neg; cbn [append drop_underscores Ascii.eqb Bool.eqb];
    now rewrite (drop_underscores_grouped s _ H).
Qed.

(** [int] on a sign and digits. *)
Lemma py_int_signed (neg : bool) (d : string) :
  all_digits d = true -> d <> "" ->
  String.length d <= int_max_str_digits ->
  py_int ((if neg then "-" else "+") ++ d)
  = Some (if neg then - digits_value d else digits_value d)%Z.
Proof.
  intros Hd Hne Hlen. pose proof (all_digits_grouped d Hd) as Hg.
  unfold py_int.
  rewrite (strip_id _ (sign_solid neg d (grouped_solid _ Hg))).
  rewrite split_sign_signed, (drop_underscores_grouped _ _ Hg).
  apply Nat.leb_le in Hlen. rewrite Hd, Hlen.
  destruct d; [contradiction | reflexivity].
Qed.

(** [float] on a sign, digits, a point and digits. *)
Lemma py_float_signed (neg : bool) (d f : string) :
  all_digits d = true -> all_digits f = true -> d ++ f <> "" ->
  py_float ((if neg then "-" else "+") ++ d ++ "." ++ f)
  = Some (round_decimal neg (digits_value (d ++ f))
                        (- Z.of_nat (String.length f))).
Proof.
  intros Hd Hf Hne.
  assert (Hg : grouped (d ++ "." ++ f) = true).
  { rewrite !grouped_app, (all_digits_grouped d Hd), (all_digits_grouped f Hf).
    reflexivity. }
  unfold py_float.
  rewrite (strip_id _ (sign_solid neg _ (grouped_solid _ Hg))).
  rewrite (drop_underscores_signed neg _ Hg), split_sign_signed.
  unfold parse_decimal.
  rewrite (span_digits_all d ("." ++ f) Hd)
    by (intros c t H; injection H as <- _; reflexivity).
  cbn [append]. cbv iota beta.
  pose proof (span_digits_all f "" Hf ltac:(discriminate)) as Hspan.
  rewrite append_nil_r in Hspan. rewrite Hspan.
  destruct (d ++ f) eqn:Hdf; [contradiction | reflexivity].
Qed.

Lemma sign_not_empty (neg : bool) (a b c : string) :
  a ++ ((if neg then "-" else "+") ++ b) ++ c <> "".
Proof.
  intros H. apply append_empty in H. destruct H as [_ H].
  apply append_empty in H. destruct H as [H _]. destruct neg; discriminate H.
Qed.

(** X24: neither converter has a lower bound: a quantity and a price written
    with a sign, white space around them, coerce to the number with that
    sign, so that "-3" is the quantity -3 and a price with a minus sign is a
    negative float. *)
Theorem signed_numbers_keep_their_sign
  (neg : bool) (w1 w2 : string) :
  blank w1 = true -> blank w2 = true ->
  let sign := if neg then "-" else "+" in
  (forall d,
      all_digits d = true -> d <> "" ->
      String.length d <= int_max_str_digits ->
      convert_quantity_to_int (JStr (w1 ++ (sign ++ d) ++ w2))
      = JInt (if neg then - digits_value d else digits_value d)%Z)
  /\ (forall ip fp,
        grouped ip = true -> all_digits fp = true ->
        replace "." "" ip ++ fp <> "" ->
        convert_price_to_float (JStr (w1 ++ (sign ++ ip ++ "," ++ fp) ++ w2))
        = JFloat (round_decimal neg
                    (digits_value (replace "." "" ip ++ fp))
                    (- Z.of_nat (String.length fp)))).
Proof.
  intros H1 H2. cbn zeta. split.
  - intros d Hd Hne Hlen.
    rewrite convert_quantity_str by apply sign_not_empty.
    rewrite (strip_solid w1 _ w2 H1
               (sign_solid neg d (all_digits_solid d Hd)) H2).
    now rewrite (py_int_signed neg d Hd Hne Hlen).
  - intros ip fp Hip Hfp Hne.
    rewrite convert_price_str by apply sign_not_empty.
    assert (Hclean : cleaned_price (w1 ++ ((if neg then "-" else "+")
                                           ++ ip ++ "," ++ fp) ++ w2)
                     = (if neg then "-" else "+")
                       ++ replace "." "" ip ++ "." ++ fp).
    { unfold cleaned_price. rewrite strip_solid; auto.
      - rewrite !replace_app.
        rewrite (replace_digits "." "" fp eq_refl Hfp).
        assert (Hs : replace "." "" (if neg then "-" else "+")
                     = (if neg then "-" else "+")) by (destruct neg; reflexivity).
        rewrite Hs. cbn [replace Ascii.eqb Bool.eqb append].
        assert (Hs' : replace "," "." (if neg then "-" else "+")
                      = (if neg then "-" else "+")) by (destruct neg; reflexivity).
        rewrite Hs'.
        rewrite (replace_digits "," "." _ eq_refl (grouped_digits ip Hip)).
        now rewrite (replace_digits "," "." fp eq_refl Hfp).
      - apply sign_solid.
        rewrite !solid_app, (grouped_solid ip Hip), (all_digits_solid fp Hfp).
        reflexivity. }
    rewrite Hclean.
    now rewrite (py_float_signed neg _ fp (grouped_digits ip Hip) Hfp Hne).
Qed.

Lemma signed_numbers_keep_their_sign_witness :
  blank " " = true /\ blank "" = true
  /\ convert_quantity_to_int (JStr (" " ++ ("-" ++ "3") ++ "")) = JInt (-3)%Z.
Proof.
  assert (H1 : blank " " = true) by reflexivity.
  assert (H2 : blank "" = true) by reflexivity.
  assert (H3 : all_digits "3" = true) by reflexivity.
  assert (H4 : "3" <> "") by (intros H; discriminate H).
  assert (H5 : String.length "3" <= int_max_str_digits)
    by (apply Nat.leb_le; reflexivity).
  split; [exact H1|]. split; [exact H2|].
  exact (proj1 (signed_numbers_keep_their_sign true " " "" H1 H2)
               "3" H3 H4 H5).
Defined.

End CoercionLaws.

(** ** Words that [float] reads *)

Module PriceWords.
Import PyStr PyNum Py DataFormatter Spec Laws PyStrFacts PyNumFacts Coercion.

(** A letter is no white space, no digit, no sign and no separator. *)
Lemma letter_plain (c : ascii) :
  low (lower_char c) = true ->
  isspace c = false /\ isdigit c = false
  /\ Ascii.eqb c "_" = false /\ Ascii.eqb c "." = false
  /\ Ascii.eqb c "," = false /\ Ascii.eqb c "-" = false
  /\ Ascii.eqb c "+" = false.
Proof.
  destruct c as [[|] [|] [|] [|] [|] [|] [|] [|]]; intros H;
    try discriminate H; repeat split.
Qed.

Lemma letters_solid (w : string) : lows (lower w) = true -> solid w = true.
Proof.
  induction w as [|c w IH]; cbn [lower lows solid]; [reflexivity|].
  intros H. apply andb_true_iff in H. destruct H as [Hc H].
  destruct (letter_plain c Hc) as [-> _]. now rewrite IH.
Qed.

Lemma letters_replace (old : ascii) (new w : string) :
  low (lower_char old) = false -> lows (lower w) = true ->
  replace old new w = w.
Proof.
  intros Hold. induction w as [|c w IH]; cbn [lower lows replace];
    [reflexivity|].
  intros H. apply andb_true_iff in H. destruct H as [Hc H].
  destruct (Ascii.eqb_spec c old) as [->|_]; [congruence|].
  now rewrite IH.
Qed.

Lemma letters_drop_underscores (w : string) (prev : bool) :
  lows (lower w) = true -> drop_underscores prev w = Some w.
Proof.
  revert prev. induction w as [|c w IH]; intros prev; [reflexivity|].
  cbn [lower lows drop_underscores].
  intros H. apply andb_true_iff in H. destruct H as [Hc H].
  destruct (letter_plain c Hc) as [_ [_ [-> _]]].
  now rewrite (IH _ H).
Qed.

Lemma letters_split_sign (w : string) :
  lows (lower w) = true -> split_sign w = (false, w).
Proof.
  destruct w as [|c w]; [reflexivity|]. cbn [lower lows].
  intros H. apply andb_true_iff in H. destruct H as [Hc _].
  destruct (letter_plain c Hc) as [_ [_ [_ [_ [_ [Hm Hp]]]]]].
  apply Ascii.eqb_neq in Hm, Hp. unfold split_sign.
  destruct c as [[|] [|] [|] [|] [|] [|] [|] [|]];
    try reflexivity; [now destruct Hp | now destruct Hm].
Qed.

Lemma letters_parse_decimal (w : string) :
  lows (lower w) = true -> parse_decimal w = None.
Proof.
  destruct w as [|c w]; [reflexivity|]. cbn [lower lows].
  intros H. apply andb_true_iff in H. destruct H as [Hc _].
  destruct (letter_plain c Hc) as [_ [Hd [_ [Hdot _]]]].
  apply Ascii.eqb_neq in Hdot.
  unfold parse_decimal. cbn [span_digits]. rewrite Hd.
  destruct c as [[|] [|] [|] [|] [|] [|] [|] [|]];
    try reflexivity. now destruct Hdot.
Qed.

Lemma sign_text_solid (sign : option bool) (w : string) :
  solid w = true -> solid (sign_text sign ++ w) = true.
Proof.
  intros H. destruct sign as [[|]|]; cbn [sign_text append solid];
    now rewrite ?H.
Qed.

(** [float] on an optional sign and a word without digits. *)
Lemma py_float_word (sign : option bool) (w : string) :
  lows (lower w) = true ->
  py_float (sign_text sign ++ w)
  = if String.eqb (lower w) "inf" || String.eqb (lower w) "infinity"
    then Some (S754_infinity (sign_is_minus sign))
    else if String.eqb (lower w) "nan" then Some S754_nan else None.
Proof.
  intros Hw. unfold py_float.
  rewrite (strip_id _ (sign_text_solid sign w (letters_solid w Hw))).
  assert (Hdrop : drop_underscores false (sign_text sign ++ w)
                  = Some (sign_text sign ++ w)).
  { destruct sign as [[|]|];
      cbn [sign_text append drop_underscores Ascii.eqb Bool.eqb];
      now rewrite (letters_drop_underscores w _ Hw). }
  rewrite Hdrop.
  assert (Hsplit : split_sign (sign_text sign ++ w) = (sign_is_minus sign, w)).
  { destruct sign as [[|]|]; try reflexivity.
    cbn [sign_text append sign_is_minus]. now apply letters_split_sign. }
  rewrite Hsplit, (letters_parse_decimal w Hw). reflexivity.
Qed.

(** X27: some words are prices to [convert_price_to_float]: "inf",
    "infinity" and "nan", in any mix of capitals and small letters, after an
    optional sign and with white space around them, coerce to an infinite
    float of that sign and to a NaN, not to None. *)
Theorem words_that_are_prices
  (sign : option bool) (w1 w w2 : string) :
  blank w1 = true -> blank w2 = true ->
  (lower w = "inf" \/ lower w = "infinity" ->
   convert_price_to_float (JStr (w1 ++ (sign_text sign ++ w) ++ w2))
   = JFloat (S754_infinity (sign_is_minus sign)))
  /\ (lower w = "nan" ->
      convert_price_to_float (JStr (w1 ++ (sign_text sign ++ w) ++ w2))
      = JFloat S754_nan).
Proof.
  intros H1 H2.
  assert (Hword : lows (lower w) = true -> w <> "" ->
            convert_price_to_float (JStr (w1 ++ (sign_text sign ++ w) ++ w2))
            = match py_float (sign_text sign ++ w) with
              | Some f => JFloat f
              | None => JNull
              end).
  { intros Hw Hne. rewrite convert_price_str.
    - unfold cleaned_price.
      rewrite (strip_solid w1 _ w2 H1
                 (sign_text_solid sign w (letters_solid w Hw)) H2).
      rewrite !replace_app.
      rewrite (letters_replace "." "" w eq_refl Hw).
      rewrite (letters_replace "," "." w eq_refl Hw).
      now destruct sign as [[|]|].
    - intros Hnil. apply append_empty in Hnil. destruct Hnil as [_ Hnil].
      apply append_empty in Hnil. destruct Hnil as [Hnil _].
      apply append_empty in Hnil. now destruct Hnil as [_ Hnil]. }
  split.
  - intros Hw.
    assert (Hlows : lows (lower w) = true)
      by (destruct Hw as [-> | ->]; reflexivity).
    assert (Hne : w <> "") by (intros ->; destruct Hw; discriminate).
    rewrite (Hword Hlows Hne), (py_float_word sign w Hlows).
    destruct Hw as [-> | ->]; reflexivity.
  - intros Hw.
    assert (Hlows : lows (lower w) = true) by (rewrite Hw; reflexivity).
    assert (Hne : w <> "") by (intros ->; discriminate).
    rewrite (Hword Hlows Hne), (py_float_word sign w Hlows), Hw.
    reflexivity.
Qed.

Lemma words_that_are_prices_witness :
  blank " " = true /\ blank "" = true
  /\ convert_price_to_float (JStr (" " ++ ("-" ++ "Infinity") ++ ""))
     = JFloat (S754_infinity true)
  /\ convert_price_to_float (JStr (" " ++ ("" ++ "NaN") ++ ""))
     = JFloat S754_nan.
Proof.
  assert (H1 : blank " " = true) by reflexivity.
  assert (H2 : blank "" = true) by reflexivity.
  split; [exact H1|]. split; [exact H2|]. split.
  - exact (proj1 (words_that_are_prices (Some true) " " "Infinity" "" H1 H2)
                 (or_intror eq_refl)).
  - exact (proj2 (words_that_are_prices None " " "NaN" "" H1 H2) eq_refl).
Defined.

End PriceWords.
